(** * Habit tracker: the entity model, the streak engine and the analytics
    of [final.py], embedded in Rocq.

    Conventions of the embedding.

    - A naive [datetime] is a point of the proleptic Gregorian time line and
      is held as its offset in microseconds from [0001-01-01T00:00:00]
      (an integer); comparison of datetimes is comparison of offsets and
      [dt - timedelta(days=p)] is subtraction, with CPython's
      [OverflowError] when the result lies outside the years 1..9999 or
      the timedelta is beyond 999999999 days.  A datetime is an offset
      [dt] with [valid_datetime dt]; statements that depend on the range
      say so.  The text form of a datetime ([isoformat] /
      [fromisoformat]) is modelled on the calendar arithmetic of
      CPython's [datetime] module.
    - Python integers are [Z]; strings are [string].
    - The class attribute [Habit._id_counter] is explicit state, threaded
      through every function that can construct a [Habit].
    - An exception is a value of [exn]; code that can raise returns a
      [result].
    - [while True] is run with a bound on the number of iterations; [None]
      says that the bound was reached before the loop left, [Some (Ok v)]
      that the code returned [v] and [Some (Raise e)] that it raised
      [e]. *)

From Stdlib Require Import ZArith List String Ascii Bool Lia.
From Stdlib Require Import Sorted Permutation.
Import ListNotations.
Local Open Scope Z_scope.
Set Warnings "-register-all".

(* ================================================================= *)
(** ** Python values, exceptions and the state of the process *)

(** The values a document built by [to_dict] (or read by [json.load])
    is made of.  A [dict] keeps its items in insertion order. *)
Inductive pyobj : Type :=
| PyNone
| PyInt (z : Z)
| PyStr (s : string)
| PyList (l : list pyobj)
| PyDict (d : list (string * pyobj)).

Inductive exn : Type :=
| KeyError (key : string)
| TypeError
| ValueError
| IndexError
| AttributeError
| OverflowError.

Inductive result (A : Type) : Type :=
| Ok (a : A)
| Raise (e : exn).
Arguments Ok {A} a.
Arguments Raise {A} e.

(** Sequencing of code that may raise and touches no state, and a list
    comprehension over it. *)
Definition rbind {A B} (r : result A) (k : A -> result B) : result B :=
  match r with Ok a => k a | Raise e => Raise e end.

Fixpoint rmap {A B} (f : A -> result B) (l : list A) : result (list B) :=
  match l with
  | [] => Ok []
  | a :: l' => rbind (f a) (fun b => rbind (rmap f l') (fun bs => Ok (b :: bs)))
  end.

(** The mutable state shared by all habits: the class attribute
    [Habit._id_counter]. *)
Record world : Type := World { _id_counter : Z }.

(** Computations that read and write [world] and may raise.  The state
    reached when an exception is raised is kept: Python does not roll the
    counter back. *)
Definition M (A : Type) : Type := world -> result A * world.

Definition ret {A} (a : A) : M A := fun w => (Ok a, w).
Definition raise {A} (e : exn) : M A := fun w => (Raise e, w).
Definition bind {A B} (m : M A) (k : A -> M B) : M B :=
  fun w => match m w with
           | (Ok a, w') => k a w'
           | (Raise e, w') => (Raise e, w')
           end.
Definition lift {A} (r : result A) : M A := fun w => (r, w).

Notation "x <- m ;; k" := (bind m (fun x => k))
  (at level 61, m at next level, right associativity).

Fixpoint mapM {A B} (f : A -> M B) (l : list A) : M (list B) :=
  match l with
  | [] => ret []
  | a :: l' => b <- f a ;; bs <- mapM f l' ;; ret (b :: bs)
  end.

(** [d[key]] and [d.get(key, default)] on the items of a dict. *)
Fixpoint dict_lookup (key : string) (d : list (string * pyobj)) : option pyobj :=
  match d with
  | [] => None
  | (k, v) :: d' => if String.eqb k key then Some v else dict_lookup key d'
  end.

Definition getitem (data : pyobj) (key : string) : result pyobj :=
  match data with
  | PyDict d => match dict_lookup key d with
                | Some v => Ok v
                | None => Raise (KeyError key)
                end
  | _ => Raise TypeError
  end.

Definition dict_get (data : pyobj) (key : string) (default : pyobj) : result pyobj :=
  match data with
  | PyDict d => match dict_lookup key d with
                | Some v => Ok v
                | None => Ok default
                end
  | _ => Raise AttributeError
  end.

(** Reading a value at the type the record gives its field. *)
Definition as_int (v : pyobj) : result Z :=
  match v with PyInt z => Ok z | _ => Raise TypeError end.
Definition as_str (v : pyobj) : result string :=
  match v with PyStr s => Ok s | _ => Raise TypeError end.
Definition as_list (v : pyobj) : result (list pyobj) :=
  match v with PyList l => Ok l | _ => Raise TypeError end.

(* ================================================================= *)
(** ** Datetimes *)

Definition datetime : Type := Z.

Definition US_PER_SECOND : Z := 1000000.
Definition US_PER_MINUTE : Z := 60 * US_PER_SECOND.
Definition US_PER_HOUR : Z := 60 * US_PER_MINUTE.
Definition US_PER_DAY : Z := 24 * US_PER_HOUR.

(** The length of [d] days in microseconds: the value of
    [timedelta(days=d)] when that has one. *)
Definition timedelta_days (d : Z) : Z := d * US_PER_DAY.

(** [timedelta(days=d)]: a timedelta holds at most 999999999 days either
    way, beyond that the constructor raises [OverflowError]. *)
Definition MAX_DELTA_DAYS : Z := 999999999.

Definition timedelta (days : Z) : result Z :=
  if (- MAX_DELTA_DAYS <=? days) && (days <=? MAX_DELTA_DAYS)
  then Ok (timedelta_days days)
  else Raise OverflowError.

(** [max(l)] of a non-empty list: the running maximum is replaced only by
    a strictly larger item. *)
Definition py_max (x : datetime) (l : list datetime) : datetime :=
  fold_left (fun m y => if m <? y then y else m) l x.

(** [list.sort()]: the items in ascending order (insertion sort; the
    order of equal datetimes cannot be told apart). *)
Fixpoint insert_sorted (x : datetime) (l : list datetime) : list datetime :=
  match l with
  | [] => [x]
  | y :: l' => if x <=? y then x :: l else y :: insert_sorted x l'
  end.

Fixpoint sort (l : list datetime) : list datetime :=
  match l with
  | [] => []
  | x :: l' => insert_sorted x (sort l')
  end.

(* ----------------------------------------------------------------- *)
(** *** The calendar of CPython's [datetime] module *)

Definition _DAYS_IN_MONTH : list Z :=
  [-1; 31; 28; 31; 30; 31; 30; 31; 31; 30; 31; 30; 31].

Definition _DAYS_BEFORE_MONTH : list Z :=
  [-1; 0; 31; 59; 90; 120; 151; 181; 212; 243; 273; 304; 334].

Definition index (l : list Z) (i : Z) : Z := nth (Z.to_nat i) l 0.

Definition _is_leap (year : Z) : bool :=
  (year mod 4 =? 0) && (negb (year mod 100 =? 0) || (year mod 400 =? 0)).

Definition _days_before_year (year : Z) : Z :=
  let y := year - 1 in
  y * 365 + y / 4 - y / 100 + y / 400.

Definition _days_in_month (year month : Z) : Z :=
  if (month =? 2) && _is_leap year then 29 else index _DAYS_IN_MONTH month.

Definition _days_before_month (year month : Z) : Z :=
  index _DAYS_BEFORE_MONTH month
  + (if (month >? 2) && _is_leap year then 1 else 0).

Definition _ymd2ord (year month day : Z) : Z :=
  _days_before_year year + _days_before_month year month + day.

Definition _DI400Y : Z := 146097.
Definition _DI100Y : Z := 36524.
Definition _DI4Y : Z := 1461.

(** The month and the day of the month of the [n]-th day (from 0) of a
    year: the second half of [_ord2ymd]. *)
Definition _month_day (n : Z) (leapyear : bool) : Z * Z :=
  let month := Z.shiftr (n + 50) 5 in
  let preceding :=
    index _DAYS_BEFORE_MONTH month
    + (if (month >? 2) && leapyear then 1 else 0) in
  if preceding >? n then
    let month := month - 1 in
    let preceding :=
      preceding
      - (index _DAYS_IN_MONTH month
         + (if (month =? 2) && leapyear then 1 else 0)) in
    (month, n - preceding + 1)
  else (month, n - preceding + 1).

Definition _ord2ymd (n : Z) : Z * Z * Z :=
  let n := n - 1 in
  let n400 := n / _DI400Y in
  let n := n mod _DI400Y in
  let year := n400 * 400 + 1 in
  let n100 := n / _DI100Y in
  let n := n mod _DI100Y in
  let n4 := n / _DI4Y in
  let n := n mod _DI4Y in
  let n1 := n / 365 in
  let n := n mod 365 in
  let year := year + n100 * 100 + n4 * 4 + n1 in
  if (n1 =? 4) || (n100 =? 4) then (year - 1, 12, 31)
  else
    let leapyear := (n1 =? 3) && (negb (n4 =? 24) || (n100 =? 3)) in
    let '(month, day) := _month_day n leapyear in
    (year, month, day).

Definition _MAXORDINAL : Z := 3652059.

(** The offsets that are datetimes of the years 1..9999. *)
Definition MAX_US : Z := _MAXORDINAL * US_PER_DAY.
Definition valid_datetime (dt : datetime) : Prop := 0 <= dt < MAX_US.

(** [dt - delta] for a datetime and a timedelta: [OverflowError] when the
    result is no datetime of the years 1..9999. *)
Definition datetime_sub (dt : datetime) (delta : Z) : result datetime :=
  let r := dt - delta in
  if (0 <=? r) && (r <? MAX_US) then Ok r else Raise OverflowError.

(* ----------------------------------------------------------------- *)
(** *** Text form *)

Definition digit_char (d : Z) : ascii := ascii_of_nat (48 + Z.to_nat d).

Definition digit_val (c : ascii) : option Z :=
  let n := Z.of_nat (nat_of_ascii c) in
  if (48 <=? n) && (n <=? 57) then Some (n - 48) else None.

(** ["%0wd" % n] for [0 <= n < 10^w]: the [w] low decimal digits. *)
Fixpoint zfill (w : nat) (n : Z) : list ascii :=
  match w with
  | O => []
  | S w' => zfill w' (n / 10) ++ [digit_char (n mod 10)]
  end.

(** [int(s)] on a string of decimal digits. *)
Fixpoint parse_digits_from (acc : Z) (l : list ascii) : option Z :=
  match l with
  | [] => Some acc
  | c :: l' => match digit_val c with
               | Some d => parse_digits_from (acc * 10 + d) l'
               | None => None
               end
  end.

Definition parse_digits (l : list ascii) : option Z :=
  match l with
  | [] => None
  | _ => parse_digits_from 0 l
  end.

(** [s[i:j]] and [s[i] == c] on the characters of a string. *)
Definition slice (i j : nat) (l : list ascii) : list ascii :=
  firstn (j - i) (skipn i l).

Definition char_at (i : nat) (c : ascii) (l : list ascii) : bool :=
  match nth_error l i with
  | Some c' => Ascii.eqb c' c
  | None => false
  end.

(** [datetime.isoformat()]:
    [YYYY-MM-DDTHH:MM:SS], followed by [.ffffff] when the microsecond is
    not 0. *)
Definition isoformat (dt : datetime) : string :=
  let days := dt / US_PER_DAY in
  let rest := dt mod US_PER_DAY in
  let '(year, month, day) := _ord2ymd (days + 1) in
  let hour := rest / US_PER_HOUR in
  let minute := (rest mod US_PER_HOUR) / US_PER_MINUTE in
  let second := (rest mod US_PER_MINUTE) / US_PER_SECOND in
  let microsecond := rest mod US_PER_SECOND in
  string_of_list_ascii
    (zfill 4 year ++ ["-"%char] ++ zfill 2 month ++ ["-"%char] ++ zfill 2 day
     ++ ["T"%char]
     ++ zfill 2 hour ++ [":"%char] ++ zfill 2 minute ++ [":"%char]
     ++ zfill 2 second
     ++ (if microsecond =? 0 then [] else "."%char :: zfill 6 microsecond)).

Definition option_bind {A B} (o : option A) (k : A -> option B) : option B :=
  match o with Some a => k a | None => None end.

(** [datetime.fromisoformat(s)] on the two shapes [isoformat] writes for
    a naive datetime, with any character between the date and the time:
    on these texts the value is CPython's.  [None] stands for
    [ValueError]; CPython reads further variants of ISO 8601 (a date
    alone, a time without seconds, an offset), which [to_dict] never
    writes and this function refuses, so the statements below conclude
    from [None] only for texts of fewer than 7 characters, which no
    version of CPython reads. *)
Definition fromisoformat (s : string) : option datetime :=
  let l := list_ascii_of_string s in
  let n := List.length l in
  if negb ((n =? 19)%nat || (n =? 26)%nat) then None
  else if negb (char_at 4 "-" l && char_at 7 "-" l
                && char_at 13 ":" l && char_at 16 ":" l) then None
  else if (n =? 26)%nat && negb (char_at 19 "." l) then None
  else
    option_bind (parse_digits (slice 0 4 l)) (fun year =>
    option_bind (parse_digits (slice 5 7 l)) (fun month =>
    option_bind (parse_digits (slice 8 10 l)) (fun day =>
    option_bind (parse_digits (slice 11 13 l)) (fun hour =>
    option_bind (parse_digits (slice 14 16 l)) (fun minute =>
    option_bind (parse_digits (slice 17 19 l)) (fun second =>
    option_bind (if (n =? 19)%nat then Some 0
                 else parse_digits (slice 20 26 l)) (fun microsecond =>
    if (1 <=? year) && (year <=? 9999) && (1 <=? month) && (month <=? 12)
       && (1 <=? day) && (day <=? _days_in_month year month)
       && (hour <? 24) && (minute <? 60) && (second <? 60)
    then Some ((_ymd2ord year month day - 1) * US_PER_DAY
               + hour * US_PER_HOUR + minute * US_PER_MINUTE
               + second * US_PER_SECOND + microsecond)
    else None))))))).

(** The two helpers of [final.py]. *)
Definition datetime_to_str (dt : datetime) : string := isoformat dt.

Definition datetime_from_str (s : string) : result datetime :=
  match fromisoformat s with
  | Some dt => Ok dt
  | None => Raise ValueError
  end.


(* ================================================================= *)
(** ** class Habit *)

Module Habit.

Record t : Type := mk {
  habit_id : Z;
  name : string;
  periodicity : Z * Z;          (* (frequency, period in days) *)
  frequency : Z;
  period : Z;
  history : list datetime;
  streak : Z;
  longest_streak : Z;
  creation : datetime
}.

Definition set_history (l : list datetime) (self : t) : t :=
  mk (habit_id self) (name self) (periodicity self) (frequency self)
     (period self) l (streak self) (longest_streak self) (creation self).

Definition set_streak (n : Z) (self : t) : t :=
  mk (habit_id self) (name self) (periodicity self) (frequency self)
     (period self) (history self) n (longest_streak self) (creation self).

Definition set_longest_streak (n : Z) (self : t) : t :=
  mk (habit_id self) (name self) (periodicity self) (frequency self)
     (period self) (history self) (streak self) n (creation self).

(** [edit_habit], option 2: the periodicity and the two attributes read
    from it are replaced together. *)
Definition set_periodicity (p : Z * Z) (self : t) : t :=
  mk (habit_id self) (name self) p (fst p) (snd p)
     (history self) (streak self) (longest_streak self) (creation self).

(** The identifier a new habit gets ([__init__], the lines on
    [habit_id]): the counter, which then moves on by one; or the
    identifier asked for, the counter being raised past it. *)
Definition next_id (habit_id : option Z) : M Z :=
  fun w =>
    match habit_id with
    | None => (Ok (_id_counter w), World (_id_counter w + 1))
    | Some i =>
        (Ok i, if i >=? _id_counter w then World (i + 1) else w)
    end.

(** [Habit(name, periodicity, creation, habit_id)]; [today] is what
    [datetime.today()] returns when it is read. *)
Definition __init__ (today : datetime) (name : string) (periodicity : Z * Z)
    (creation : option datetime) (habit_id : option Z) : M t :=
  i <- next_id habit_id ;;
  ret (mk i name periodicity (fst periodicity) (snd periodicity)
          [] 0 0
          (match creation with Some c => c | None => today end)).

Definition check_in (today : datetime) (checkin_datetime : option datetime)
    (self : t) : t :=
  let checkin_datetime :=
    match checkin_datetime with Some d => d | None => today end in
  set_history (sort (history self ++ [checkin_datetime])) self.

(** The [while True] loop of [update_streak]; [fuel] bounds the number of
    windows looked at.  The loop leaves by [break] with the count, or by
    the [OverflowError] of the subtraction that gives the next window its
    start. *)
Fixpoint update_streak_loop (fuel : nat) (history : list datetime)
    (frequency : Z) (period_length : Z) (count : Z)
    (end_period start_period : datetime) : option (result Z) :=
  match fuel with
  | O => None
  | S fuel' =>
      let checkins :=
        filter (fun dt => (start_period <=? dt) && (dt <=? end_period))
               history in
      if Z.of_nat (List.length checkins) >=? frequency then
        let count := count + 1 in
        let end_period := start_period in
        match datetime_sub end_period period_length with
        | Ok start_period =>
            update_streak_loop fuel' history frequency period_length count
                               end_period start_period
        | Raise e => Some (Raise e)
        end
      else Some (Ok count)
  end.

(** The reference point of [update_streak] for a history [x :: l]. *)
Definition reference_of (update_time : option datetime)
    (x : datetime) (l : list datetime) : datetime :=
  let last_checkin := py_max x l in
  match update_time with
  | Some u => if u <? last_checkin then u else last_checkin
  | None => last_checkin
  end.

(** [update_streak(update_time)].  An exception leaves the habit as it
    was: both attributes are written after the loop. *)
Definition update_streak (fuel : nat) (update_time : option datetime)
    (self : t) : option (result t) :=
  match history self with
  | [] => Some (Ok (set_streak 0 self))
  | x :: l =>
      let reference := reference_of update_time x l in
      match timedelta (period self) with
      | Raise e => Some (Raise e)
      | Ok period_length =>
          let count := 0 in
          let end_period := reference in
          match datetime_sub end_period period_length with
          | Raise e => Some (Raise e)
          | Ok start_period =>
              match update_streak_loop fuel (history self) (frequency self)
                      period_length count end_period start_period
              with
              | None => None
              | Some (Raise e) => Some (Raise e)
              | Some (Ok count) =>
                  let self := set_streak count self in
                  Some (Ok (if streak self >? longest_streak self
                            then set_longest_streak (streak self) self
                            else self))
              end
          end
      end
  end.

Definition to_dict (self : t) : pyobj :=
  PyDict
    [ ("habit_id"%string, PyInt (habit_id self));
      ("name"%string, PyStr (name self));
      ("periodicity"%string,
        PyList [PyInt (fst (periodicity self)); PyInt (snd (periodicity self))]);
      ("history"%string,
        PyList (map (fun dt => PyStr (datetime_to_str dt)) (history self)));
      ("streak"%string, PyInt (streak self));
      ("longest_streak"%string, PyInt (longest_streak self));
      ("creation"%string, PyStr (datetime_to_str (creation self))) ].

(** [data['habit_id']]: an integer, or [None] (JSON [null]). *)
Definition as_optional_int (v : pyobj) : result (option Z) :=
  match v with
  | PyNone => Ok None
  | PyInt z => Ok (Some z)
  | _ => Raise TypeError
  end.

(** [Habit.from_dict(data)].  The arguments of the constructor are read
    in the order they are written; a periodicity of fewer than two items
    raises [IndexError] inside the constructor, after the identifier has
    been given.  The record is typed: a field of another type than the
    record's (and a periodicity of more than two items, which Python
    would keep) is refused with [TypeError]. *)
Definition from_dict (today : datetime) (data : pyobj) : M t :=
  name <- lift (rbind (getitem data "name") as_str) ;;
  periodicity <- lift (rbind (rbind (getitem data "periodicity") as_list)
                             (rmap as_int)) ;;
  creation <- lift (rbind (rbind (getitem data "creation") as_str)
                          datetime_from_str) ;;
  habit_id <- lift (rbind (getitem data "habit_id") as_optional_int) ;;
  habit <- match periodicity with
           | [f; p] => __init__ today name (f, p) (Some creation) habit_id
           | [] | [_] => _ <- next_id habit_id ;; raise IndexError
           | _ => raise TypeError
           end ;;
  history <- lift (rbind (rbind (dict_get data "history" (PyList [])) as_list)
                         (rmap (fun s => rbind (as_str s) datetime_from_str))) ;;
  streak <- lift (rbind (dict_get data "streak" (PyInt 0)) as_int) ;;
  longest_streak <- lift (rbind (dict_get data "longest_streak" (PyInt 0)) as_int) ;;
  ret (set_longest_streak longest_streak
         (set_streak streak (set_history history habit))).

End Habit.

(* ================================================================= *)
(** ** class User *)

Module User.

Record t : Type := mk {
  user_id : Z;
  name : string;
  habits : list Habit.t
}.

(** [User(name, user_id=0, habits=None)]. *)
Definition __init__ (name : string) (user_id : option Z)
    (habits : option (list Habit.t)) : t :=
  mk (match user_id with Some i => i | None => 0 end) name
     (match habits with Some l => l | None => [] end).

Definition set_habits (l : list Habit.t) (self : t) : t :=
  mk (user_id self) (name self) l.

Definition add_habit (habit : Habit.t) (self : t) : t :=
  set_habits (habits self ++ [habit]) self.

Definition delete_habit (habit_id : Z) (self : t) : t :=
  set_habits
    (filter (fun habit => negb (Habit.habit_id habit =? habit_id)) (habits self))
    self.

Definition to_dict (self : t) : pyobj :=
  PyDict
    [ ("user_id"%string, PyInt (user_id self));
      ("name"%string, PyStr (name self));
      ("habits"%string, PyList (map Habit.to_dict (habits self))) ].

Definition from_dict (today : datetime) (data : pyobj) : M t :=
  hs <- lift (rbind (dict_get data "habits" (PyList [])) as_list) ;;
  habits <- mapM (Habit.from_dict today) hs ;;
  name <- lift (rbind (getitem data "name") as_str) ;;
  user_id <- lift (rbind (dict_get data "user_id" (PyInt 0)) as_int) ;;
  ret (__init__ name (Some user_id) (Some habits)).

End User.

(* ================================================================= *)
(** ** Analytics *)

Definition analytics_all_current_habits (user : User.t) : list Habit.t :=
  User.habits user.

Definition periodicity_eqb (p q : Z * Z) : bool :=
  (fst p =? fst q) && (snd p =? snd q).

Definition analytics_habits_by_periodicity (user : User.t)
    (periodicity : Z * Z) : list Habit.t :=
  filter (fun habit => periodicity_eqb (Habit.periodicity habit) periodicity)
         (User.habits user).

(** The [for] loop of [analytics_longest_streak_all]: the habits as the
    loop leaves them (each is updated in place) and the running
    [longest]; an exception of [update_streak] ends the loop. *)
Fixpoint longest_streak_all_loop (fuel : nat) (habits : list Habit.t)
    (longest : Z) : option (result (list Habit.t * Z)) :=
  match habits with
  | [] => Some (Ok ([], longest))
  | habit :: rest =>
      match Habit.update_streak fuel None habit with
      | None => None
      | Some (Raise e) => Some (Raise e)
      | Some (Ok habit') =>
          let longest :=
            if Habit.longest_streak habit' >? longest
            then Habit.longest_streak habit' else longest in
          match longest_streak_all_loop fuel rest longest with
          | None => None
          | Some (Raise e) => Some (Raise e)
          | Some (Ok (rest', longest)) => Some (Ok (habit' :: rest', longest))
          end
      end
  end.

Definition analytics_longest_streak_all (fuel : nat) (user : User.t)
    : option (result (User.t * Z)) :=
  match longest_streak_all_loop fuel (User.habits user) 0 with
  | None => None
  | Some (Raise e) => Some (Raise e)
  | Some (Ok (habits, longest)) =>
      Some (Ok (User.set_habits habits user, longest))
  end.

(** The [for] loop of [analytics_longest_streak_for_habit]: the habits
    as the loop leaves them and the value returned, an [int] or [None]. *)
Fixpoint longest_streak_for_habit_loop (fuel : nat) (habits : list Habit.t)
    (habit_id : Z) : option (result (list Habit.t * pyobj)) :=
  match habits with
  | [] => Some (Ok ([], PyNone))
  | habit :: rest =>
      if Habit.habit_id habit =? habit_id then
        match Habit.update_streak fuel None habit with
        | None => None
        | Some (Raise e) => Some (Raise e)
        | Some (Ok habit') =>
            Some (Ok (habit' :: rest, PyInt (Habit.longest_streak habit')))
        end
      else
        match longest_streak_for_habit_loop fuel rest habit_id with
        | None => None
        | Some (Raise e) => Some (Raise e)
        | Some (Ok (rest', r)) => Some (Ok (habit :: rest', r))
        end
  end.

Definition analytics_longest_streak_for_habit (fuel : nat) (user : User.t)
    (habit_id : Z) : option (result (User.t * pyobj)) :=
  match longest_streak_for_habit_loop fuel (User.habits user) habit_id with
  | None => None
  | Some (Raise e) => Some (Raise e)
  | Some (Ok (habits, r)) => Some (Ok (User.set_habits habits user, r))
  end.

(* ================================================================= *)
(** ** The fixture of [user_data.py] *)

(** [range(n)] and [range(0, n, step)]. *)
Definition range (n : nat) : list Z := map Z.of_nat (seq 0 n).

Definition range_step (n : nat) (step : Z) : list Z :=
  filter (fun i => i mod step =? 0) (range n).

Definition check_in_days (today start_date : datetime) (days : list Z)
    (habit : Habit.t) : Habit.t :=
  fold_left
    (fun h i => Habit.check_in today (Some (start_date + timedelta_days i)) h)
    days habit.

(** The days (counted from [start_date]) on which the habits of the
    fixture are checked in: the bodies of its [for] loops. *)
Definition brush_teeth_days : list Z := range 28.

Definition exercise_days : list Z :=
  filter (fun i => negb (i mod 7 =? 0)) (range 28).

Definition call_parents_days : list Z :=
  map (fun i => i + 1) (range_step 28 7).

Definition read_book_days : list Z :=
  flat_map (fun week => map (fun j => week * 7 + j) (range 3)) (range 4).

Definition meditate_days : list Z :=
  flat_map (fun week => map (fun j => week * 7 + j) (range 5)) (range 4).

(** The five habits of [generate_test_data] with their check-ins, before
    the streaks are updated.  [today] is the reading of the clock that
    gives [start_date]; [tick k] is its reading when habit [k] is
    constructed.  The dates of the fixture lie between [start_date] and
    [today]: they are datetimes, and their arithmetic is the code's,
    when [today] is a datetime at least 28 days after the first one. *)
Definition test_habits (today : datetime) (tick : Z -> datetime)
    : M (list Habit.t) :=
  let start_date := today - timedelta_days 28 in
  habit1 <- Habit.__init__ (tick 1) "Brush Teeth" (1, 1) None None ;;
  let habit1 := check_in_days today start_date brush_teeth_days habit1 in
  habit2 <- Habit.__init__ (tick 2) "Exercise" (1, 1) None None ;;
  let habit2 := check_in_days today start_date exercise_days habit2 in
  habit3 <- Habit.__init__ (tick 3) "Call Parents" (1, 7) None None ;;
  let habit3 := check_in_days today start_date call_parents_days habit3 in
  habit4 <- Habit.__init__ (tick 4) "Read Book" (3, 7) None None ;;
  let habit4 := check_in_days today start_date read_book_days habit4 in
  habit5 <- Habit.__init__ (tick 5) "Meditate" (5, 7) None None ;;
  let habit5 := check_in_days today start_date meditate_days habit5 in
  ret [habit1; habit2; habit3; habit4; habit5].

(** [for habit in user.habits: habit.update_streak()]. *)
Fixpoint update_all (fuel : nat) (habits : list Habit.t)
    : option (result (list Habit.t)) :=
  match habits with
  | [] => Some (Ok [])
  | habit :: rest =>
      match Habit.update_streak fuel None habit with
      | None => None
      | Some (Raise e) => Some (Raise e)
      | Some (Ok habit') =>
          match update_all fuel rest with
          | None => None
          | Some (Raise e) => Some (Raise e)
          | Some (Ok rest') => Some (Ok (habit' :: rest'))
          end
      end
  end.

(** [generate_test_data()], up to the call of [save_data]: the user that
    is saved. *)
Definition generate_test_data (fuel : nat) (today : datetime)
    (tick : Z -> datetime) (w : world) : option (result User.t * world) :=
  match test_habits today tick w with
  | (Ok habits, w') =>
      match update_all fuel habits with
      | None => None
      | Some (Raise e) => Some (Raise e, w')
      | Some (Ok habits') =>
          Some (Ok (User.__init__ "Test User" None (Some habits')), w')
      end
  | (Raise e, w') => Some (Raise e, w')
  end.

(* ================================================================= *)
(** ** The streak as the specification words it *)

(** The number of check-ins [t] of the history with [lo <= t <= hi]. *)
Fixpoint checkins_within (lo hi : datetime) (history : list datetime) : Z :=
  match history with
  | [] => 0
  | t :: rest =>
      (if Z_le_dec lo t then if Z_le_dec t hi then 1 else 0 else 0)
      + checkins_within lo hi rest
  end.

(** Window [k] (from 0) walked back from [anchor]: it ends where window
    [k - 1] starts and is [period_length] long. *)
Definition window_end (anchor period_length : Z) (k : nat) : datetime :=
  anchor - Z.of_nat k * period_length.

Definition window_start (anchor period_length : Z) (k : nat) : datetime :=
  window_end anchor period_length k - period_length.

Definition satisfied (history : list datetime) (frequency period_length : Z)
    (anchor : datetime) (k : nat) : Prop :=
  frequency
  <= checkins_within (window_start anchor period_length k)
                     (window_end anchor period_length k) history.

(** [n] is the number of consecutive satisfied windows starting at the
    anchor: windows [0 .. n-1] are satisfied and window [n] is not. *)
Definition consecutive_windows (history : list datetime)
    (frequency period_length : Z) (anchor : datetime) (n : nat) : Prop :=
  (forall k, (k < n)%nat -> satisfied history frequency period_length anchor k)
  /\ ~ satisfied history frequency period_length anchor n.

(** The walk of [n] satisfied windows stays within what a timedelta and
    a datetime can hold: the period is a timedelta and the windows
    [0 .. n], the unsatisfied one included, start at a datetime. *)
Definition walk_in_range (period : Z) (anchor : datetime) (n : nat) : Prop :=
  - MAX_DELTA_DAYS <= period <= MAX_DELTA_DAYS
  /\ forall k, (k <= n)%nat ->
       valid_datetime (window_start anchor (timedelta_days period) k).

(** Every check-in is a datetime that lies at least two periods after the
    first datetime, and so does a reference time by one period: enough
    room for the walk to end at an unsatisfied window. *)
Definition room_for_walk (period : Z) (update_time : option datetime)
    (history : list datetime) : Prop :=
  period <= MAX_DELTA_DAYS
  /\ (forall t, In t history ->
        2 * timedelta_days period <= t /\ t < MAX_US)
  /\ (forall u, update_time = Some u -> timedelta_days period <= u).

(** The same habit with every check-in moved by [c]. *)
Definition shift (c : Z) (h : Habit.t) : Habit.t :=
  Habit.set_history (map (Z.add c) (Habit.history h)) h.

(** What a caller does to one habit between two readings of it: it
    replaces the history, records a check-in, edits the periodicity, or
    recomputes the streak.  A recomputation that raises or does not
    return ends the run. *)
Inductive event : Type :=
| SetHistory (l : list datetime)
| CheckIn (today : datetime) (checkin_datetime : option datetime)
| EditPeriodicity (p : Z * Z)
| UpdateStreak (fuel : nat) (update_time : option datetime).

Definition step (e : event) (h : Habit.t) : option Habit.t :=
  match e with
  | SetHistory l => Some (Habit.set_history l h)
  | CheckIn today d => Some (Habit.check_in today d h)
  | EditPeriodicity p => Some (Habit.set_periodicity p h)
  | UpdateStreak fuel u =>
      match Habit.update_streak fuel u h with
      | Some (Ok h') => Some h'
      | _ => None
      end
  end.

Fixpoint run (es : list event) (h : Habit.t) : option Habit.t :=
  match es with
  | [] => Some h
  | e :: es' => match step e h with
                | Some h' => run es' h'
                | None => None
                end
  end.

(** What Scenario C expects of a history given by its check-in days
    among [range n]: the streak is cut at the most recent day without a
    check-in, so it is the number of check-in days after that day. *)
Definition most_recent_missed (n : nat) (days : list Z) : Z :=
  fold_left Z.max
    (filter (fun i => negb (existsb (Z.eqb i) days)) (range n)) (-1).

Definition days_after_most_recent_miss (n : nat) (days : list Z) : Z :=
  Z.of_nat
    (List.length (filter (fun i => most_recent_missed n days <? i) days)).

(** A run of constructor calls, each with its own arguments. *)
Definition create_all (today : datetime)
    (args : list (string * (Z * Z) * option datetime * option Z))
    : M (list Habit.t) :=
  mapM (fun a =>
          let '(name, periodicity, creation, habit_id) := a in
          Habit.__init__ today name periodicity creation habit_id)
       args.

(** Auxiliary definitions of the proofs about the text form and the
    round trip. *)
Definition month_day_ok (leapyear : bool) (k : nat) : bool :=
  let r := Z.of_nat k in
  let '(m, d) := _month_day r leapyear in
  (1 <=? m) && (m <=? 12) && (1 <=? d)
  && (d <=? (if (m =? 2) && leapyear then 29 else index _DAYS_IN_MONTH m))
  && (index _DAYS_BEFORE_MONTH m + (if (m >? 2) && leapyear then 1 else 0) + d
      =? r + 1).

Definition iso_chars (year month day hour minute second microsecond : Z)
    : list ascii :=
  zfill 4 year ++ ["-"%char] ++ zfill 2 month ++ ["-"%char] ++ zfill 2 day
  ++ ["T"%char]
  ++ zfill 2 hour ++ [":"%char] ++ zfill 2 minute ++ [":"%char]
  ++ zfill 2 second
  ++ (if microsecond =? 0 then [] else "."%char :: zfill 6 microsecond).

(** What deserialization makes of a serialized habit: the habit, with
    [frequency] and [period] read again from its periodicity. *)
Definition restored (h : Habit.t) : Habit.t :=
  Habit.mk (Habit.habit_id h) (Habit.name h) (Habit.periodicity h)
    (fst (Habit.periodicity h)) (snd (Habit.periodicity h))
    (Habit.history h) (Habit.streak h) (Habit.longest_streak h)
    (Habit.creation h).

Definition valid_habit (h : Habit.t) : Prop :=
  valid_datetime (Habit.creation h) /\ Forall valid_datetime (Habit.history h).

(** [n] check-ins, one every [step] from [first] on. *)
Definition regular_checkins (first step : Z) (n : nat) : list datetime :=
  map (fun i => first + Z.of_nat i * step) (seq 0 n).

(** The two attributes of a habit that are read from its periodicity agree
    with it. *)
Definition in_sync (h : Habit.t) : Prop :=
  Habit.frequency h = fst (Habit.periodicity h)
  /\ Habit.period h = snd (Habit.periodicity h).

(** The check-ins counted in the first [n] windows, a check-in once for
    every window it lies in. *)
Fixpoint windows_total (history : list datetime) (period_length : Z)
    (anchor : datetime) (n : nat) : Z :=
  match n with
  | O => 0
  | S k =>
      windows_total history period_length anchor k
      + checkins_within (window_start anchor period_length k)
                        (window_end anchor period_length k) history
  end.

(** Inputs on which the statements below are run. *)
Definition jan_29_2025 : datetime := (_ymd2ord 2025 1 29 - 1) * US_PER_DAY.

Definition demo_habit : Habit.t :=
  Habit.mk 7 "Read" (1, 1) 1 1
    [jan_29_2025; jan_29_2025 + timedelta_days 1; jan_29_2025 + timedelta_days 2]
    0 0 jan_29_2025.

Definition demo_user : User.t := User.mk 0 "Ann" [demo_habit].

(* ================================================================= *)
(** * Properties *)

(* ================================================================= *)
(** ** The window-walking loop *)

Lemma filter_length_checkins_within (lo hi : datetime) (history : list datetime) :
  Z.of_nat (List.length (filter (fun dt => (lo <=? dt) && (dt <=? hi)) history))
  = checkins_within lo hi history.
Proof.
  induction history as [|t rest IH]; simpl; [reflexivity|].
  destruct (Z.leb_spec lo t), (Z.leb_spec t hi);
    destruct (Z_le_dec lo t), (Z_le_dec t hi); try lia;
    cbn [andb List.length]; rewrite <- IH; lia.
Qed.

Lemma checkins_within_nonneg lo hi history : 0 <= checkins_within lo hi history.
Proof.
  induction history as [|t rest IH]; simpl; [lia|].
  destruct (Z_le_dec lo t), (Z_le_dec t hi); lia.
Qed.

Lemma checkins_within_below lo hi history :
  (forall t, In t history -> hi < t) -> checkins_within lo hi history = 0.
Proof.
  induction history as [|t rest IH]; simpl; intros H; [reflexivity|].
  rewrite IH by auto.
  pose proof (H t (or_introl eq_refl)).
  destruct (Z_le_dec lo t), (Z_le_dec t hi); lia.
Qed.

Lemma checkins_within_in lo hi t history :
  In t history -> lo <= t <= hi -> 1 <= checkins_within lo hi history.
Proof.
  intros Hin Ht. induction history as [|y history IH]; [destruct Hin|].
  cbn [checkins_within].
  pose proof (checkins_within_nonneg lo hi history).
  destruct Hin as [->|Hin].
  - destruct (Z_le_dec lo t), (Z_le_dec t hi); lia.
  - specialize (IH Hin). destruct (Z_le_dec lo y), (Z_le_dec y hi); lia.
Qed.

(** A window that counts a check-in holds one. *)
Lemma checkins_within_positive lo hi history :
  1 <= checkins_within lo hi history ->
  exists t, In t history /\ lo <= t <= hi.
Proof.
  induction history as [|t rest IH]; simpl; intros H; [lia|].
  destruct (Z_le_dec lo t) as [H1|H1]; [destruct (Z_le_dec t hi) as [H2|H2]|].
  - exists t. split; [left; reflexivity|lia].
  - destruct (IH ltac:(lia)) as (t' & Hin & Ht'). exists t'. auto.
  - destruct (IH ltac:(lia)) as (t' & Hin & Ht'). exists t'. auto.
Qed.

Lemma window_end_succ anchor P k :
  window_end anchor P (S k) = window_start anchor P k.
Proof. unfold window_start, window_end. lia. Qed.

Lemma window_start_zero anchor P : window_start anchor P 0 = anchor - P.
Proof. unfold window_start, window_end. simpl. lia. Qed.

Lemma window_start_succ anchor P k :
  window_start anchor P (S k) = window_start (anchor - P) P k.
Proof. unfold window_start, window_end. lia. Qed.

(** The window starts lie in a row: between two that are datetimes every
    one is. *)
Lemma window_start_between anchor P n k :
  (k <= n)%nat ->
  valid_datetime (window_start anchor P 0) ->
  valid_datetime (window_start anchor P n) ->
  valid_datetime (window_start anchor P k).
Proof.
  unfold valid_datetime, window_start, window_end. intros Hk H0 Hn.
  simpl (Z.of_nat 0) in H0.
  destruct (Z_le_dec 0 P); nia.
Qed.

(* ----------------------------------------------------------------- *)
(** *** The range of timedeltas and datetimes *)

Lemma valid_datetime_dec dt : {valid_datetime dt} + {~ valid_datetime dt}.
Proof.
  unfold valid_datetime.
  destruct (Z_le_dec 0 dt); [destruct (Z_lt_dec dt MAX_US)|];
    [left|right|right]; lia.
Qed.

Lemma datetime_sub_valid dt delta :
  valid_datetime (dt - delta) -> datetime_sub dt delta = Ok (dt - delta).
Proof.
  unfold valid_datetime, datetime_sub. intros H. cbv zeta.
  destruct (Z.leb_spec 0 (dt - delta)), (Z.ltb_spec (dt - delta) MAX_US);
    try lia. reflexivity.
Qed.

Lemma datetime_sub_invalid dt delta :
  ~ valid_datetime (dt - delta) -> datetime_sub dt delta = Raise OverflowError.
Proof.
  unfold valid_datetime, datetime_sub. intros H. cbv zeta.
  destruct (Z.leb_spec 0 (dt - delta)), (Z.ltb_spec (dt - delta) MAX_US);
    try lia; reflexivity.
Qed.

Lemma datetime_sub_ok dt delta r :
  datetime_sub dt delta = Ok r -> r = dt - delta /\ valid_datetime r.
Proof.
  destruct (valid_datetime_dec (dt - delta)) as [H|H].
  - rewrite (datetime_sub_valid _ _ H). intros [= <-]. auto.
  - rewrite (datetime_sub_invalid _ _ H). discriminate.
Qed.

Lemma datetime_sub_raise dt delta e :
  datetime_sub dt delta = Raise e ->
  e = OverflowError /\ ~ valid_datetime (dt - delta).
Proof.
  destruct (valid_datetime_dec (dt - delta)) as [H|H].
  - rewrite (datetime_sub_valid _ _ H). discriminate.
  - rewrite (datetime_sub_invalid _ _ H). intros [= <-]. auto.
Qed.

Lemma timedelta_in_range d :
  - MAX_DELTA_DAYS <= d <= MAX_DELTA_DAYS -> timedelta d = Ok (timedelta_days d).
Proof.
  unfold timedelta. intros H.
  destruct (Z.leb_spec (- MAX_DELTA_DAYS) d), (Z.leb_spec d MAX_DELTA_DAYS);
    try lia. reflexivity.
Qed.

Lemma timedelta_out_of_range d :
  ~ - MAX_DELTA_DAYS <= d <= MAX_DELTA_DAYS -> timedelta d = Raise OverflowError.
Proof.
  unfold timedelta. intros H.
  destruct (Z.leb_spec (- MAX_DELTA_DAYS) d), (Z.leb_spec d MAX_DELTA_DAYS);
    try lia; reflexivity.
Qed.

Lemma timedelta_ok d P :
  timedelta d = Ok P ->
  P = timedelta_days d /\ - MAX_DELTA_DAYS <= d <= MAX_DELTA_DAYS.
Proof.
  destruct (Z_le_dec (- MAX_DELTA_DAYS) d) as [H1|H1];
    [destruct (Z_le_dec d MAX_DELTA_DAYS) as [H2|H2]|].
  - rewrite timedelta_in_range by lia. intros [= <-]. auto.
  - rewrite timedelta_out_of_range by lia. discriminate.
  - rewrite timedelta_out_of_range by lia. discriminate.
Qed.

Lemma timedelta_raise d e :
  timedelta d = Raise e ->
  e = OverflowError /\ ~ - MAX_DELTA_DAYS <= d <= MAX_DELTA_DAYS.
Proof.
  destruct (Z_le_dec (- MAX_DELTA_DAYS) d) as [H1|H1];
    [destruct (Z_le_dec d MAX_DELTA_DAYS) as [H2|H2]|].
  - rewrite timedelta_in_range by lia. discriminate.
  - rewrite timedelta_out_of_range by lia. intros [= <-]. split; [reflexivity|lia].
  - rewrite timedelta_out_of_range by lia. intros [= <-]. split; [reflexivity|lia].
Qed.

(* ----------------------------------------------------------------- *)
(** *** The loop *)

(** One turn of the loop. *)
Lemma update_streak_loop_unfold fuel history frequency P count e s :
  Habit.update_streak_loop (S fuel) history frequency P count e s
  = if checkins_within s e history >=? frequency
    then match datetime_sub s P with
         | Ok s' =>
             Habit.update_streak_loop fuel history frequency P (count + 1) s s'
         | Raise e' => Some (Raise e')
         end
    else Some (Ok count).
Proof.
  cbn [Habit.update_streak_loop]. rewrite filter_length_checkins_within.
  reflexivity.
Qed.

Lemma satisfied_zero history frequency P anchor :
  satisfied history frequency P anchor 0
  <-> frequency <= checkins_within (anchor - P) anchor history.
Proof.
  unfold satisfied, window_start, window_end. simpl (Z.of_nat 0).
  replace (anchor - 0 * P) with anchor by lia. reflexivity.
Qed.

Lemma satisfied_shift history frequency P anchor k :
  satisfied history frequency P anchor (S k)
  <-> satisfied history frequency P (anchor - P) k.
Proof.
  unfold satisfied, window_start, window_end.
  replace (anchor - Z.of_nat (S k) * P) with (anchor - P - Z.of_nat k * P) by lia.
  reflexivity.
Qed.

Lemma consecutive_windows_succ history frequency P anchor n :
  consecutive_windows history frequency P anchor (S n) ->
  consecutive_windows history frequency P (anchor - P) n.
Proof.
  intros [Hsat Hnot]. split.
  - intros k Hk. apply satisfied_shift. apply Hsat. lia.
  - intros Hs. apply Hnot. apply satisfied_shift. exact Hs.
Qed.

(** The loop leaves by [break] at the first unsatisfied window, when the
    windows on the way start at a datetime. *)
Lemma update_streak_loop_consecutive history frequency P :
  forall n fuel count anchor,
    consecutive_windows history frequency P anchor n ->
    (forall k, (1 <= k <= n)%nat -> valid_datetime (window_start anchor P k)) ->
    (n < fuel)%nat ->
    Habit.update_streak_loop fuel history frequency P count anchor (anchor - P)
    = Some (Ok (count + Z.of_nat n)).
Proof.
  induction n as [|n IH]; intros fuel count anchor Hc Hv Hfuel;
    (destruct fuel as [|fuel]; [lia|]); rewrite update_streak_loop_unfold.
  - destruct Hc as [_ Hnot]. rewrite satisfied_zero in Hnot.
    destruct (Z.geb_spec (checkins_within (anchor - P) anchor history) frequency);
      [lia|]. do 2 f_equal. lia.
  - pose proof (proj1 Hc 0%nat ltac:(lia)) as H0. rewrite satisfied_zero in H0.
    destruct (Z.geb_spec (checkins_within (anchor - P) anchor history) frequency);
      [|lia].
    pose proof (Hv 1%nat ltac:(lia)) as H1.
    rewrite window_start_succ, window_start_zero in H1.
    rewrite (datetime_sub_valid _ _ H1).
    rewrite IH; [do 2 f_equal; lia| | |lia].
    + apply consecutive_windows_succ. exact Hc.
    + intros k Hk. rewrite <- window_start_succ. apply Hv. lia.
Qed.

(** The loop leaves by [OverflowError] when a window on the way, all
    before it being satisfied, starts outside the range of datetime. *)
Lemma update_streak_loop_overflow history frequency P :
  forall m fuel count anchor,
    (forall k, (k <= m)%nat -> satisfied history frequency P anchor k) ->
    (forall k, (1 <= k <= m)%nat -> valid_datetime (window_start anchor P k)) ->
    ~ valid_datetime (window_start anchor P (S m)) ->
    (m < fuel)%nat ->
    Habit.update_streak_loop fuel history frequency P count anchor (anchor - P)
    = Some (Raise OverflowError).
Proof.
  induction m as [|m IH]; intros fuel count anchor Hsat Hv Hbad Hfuel;
    (destruct fuel as [|fuel]; [lia|]); rewrite update_streak_loop_unfold;
    pose proof (Hsat 0%nat ltac:(lia)) as H0; rewrite satisfied_zero in H0;
    (destruct (Z.geb_spec (checkins_within (anchor - P) anchor history)
                          frequency); [|lia]).
  - rewrite window_start_succ, window_start_zero in Hbad.
    rewrite (datetime_sub_invalid _ _ Hbad). reflexivity.
  - pose proof (Hv 1%nat ltac:(lia)) as H1.
    rewrite window_start_succ, window_start_zero in H1.
    rewrite (datetime_sub_valid _ _ H1).
    apply IH; [| | |lia].
    + intros k Hk. apply satisfied_shift. apply Hsat. lia.
    + intros k Hk. rewrite <- window_start_succ. apply Hv. lia.
    + rewrite <- window_start_succ. exact Hbad.
Qed.

(** What the loop returns is the number of consecutive satisfied
    windows, and the windows on the way start at a datetime. *)
Lemma update_streak_loop_result history frequency P :
  forall fuel count anchor r,
    Habit.update_streak_loop fuel history frequency P count anchor (anchor - P)
    = Some (Ok r) ->
    exists n : nat,
      r = count + Z.of_nat n
      /\ (n < fuel)%nat
      /\ consecutive_windows history frequency P anchor n
      /\ forall k, (1 <= k <= n)%nat -> valid_datetime (window_start anchor P k).
Proof.
  induction fuel as [|fuel IH]; intros count anchor r H; [discriminate|].
  rewrite update_streak_loop_unfold in H.
  destruct (Z.geb_spec (checkins_within (anchor - P) anchor history) frequency)
    as [Hs|Hs].
  - destruct (datetime_sub (anchor - P) P) as [s'|e] eqn:Es; [|discriminate].
    apply datetime_sub_ok in Es. destruct Es as [-> Hv'].
    apply IH in H. destruct H as (n & -> & Hn & [Hsat Hnot] & Hv).
    exists (S n). split; [lia|]. split; [lia|]. split; [split|].
    + intros k Hk. destruct k as [|k].
      * apply satisfied_zero. lia.
      * apply satisfied_shift. apply Hsat. lia.
    + intros Hs'. apply Hnot. apply satisfied_shift. exact Hs'.
    + intros k Hk. destruct k as [|k]; [lia|].
      rewrite window_start_succ. destruct k as [|k].
      * rewrite window_start_zero. exact Hv'.
      * apply Hv. lia.
  - injection H as <-. exists 0%nat. split; [lia|]. split; [lia|].
    split; [split|].
    + intros k Hk. lia.
    + rewrite satisfied_zero. lia.
    + intros k Hk. lia.
Qed.

(** The loop raises nothing but the [OverflowError] of a window start. *)
Lemma update_streak_loop_raise history frequency P :
  forall fuel count anchor e,
    Habit.update_streak_loop fuel history frequency P count anchor (anchor - P)
    = Some (Raise e) ->
    e = OverflowError
    /\ exists m : nat,
         (m < fuel)%nat
         /\ (forall k, (k <= m)%nat -> satisfied history frequency P anchor k)
         /\ ~ valid_datetime (window_start anchor P (S m)).
Proof.
  induction fuel as [|fuel IH]; intros count anchor e H; [discriminate|].
  rewrite update_streak_loop_unfold in H.
  destruct (Z.geb_spec (checkins_within (anchor - P) anchor history) frequency)
    as [Hs|Hs]; [|discriminate].
  destruct (datetime_sub (anchor - P) P) as [s'|e'] eqn:Es.
  - apply datetime_sub_ok in Es. destruct Es as [-> Hv'].
    apply IH in H. destruct H as (-> & m & Hm & Hsat & Hbad).
    split; [reflexivity|]. exists (S m). split; [lia|]. split.
    + intros k Hk. destruct k as [|k].
      * apply satisfied_zero. lia.
      * apply satisfied_shift. apply Hsat. lia.
    + rewrite window_start_succ. exact Hbad.
  - injection H as <-. apply datetime_sub_raise in Es. destruct Es as [-> Hbad].
    split; [reflexivity|]. exists 0%nat. split; [lia|]. split.
    + intros k Hk. replace k with 0%nat by lia. apply satisfied_zero. lia.
    + rewrite window_start_succ, window_start_zero. exact Hbad.
Qed.

Lemma update_streak_loop_fuel_mono history frequency P :
  forall fuel fuel' count e s r,
    Habit.update_streak_loop fuel history frequency P count e s = Some r ->
    (fuel <= fuel')%nat ->
    Habit.update_streak_loop fuel' history frequency P count e s = Some r.
Proof.
  induction fuel as [|fuel IH]; intros fuel' count e s r H Hle; [discriminate|].
  destruct fuel' as [|fuel']; [lia|].
  rewrite update_streak_loop_unfold in *.
  destruct (checkins_within s e history >=? frequency); [|exact H].
  destruct (datetime_sub s P); [|exact H].
  apply IH with (fuel' := fuel') in H; [exact H|lia].
Qed.

Lemma update_streak_loop_count_le history frequency P :
  forall fuel count e s r,
    Habit.update_streak_loop fuel history frequency P count e s = Some (Ok r) ->
    count <= r.
Proof.
  induction fuel as [|fuel IH]; intros count e s r H; [discriminate|].
  rewrite update_streak_loop_unfold in H.
  destruct (checkins_within s e history >=? frequency).
  - destruct (datetime_sub s P); [|discriminate]. apply IH in H. lia.
  - injection H as <-. lia.
Qed.

(* ----------------------------------------------------------------- *)
(** *** The number of consecutive satisfied windows *)

Lemma history_lower_bound (history : list datetime) :
  exists lo, forall t, In t history -> lo <= t.
Proof.
  induction history as [|x rest [lo Hlo]].
  - exists 0. intros t [].
  - exists (Z.min x lo). intros t [<-|Ht]; [lia|].
    specialize (Hlo t Ht). lia.
Qed.

Lemma window_end_eventually_below anchor P lo :
  0 < P -> exists N, window_end anchor P N < lo.
Proof.
  intros HP. exists (Z.to_nat (Z.max 0 ((anchor - lo) / P + 1))).
  unfold window_end. rewrite Z2Nat.id by lia.
  pose proof (Z.mul_succ_div_gt (anchor - lo) P HP) as Hdiv.
  unfold Z.succ in Hdiv.
  destruct (Z.max_spec 0 ((anchor - lo) / P + 1)) as [[Hlt ->]|[Hle ->]]; nia.
Qed.

Lemma exists_unsatisfied history frequency P anchor :
  1 <= frequency -> 0 < P ->
  exists N, ~ satisfied history frequency P anchor N.
Proof.
  intros Hf HP.
  destruct (history_lower_bound history) as [lo Hlo].
  destruct (window_end_eventually_below anchor P lo HP) as [N HN].
  exists N. unfold satisfied.
  rewrite checkins_within_below; [lia|].
  intros t Ht. specialize (Hlo t Ht). lia.
Qed.

Lemma satisfied_dec history frequency P anchor k :
  {satisfied history frequency P anchor k}
  + {~ satisfied history frequency P anchor k}.
Proof. unfold satisfied. apply Z_le_dec. Qed.

Lemma consecutive_or_all history frequency P anchor :
  forall N,
    (forall k, (k < N)%nat -> satisfied history frequency P anchor k)
    \/ exists n, (n < N)%nat /\ consecutive_windows history frequency P anchor n.
Proof.
  induction N as [|N [Hall|[n [Hn Hc]]]].
  - left. intros k Hk. lia.
  - destruct (satisfied_dec history frequency P anchor N) as [Hs|Hs].
    + left. intros k Hk.
      destruct (Nat.eq_dec k N) as [->|Hne]; [exact Hs|apply Hall; lia].
    + right. exists N. split; [lia|]. split; assumption.
  - right. exists n. split; [lia|exact Hc].
Qed.

Lemma consecutive_windows_exists history frequency P anchor :
  1 <= frequency -> 0 < P ->
  exists n, consecutive_windows history frequency P anchor n.
Proof.
  intros Hf HP.
  destruct (exists_unsatisfied history frequency P anchor Hf HP) as [N HN].
  destruct (consecutive_or_all history frequency P anchor (S N))
    as [Hall|[n [_ Hc]]].
  - exfalso. apply HN. apply Hall. lia.
  - exists n. exact Hc.
Qed.

Lemma consecutive_windows_unique history frequency P anchor n m :
  consecutive_windows history frequency P anchor n ->
  consecutive_windows history frequency P anchor m -> n = m.
Proof.
  intros [Hn Hn'] [Hm Hm'].
  destruct (Nat.lt_trichotomy n m) as [Hlt|[Heq|Hgt]]; [|exact Heq|].
  - exfalso. apply Hn'. apply Hm. exact Hlt.
  - exfalso. apply Hm'. apply Hn. exact Hgt.
Qed.

Lemma timedelta_days_pos period : 1 <= period -> US_PER_DAY <= timedelta_days period.
Proof. unfold timedelta_days, US_PER_DAY, US_PER_HOUR, US_PER_MINUTE, US_PER_SECOND. lia. Qed.

Lemma timedelta_days_positive period : 1 <= period -> 0 < timedelta_days period.
Proof.
  intros Hp. pose proof (timedelta_days_pos _ Hp) as HP.
  unfold US_PER_DAY, US_PER_HOUR, US_PER_MINUTE, US_PER_SECOND in HP. lia.
Qed.

(** The first window start that is no datetime, if there is one. *)
Lemma first_invalid_start anchor P :
  forall n,
    (forall k, (k <= n)%nat -> valid_datetime (window_start anchor P k))
    \/ exists j, (j <= n)%nat
                 /\ ~ valid_datetime (window_start anchor P j)
                 /\ forall k, (k < j)%nat ->
                      valid_datetime (window_start anchor P k).
Proof.
  induction n as [|n [Hall|(j & Hj & Hbad & Hbefore)]].
  - destruct (valid_datetime_dec (window_start anchor P 0)) as [H|H].
    + left. intros k Hk. replace k with 0%nat by lia. exact H.
    + right. exists 0%nat. split; [lia|]. split; [exact H|]. intros k Hk. lia.
  - destruct (valid_datetime_dec (window_start anchor P (S n))) as [H|H].
    + left. intros k Hk.
      destruct (Nat.eq_dec k (S n)) as [->|Hne]; [exact H|apply Hall; lia].
    + right. exists (S n). split; [lia|]. split; [exact H|].
      intros k Hk. apply Hall. lia.
  - right. exists j. split; [lia|]. split; assumption.
Qed.

Lemma first_invalid_later_start anchor P n :
  (forall k, (1 <= k <= n)%nat -> valid_datetime (window_start anchor P k))
  \/ exists m, (m < n)%nat
               /\ ~ valid_datetime (window_start anchor P (S m))
               /\ forall k, (1 <= k <= m)%nat ->
                    valid_datetime (window_start anchor P k).
Proof.
  destruct n as [|n]; [left; intros k Hk; lia|].
  destruct (first_invalid_start (anchor - P) P n)
    as [Hall|(j & Hj & Hbad & Hbefore)].
  - left. intros k Hk. destruct k as [|k]; [lia|].
    rewrite window_start_succ. apply Hall. lia.
  - right. exists j. split; [lia|]. split.
    + rewrite window_start_succ. exact Hbad.
    + intros k Hk. destruct k as [|k]; [lia|].
      rewrite window_start_succ. apply Hbefore. lia.
Qed.

(* ----------------------------------------------------------------- *)
(** *** [update_streak] *)

(** [update_streak] on a non-empty history, in one equation. *)
Lemma update_streak_nonempty fuel update_time self x l :
  Habit.history self = x :: l ->
  Habit.update_streak fuel update_time self
  = match timedelta (Habit.period self) with
    | Raise e => Some (Raise e)
    | Ok period_length =>
        match datetime_sub (Habit.reference_of update_time x l) period_length
        with
        | Raise e => Some (Raise e)
        | Ok start_period =>
            match Habit.update_streak_loop fuel (Habit.history self)
                    (Habit.frequency self) period_length 0
                    (Habit.reference_of update_time x l) start_period
            with
            | None => None
            | Some (Raise e) => Some (Raise e)
            | Some (Ok count) =>
                Some (Ok (Habit.set_longest_streak
                            (Z.max (Habit.longest_streak self) count)
                            (Habit.set_streak count self)))
            end
        end
    end.
Proof.
  intros Hh. unfold Habit.update_streak. rewrite Hh. rewrite <- Hh.
  destruct (timedelta (Habit.period self)) as [P|e]; [|reflexivity].
  destruct (datetime_sub _ P) as [s|e]; [|reflexivity].
  destruct (Habit.update_streak_loop _ _ _ _ _ _ _) as [[count|e]|];
    try reflexivity.
  do 2 f_equal. destruct self; cbn.
  destruct (Z.gtb_spec count longest_streak).
  - unfold Habit.set_longest_streak, Habit.set_streak; cbn. f_equal. lia.
  - unfold Habit.set_longest_streak, Habit.set_streak; cbn. f_equal. lia.
Qed.

(** The same when the period is a timedelta and the first window starts
    at a datetime. *)
Lemma update_streak_in_range fuel update_time self x l :
  Habit.history self = x :: l ->
  walk_in_range (Habit.period self) (Habit.reference_of update_time x l) 0 ->
  Habit.update_streak fuel update_time self
  = match Habit.update_streak_loop fuel (Habit.history self)
            (Habit.frequency self) (timedelta_days (Habit.period self)) 0
            (Habit.reference_of update_time x l)
            (Habit.reference_of update_time x l
             - timedelta_days (Habit.period self))
    with
    | None => None
    | Some (Raise e) => Some (Raise e)
    | Some (Ok count) =>
        Some (Ok (Habit.set_longest_streak
                    (Z.max (Habit.longest_streak self) count)
                    (Habit.set_streak count self)))
    end.
Proof.
  intros Hh [Hp Hv]. rewrite (update_streak_nonempty _ _ _ x l Hh).
  rewrite (timedelta_in_range _ Hp).
  specialize (Hv 0%nat ltac:(lia)). rewrite window_start_zero in Hv.
  rewrite (datetime_sub_valid _ _ Hv). reflexivity.
Qed.

(** [update_streak] returns the number of consecutive satisfied windows
    when the walk stays in range. *)
Lemma update_streak_ok fuel update_time self x l n :
  Habit.history self = x :: l ->
  consecutive_windows (Habit.history self) (Habit.frequency self)
    (timedelta_days (Habit.period self))
    (Habit.reference_of update_time x l) n ->
  walk_in_range (Habit.period self) (Habit.reference_of update_time x l) n ->
  (n < fuel)%nat ->
  Habit.update_streak fuel update_time self
  = Some (Ok (Habit.set_longest_streak
                (Z.max (Habit.longest_streak self) (Z.of_nat n))
                (Habit.set_streak (Z.of_nat n) self))).
Proof.
  intros Hh Hc [Hp Hv] Hfuel.
  rewrite (update_streak_in_range _ _ _ x l Hh).
  2:{ split; [exact Hp|]. intros k Hk. apply Hv. lia. }
  rewrite (update_streak_loop_consecutive _ _ _ n fuel 0 _ Hc); [reflexivity| |exact Hfuel].
  intros k Hk. apply Hv. lia.
Qed.

(** What [update_streak] stores when it returns. *)
Lemma update_streak_result fuel update_time self self' x l :
  Habit.history self = x :: l ->
  Habit.update_streak fuel update_time self = Some (Ok self') ->
  exists n : nat,
    (n < fuel)%nat
    /\ consecutive_windows (Habit.history self) (Habit.frequency self)
         (timedelta_days (Habit.period self))
         (Habit.reference_of update_time x l) n
    /\ walk_in_range (Habit.period self) (Habit.reference_of update_time x l) n
    /\ self' = Habit.set_longest_streak
                 (Z.max (Habit.longest_streak self) (Z.of_nat n))
                 (Habit.set_streak (Z.of_nat n) self).
Proof.
  intros Hh H. rewrite (update_streak_nonempty _ _ _ x l Hh) in H.
  destruct (timedelta (Habit.period self)) as [P|e] eqn:EP; [|discriminate].
  apply timedelta_ok in EP. destruct EP as [-> Hp].
  destruct (datetime_sub _ _) as [s|e] eqn:Es; [|discriminate].
  apply datetime_sub_ok in Es. destruct Es as [-> Hv0].
  destruct (Habit.update_streak_loop _ _ _ _ _ _ _) as [[count|e]|] eqn:El;
    try discriminate.
  injection H as <-.
  apply update_streak_loop_result in El.
  destruct El as (n & -> & Hn & Hc & Hv).
  exists n. split; [exact Hn|]. split; [exact Hc|]. split; [|reflexivity].
  split; [exact Hp|]. intros k Hk. destruct k as [|k].
  - rewrite window_start_zero. exact Hv0.
  - apply Hv. lia.
Qed.

(** [update_streak] raises nothing but [OverflowError], and only on a
    non-empty history. *)
Lemma update_streak_raise fuel update_time self e :
  Habit.update_streak fuel update_time self = Some (Raise e) ->
  e = OverflowError /\ Habit.history self <> [].
Proof.
  intros H. destruct (Habit.history self) as [|x l] eqn:Hh.
  - unfold Habit.update_streak in H. rewrite Hh in H. discriminate.
  - split; [|discriminate].
    rewrite (update_streak_nonempty _ _ _ x l Hh) in H.
    destruct (timedelta (Habit.period self)) as [P|e'] eqn:EP.
    + apply timedelta_ok in EP. destruct EP as [-> Hp].
      destruct (datetime_sub _ _) as [s|e'] eqn:Es.
      * apply datetime_sub_ok in Es. destruct Es as [-> Hv0].
        destruct (Habit.update_streak_loop _ _ _ _ _ _ _) as [[count|e']|] eqn:El;
          try discriminate.
        injection H as <-. apply update_streak_loop_raise in El. apply El.
      * injection H as <-. apply datetime_sub_raise in Es. apply Es.
    + injection H as <-. apply timedelta_raise in EP. apply EP.
Qed.

(** [update_streak] raises [OverflowError] when the walk leaves the
    range on its way to the first unsatisfied window. *)
Lemma update_streak_overflow fuel update_time self x l n :
  Habit.history self = x :: l ->
  consecutive_windows (Habit.history self) (Habit.frequency self)
    (timedelta_days (Habit.period self))
    (Habit.reference_of update_time x l) n ->
  ~ walk_in_range (Habit.period self) (Habit.reference_of update_time x l) n ->
  (n <= fuel)%nat ->
  Habit.update_streak fuel update_time self = Some (Raise OverflowError).
Proof.
  intros Hh [Hsat _] Hout Hfuel.
  rewrite (update_streak_nonempty _ _ _ x l Hh).
  destruct (timedelta (Habit.period self)) as [P|e] eqn:EP.
  2:{ apply timedelta_raise in EP. destruct EP as [-> _]. reflexivity. }
  apply timedelta_ok in EP. destruct EP as [-> Hp].
  destruct (first_invalid_start (Habit.reference_of update_time x l)
              (timedelta_days (Habit.period self)) n)
    as [Hall|(j & Hj & Hbad & Hbefore)].
  { exfalso. apply Hout. split; assumption. }
  destruct j as [|m].
  - rewrite window_start_zero in Hbad.
    rewrite (datetime_sub_invalid _ _ Hbad). reflexivity.
  - pose proof (Hbefore 0%nat ltac:(lia)) as Hv0.
    rewrite window_start_zero in Hv0.
    rewrite (datetime_sub_valid _ _ Hv0).
    rewrite (update_streak_loop_overflow _ _ _ m fuel 0 _); [reflexivity| | | |lia].
    + intros k Hk. apply Hsat. lia.
    + intros k Hk. apply Hbefore. lia.
    + exact Hbad.
Qed.

Lemma update_streak_fuel_mono fuel fuel' update_time self r :
  Habit.update_streak fuel update_time self = Some r ->
  (fuel <= fuel')%nat ->
  Habit.update_streak fuel' update_time self = Some r.
Proof.
  intros H Hle. destruct (Habit.history self) as [|x l] eqn:Hh.
  - unfold Habit.update_streak in *. rewrite Hh in *. exact H.
  - rewrite (update_streak_nonempty fuel _ _ x l Hh) in H.
    rewrite (update_streak_nonempty fuel' _ _ x l Hh).
    destruct (timedelta (Habit.period self)) as [P|e]; [|exact H].
    destruct (datetime_sub _ P) as [s|e]; [|exact H].
    destruct (Habit.update_streak_loop fuel _ _ _ _ _ _) as [r'|] eqn:Hl;
      [|discriminate].
    eapply update_streak_loop_fuel_mono in Hl; [|exact Hle].
    rewrite Hl. exact H.
Qed.

Lemma py_max_ge_init l : forall x, x <= py_max x l.
Proof.
  unfold py_max. induction l as [|y l IH]; intros x; simpl; [lia|].
  destruct (Z.ltb_spec x y); [specialize (IH y)|specialize (IH x)]; lia.
Qed.

Lemma py_max_upper l : forall x t, In t (x :: l) -> t <= py_max x l.
Proof.
  induction l as [|y l IH]; intros x t Ht.
  - destruct Ht as [<-|[]]. unfold py_max; simpl; lia.
  - unfold py_max in *. simpl.
    destruct (Z.ltb_spec x y) as [Hxy|Hxy].
    + destruct Ht as [<-|Ht]; [|apply IH; exact Ht].
      pose proof (py_max_ge_init l y). unfold py_max in *. lia.
    + destruct Ht as [<-|[<-|Ht]].
      * apply IH. left. reflexivity.
      * pose proof (py_max_ge_init l x). unfold py_max in *. lia.
      * apply IH. right. exact Ht.
Qed.

Lemma py_max_in l : forall x, In (py_max x l) (x :: l).
Proof.
  unfold py_max. induction l as [|y l IH]; intros x; simpl; [auto|].
  destruct (Z.ltb_spec x y).
  - right. apply IH.
  - destruct (IH x) as [H1|H1]; [left; exact H1|right; right; exact H1].
Qed.

Lemma py_max_unique x l m :
  In m (x :: l) -> (forall t, In t (x :: l) -> t <= m) -> py_max x l = m.
Proof.
  intros Hin Hub.
  pose proof (py_max_in l x) as H1. pose proof (py_max_upper l x m Hin) as H2.
  specialize (Hub _ H1). lia.
Qed.

Lemma reference_of_cases update_time x l :
  let last_checkin := py_max x l in
  let reference := Habit.reference_of update_time x l in
  (forall u, update_time = Some u -> u < last_checkin -> reference = u)
  /\ (forall u, update_time = Some u -> last_checkin <= u ->
      reference = last_checkin)
  /\ (update_time = None -> reference = last_checkin)
  /\ (reference <> last_checkin ->
      update_time = Some reference /\ reference < last_checkin)
  /\ reference <= last_checkin.
Proof.
  cbv zeta. unfold Habit.reference_of.
  destruct update_time as [u|].
  - destruct (Z.ltb_spec u (py_max x l)); repeat split;
      try (intros u' [= <-]); try lia; try discriminate; try congruence.
  - repeat split; try discriminate; try congruence; try lia.
Qed.

(** With room for the walk (every check-in at least two periods after
    the first datetime) the walk stays in range. *)
Lemma room_for_walk_in_range self update_time x l n :
  Habit.history self = x :: l ->
  1 <= Habit.frequency self ->
  1 <= Habit.period self ->
  room_for_walk (Habit.period self) update_time (Habit.history self) ->
  consecutive_windows (Habit.history self) (Habit.frequency self)
    (timedelta_days (Habit.period self))
    (Habit.reference_of update_time x l) n ->
  walk_in_range (Habit.period self) (Habit.reference_of update_time x l) n.
Proof.
  intros Hh Hf Hp (Hmax & Hroom & Hu) [Hsat _].
  pose proof (timedelta_days_positive _ Hp) as HP.
  set (P := timedelta_days (Habit.period self)) in *.
  set (ref := Habit.reference_of update_time x l) in *.
  assert (In (py_max x l) (Habit.history self)) as Hin
    by (rewrite Hh; apply py_max_in).
  destruct (Hroom _ Hin) as [Hlast_lo Hlast_hi].
  destruct (reference_of_cases update_time x l) as (_ & _ & _ & H4 & H5).
  fold ref in H4, H5.
  assert (P <= ref) as Href.
  { destruct (Z.eq_dec ref (py_max x l)) as [->|Hne]; [lia|].
    destruct (H4 Hne) as [Hut _]. apply Hu in Hut. exact Hut. }
  assert (0 <= window_start ref P n) as Hlow.
  { destruct n as [|n].
    - rewrite window_start_zero. lia.
    - pose proof (Hsat n ltac:(lia)) as Hs. unfold satisfied in Hs.
      assert (1 <= checkins_within (window_start ref P n) (window_end ref P n)
                     (Habit.history self)) as Hs1 by lia.
      destruct (checkins_within_positive _ _ _ Hs1) as (t & Ht & _ & Hhi).
      destruct (Hroom _ Ht) as [Ht2 _].
      unfold window_start, window_end in *. lia. }
  split; [unfold MAX_DELTA_DAYS in *; lia|].
  intros k Hk. unfold valid_datetime.
  unfold window_start, window_end in *. split; nia.
Qed.

(** The general half of the streak computation: on a non-empty history
    with a frequency and a period of at least 1 there is one number [n]
    of consecutive satisfied windows; [update_streak] stores it when the
    walk stays in range and raises [OverflowError] otherwise. *)
Lemma update_streak_consecutive (self : Habit.t) (update_time : option datetime)
    (x : datetime) (l : list datetime) :
  Habit.history self = x :: l ->
  1 <= Habit.frequency self ->
  1 <= Habit.period self ->
  exists n : nat,
    consecutive_windows (Habit.history self) (Habit.frequency self)
      (timedelta_days (Habit.period self))
      (Habit.reference_of update_time x l) n
    /\ (walk_in_range (Habit.period self)
          (Habit.reference_of update_time x l) n ->
        forall fuel, (n < fuel)%nat ->
          Habit.update_streak fuel update_time self
          = Some (Ok (Habit.set_longest_streak
                        (Z.max (Habit.longest_streak self) (Z.of_nat n))
                        (Habit.set_streak (Z.of_nat n) self))))
    /\ (~ walk_in_range (Habit.period self)
            (Habit.reference_of update_time x l) n ->
        forall fuel, (n < fuel)%nat ->
          Habit.update_streak fuel update_time self
          = Some (Raise OverflowError))
    /\ (forall fuel self',
          Habit.update_streak fuel update_time self = Some (Ok self') ->
          Habit.streak self' = Z.of_nat n
          /\ Habit.longest_streak self'
             = Z.max (Habit.longest_streak self) (Z.of_nat n)).
Proof.
  intros Hh Hf Hp.
  pose proof (timedelta_days_positive _ Hp) as HP.
  destruct (consecutive_windows_exists (Habit.history self) (Habit.frequency self)
              (timedelta_days (Habit.period self))
              (Habit.reference_of update_time x l) Hf HP) as [n Hn].
  exists n. split; [exact Hn|]. split; [|split].
  - intros Hr fuel Hfuel. apply (update_streak_ok _ _ _ x l n); assumption.
  - intros Hr fuel Hfuel. apply (update_streak_overflow _ _ _ x l n);
      [assumption..|lia].
  - intros fuel self' H.
    destruct (update_streak_result _ _ _ _ x l Hh H) as (m & _ & Hm & _ & ->).
    rewrite (consecutive_windows_unique _ _ _ _ _ _ Hn Hm).
    split; reflexivity.
Qed.

(** [update_streak] ends: it returns or raises. *)
Lemma update_streak_terminates (self : Habit.t) (update_time : option datetime) :
  1 <= Habit.frequency self ->
  1 <= Habit.period self ->
  exists n : nat, forall fuel, (n < fuel)%nat ->
    exists r, Habit.update_streak fuel update_time self = Some r.
Proof.
  intros Hf Hp. destruct (Habit.history self) as [|x l] eqn:Hh.
  - exists 0%nat. intros fuel _. unfold Habit.update_streak. rewrite Hh.
    eexists. reflexivity.
  - destruct (update_streak_consecutive self update_time x l Hh Hf Hp)
      as (n & Hn & Hok & Hraise & _).
    exists n. intros fuel Hfuel.
    assert (walk_in_range (Habit.period self)
              (Habit.reference_of update_time x l) n
            \/ ~ walk_in_range (Habit.period self)
                   (Habit.reference_of update_time x l) n) as [Hr|Hr].
    { unfold walk_in_range.
      destruct (Z_le_dec (- MAX_DELTA_DAYS) (Habit.period self));
        [|right; lia].
      destruct (Z_le_dec (Habit.period self) MAX_DELTA_DAYS); [|right; lia].
      destruct (first_invalid_start (Habit.reference_of update_time x l)
                  (timedelta_days (Habit.period self)) n)
        as [Hall|(j & Hj & Hbad & _)].
      - left. split; [lia|exact Hall].
      - right. intros [_ Hall]. apply Hbad. apply Hall. exact Hj. }
    + rewrite (Hok Hr fuel Hfuel). eexists. reflexivity.
    + rewrite (Hraise Hr fuel Hfuel). eexists. reflexivity.
Qed.

(** [update_streak] returns when there is room for the walk. *)
Lemma update_streak_returns (self : Habit.t) (update_time : option datetime) :
  1 <= Habit.frequency self ->
  1 <= Habit.period self ->
  room_for_walk (Habit.period self) update_time (Habit.history self) ->
  exists n : nat, forall fuel, (n < fuel)%nat ->
    exists self', Habit.update_streak fuel update_time self = Some (Ok self').
Proof.
  intros Hf Hp Hroom. destruct (Habit.history self) as [|x l] eqn:Hh.
  - exists 0%nat. intros fuel _. unfold Habit.update_streak. rewrite Hh.
    eexists. reflexivity.
  - destruct (update_streak_consecutive self update_time x l Hh Hf Hp)
      as (n & Hn & Hok & _).
    exists n. intros fuel Hfuel. rewrite Hok; [eexists; reflexivity| |exact Hfuel].
    apply (room_for_walk_in_range self update_time x l n); try assumption.
    rewrite Hh. exact Hroom.
Qed.

(** C2: on a non-empty history the anchor of [update_streak] is the
    reference time exactly when one is given and it is strictly earlier
    than the latest check-in, the maximum of the history; otherwise (no
    reference time, or one at or after the latest check-in) it is the
    latest check-in itself.  The window walk starts at that anchor. *)
Theorem update_streak_anchor (self : Habit.t) (update_time : option datetime)
    (x : datetime) (l : list datetime) (fuel : nat) :
  Habit.history self = x :: l ->
  let last_checkin := py_max x l in
  let reference := Habit.reference_of update_time x l in
  (In last_checkin (Habit.history self)
   /\ forall t, In t (Habit.history self) -> t <= last_checkin)
  /\ (forall u, update_time = Some u -> u < last_checkin -> reference = u)
  /\ (forall u, update_time = Some u -> last_checkin <= u ->
      reference = last_checkin)
  /\ (update_time = None -> reference = last_checkin)
  /\ (reference <> last_checkin ->
      update_time = Some reference /\ reference < last_checkin)
  /\ Habit.update_streak fuel update_time self
     = match timedelta (Habit.period self) with
       | Raise e => Some (Raise e)
       | Ok period_length =>
           match datetime_sub reference period_length with
           | Raise e => Some (Raise e)
           | Ok start_period =>
               match Habit.update_streak_loop fuel (Habit.history self)
                       (Habit.frequency self) period_length 0
                       reference start_period
               with
               | None => None
               | Some (Raise e) => Some (Raise e)
               | Some (Ok count) =>
                   Some (Ok (Habit.set_longest_streak
                               (Z.max (Habit.longest_streak self) count)
                               (Habit.set_streak count self)))
               end
           end
       end.
Proof.
  intros Hh last_checkin reference.
  destruct (reference_of_cases update_time x l) as (H1 & H2 & H3 & H4 & _).
  split; [rewrite Hh; split; [apply py_max_in|apply py_max_upper]|].
  repeat (split; [assumption|]).
  apply update_streak_nonempty. exact Hh.
Qed.

(** C3: on an empty history, whatever the frequency, the period and the
    reference time are, [update_streak] returns, sets the streak to 0 and
    leaves the longest streak (and everything else) as it was. *)
Theorem update_streak_empty_history (fuel : nat) (update_time : option datetime)
    (habit_id : Z) (name : string) (periodicity : Z * Z) (frequency period : Z)
    (streak longest_streak : Z) (creation : datetime) :
  Habit.update_streak fuel update_time
    (Habit.mk habit_id name periodicity frequency period [] streak
              longest_streak creation)
  = Some (Ok (Habit.mk habit_id name periodicity frequency period [] 0
                       longest_streak creation)).
Proof. reflexivity. Qed.

Lemma update_streak_longest_le fuel update_time h h' :
  Habit.update_streak fuel update_time h = Some (Ok h') ->
  Habit.longest_streak h <= Habit.longest_streak h'.
Proof.
  intros H. destruct (Habit.history h) as [|x l] eqn:Hh.
  - unfold Habit.update_streak in H. rewrite Hh in H.
    injection H as <-. cbn. lia.
  - destruct (update_streak_result _ _ _ _ x l Hh H) as (n & _ & _ & _ & ->).
    cbn. lia.
Qed.

Lemma update_streak_streak_le fuel update_time h h' :
  Habit.history h <> [] ->
  Habit.update_streak fuel update_time h = Some (Ok h') ->
  Habit.streak h' <= Habit.longest_streak h'.
Proof.
  intros Hne H. destruct (Habit.history h) as [|x l] eqn:Hh; [congruence|].
  destruct (update_streak_result _ _ _ _ x l Hh H) as (n & _ & _ & _ & ->).
  cbn. lia.
Qed.

Lemma step_longest_le e h h' :
  step e h = Some h' -> Habit.longest_streak h <= Habit.longest_streak h'.
Proof.
  destruct e; cbn; intros H;
    try (injection H as <-; cbn; lia).
  destruct (Habit.update_streak fuel update_time h) as [[h1|e]|] eqn:E;
    try discriminate.
  injection H as <-. eapply update_streak_longest_le; eassumption.
Qed.

(** C4: along any sequence of operations on one habit (new histories,
    check-ins, edits of the periodicity, recomputations of the streak
    with any reference time) the longest streak never decreases; and
    after every recomputation on a non-empty history the longest streak
    is at least the streak: it is the larger of its old value and the
    new streak. *)
Theorem longest_streak_never_decreases :
  (forall (es : list event) (h h' : Habit.t),
      run es h = Some h' ->
      Habit.longest_streak h <= Habit.longest_streak h')
  /\ (forall (fuel : nat) (update_time : option datetime) (h h' : Habit.t),
        Habit.history h <> [] ->
        Habit.update_streak fuel update_time h = Some (Ok h') ->
        Habit.streak h' <= Habit.longest_streak h'
        /\ Habit.longest_streak h' = Z.max (Habit.longest_streak h) (Habit.streak h')).
Proof.
  split.
  - induction es as [|e es IH]; intros h h' H; cbn in H.
    + injection H as <-. lia.
    + destruct (step e h) as [h1|] eqn:He; [|discriminate].
      apply step_longest_le in He. apply IH in H. lia.
  - intros fuel update_time h h' Hne H. split.
    + eapply update_streak_streak_le; eassumption.
    + destruct (Habit.history h) as [|x l] eqn:Hh; [congruence|].
      destruct (update_streak_result _ _ _ _ x l Hh H) as (n & _ & _ & _ & ->).
      reflexivity.
Qed.

(** C10: with a frequency and a period of at least 1 the window walk
    ends.  A satisfied window moves the window back by the period, which
    is at least one day (or the subtraction raises [OverflowError]);
    from every anchor some window [n] holds fewer than [frequency]
    check-ins, and given more than [n] turns the loop leaves: there, with
    the count raised by [n], when the windows up to it start at a
    datetime, and before by [OverflowError] otherwise.  So
    [update_streak] ends, by returning or by raising. *)
Theorem update_streak_loop_terminates (self : Habit.t)
    (update_time : option datetime) :
  1 <= Habit.frequency self ->
  1 <= Habit.period self ->
  let history := Habit.history self in
  let frequency := Habit.frequency self in
  let period_length := timedelta_days (Habit.period self) in
  (forall fuel count end_period,
      frequency
      <= checkins_within (end_period - period_length) end_period history ->
      Habit.update_streak_loop (S fuel) history frequency period_length count
        end_period (end_period - period_length)
      = match datetime_sub (end_period - period_length) period_length with
        | Ok start_period =>
            Habit.update_streak_loop fuel history frequency period_length
              (count + 1) (end_period - period_length) start_period
        | Raise e => Some (Raise e)
        end
      /\ end_period - period_length <= end_period - US_PER_DAY)
  /\ (forall anchor, exists n : nat,
        checkins_within (window_start anchor period_length n)
                        (window_end anchor period_length n) history
        < frequency
        /\ forall fuel count, (n < fuel)%nat ->
             ((forall k, (1 <= k <= n)%nat ->
                 valid_datetime (window_start anchor period_length k)) ->
              Habit.update_streak_loop fuel history frequency period_length
                count anchor (anchor - period_length)
              = Some (Ok (count + Z.of_nat n)))
             /\ (~ (forall k, (1 <= k <= n)%nat ->
                      valid_datetime (window_start anchor period_length k)) ->
                 Habit.update_streak_loop fuel history frequency period_length
                   count anchor (anchor - period_length)
                 = Some (Raise OverflowError)))
  /\ exists n : nat, forall fuel, (n < fuel)%nat ->
       exists r, Habit.update_streak fuel update_time self = Some r.
Proof.
  intros Hf Hp history frequency period_length.
  pose proof (timedelta_days_pos _ Hp) as HP. fold period_length in HP.
  pose proof (timedelta_days_positive _ Hp) as HP'. fold period_length in HP'.
  split; [|split].
  - intros fuel count end_period Hsat. split; [|lia].
    rewrite update_streak_loop_unfold.
    destruct (Z.geb_spec
                (checkins_within (end_period - period_length) end_period history)
                frequency); [reflexivity|lia].
  - intros anchor.
    destruct (consecutive_windows_exists history frequency period_length anchor
                Hf HP') as [n Hn].
    exists n. split.
    + destruct Hn as [_ Hnot]. unfold satisfied in Hnot. lia.
    + intros fuel count Hfuel. split.
      * intros Hv. apply update_streak_loop_consecutive; assumption.
      * intros Hout.
        destruct (first_invalid_later_start anchor period_length n)
          as [Hall|(m & Hm & Hbad & Hbefore)]; [contradiction|].
        apply (update_streak_loop_overflow _ _ _ m); [| | |lia].
        -- intros k Hk. apply (proj1 Hn). lia.
        -- exact Hbefore.
        -- exact Hbad.
  - apply update_streak_terminates; assumption.
Qed.

(** With a period of 0 days the window never moves: a window that is
    satisfied once is satisfied for ever and the loop does not leave. *)
Lemma update_streak_loop_period_zero history frequency anchor :
  valid_datetime anchor ->
  frequency <= checkins_within anchor anchor history ->
  forall fuel count,
    Habit.update_streak_loop fuel history frequency (timedelta_days 0) count
      anchor (anchor - timedelta_days 0) = None.
Proof.
  intros Hv Hsat. unfold timedelta_days. simpl (0 * _).
  replace (anchor - 0) with anchor by lia.
  induction fuel as [|fuel IH]; intros count; [reflexivity|].
  rewrite update_streak_loop_unfold.
  destruct (Z.geb_spec (checkins_within anchor anchor history) frequency); [|lia].
  rewrite datetime_sub_valid by (replace (anchor - 0) with anchor by lia; exact Hv).
  replace (anchor - 0) with anchor by lia. apply IH.
Qed.

Lemma update_streak_period_zero self update_time x l :
  Habit.history self = x :: l ->
  Habit.period self = 0 ->
  valid_datetime (Habit.reference_of update_time x l) ->
  Habit.frequency self
  <= checkins_within (Habit.reference_of update_time x l)
       (Habit.reference_of update_time x l) (Habit.history self) ->
  forall fuel, Habit.update_streak fuel update_time self = None.
Proof.
  intros Hh Hp Hv Hsat fuel.
  rewrite (update_streak_in_range fuel update_time self x l Hh).
  - rewrite Hp. rewrite (update_streak_loop_period_zero _ _ _ Hv Hsat).
    reflexivity.
  - split; [rewrite Hp; unfold MAX_DELTA_DAYS; lia|].
    intros k Hk. replace k with 0%nat by lia.
    rewrite window_start_zero, Hp. unfold timedelta_days. simpl (0 * _).
    replace (Habit.reference_of update_time x l - 0)
      with (Habit.reference_of update_time x l) by lia.
    exact Hv.
Qed.

(* ----- analytics ----- *)

Lemma longest_streak_for_habit_loop_not_found fuel habit_id :
  forall habits,
    (forall h, In h habits -> Habit.habit_id h <> habit_id) ->
    longest_streak_for_habit_loop fuel habits habit_id
    = Some (Ok (habits, PyNone)).
Proof.
  induction habits as [|h rest IH]; intros Hno; cbn; [reflexivity|].
  destruct (Z.eqb_spec (Habit.habit_id h) habit_id) as [He|He].
  - exfalso. apply (Hno h); [left; reflexivity|exact He].
  - rewrite IH; [reflexivity|]. intros h' Hin. apply Hno. right. exact Hin.
Qed.

Lemma longest_streak_for_habit_loop_found fuel habit_id habit after :
  Habit.habit_id habit = habit_id ->
  forall before,
    (forall h, In h before -> Habit.habit_id h <> habit_id) ->
    longest_streak_for_habit_loop fuel (before ++ habit :: after) habit_id
    = match Habit.update_streak fuel None habit with
      | None => None
      | Some (Raise e) => Some (Raise e)
      | Some (Ok habit') =>
          Some (Ok (before ++ habit' :: after,
                    PyInt (Habit.longest_streak habit')))
      end.
Proof.
  intros Hid. induction before as [|h rest IH]; intros Hno; cbn.
  - rewrite Hid, Z.eqb_refl. reflexivity.
  - destruct (Z.eqb_spec (Habit.habit_id h) habit_id) as [He|He].
    + exfalso. apply (Hno h); [left; reflexivity|exact He].
    + rewrite IH by (intros h' Hin; apply Hno; right; exact Hin).
      destruct (Habit.update_streak fuel None habit) as [[habit'|e]|];
        reflexivity.
Qed.

Lemma set_habits_same user : User.set_habits (User.habits user) user = user.
Proof. destruct user; reflexivity. Qed.

(** [analytics_longest_streak_for_habit] on a user who has a habit with
    the identifier: what the recomputation of the first such habit
    does. *)
Lemma analytics_longest_streak_for_habit_found fuel user habit_id
    before habit after :
  User.habits user = before ++ habit :: after ->
  (forall h, In h before -> Habit.habit_id h <> habit_id) ->
  Habit.habit_id habit = habit_id ->
  analytics_longest_streak_for_habit fuel user habit_id
  = match Habit.update_streak fuel None habit with
    | None => None
    | Some (Raise e) => Some (Raise e)
    | Some (Ok habit') =>
        Some (Ok (User.set_habits (before ++ habit' :: after) user,
                  PyInt (Habit.longest_streak habit')))
    end.
Proof.
  intros Hhabits Hno Hid. unfold analytics_longest_streak_for_habit.
  rewrite Hhabits.
  rewrite (longest_streak_for_habit_loop_found fuel habit_id habit after Hid
             before Hno).
  destruct (Habit.update_streak fuel None habit) as [[habit'|e]|]; reflexivity.
Qed.

(** C9, as the code has it: [analytics_longest_streak_for_habit] returns
    [None], which is no integer (so not 0), when no habit has the
    identifier.  When one has it, the first such habit is recomputed
    (with no reference time) and the call does what the recomputation
    does: it returns the longest streak of the recomputed habit when
    [update_streak] returns, raises when it raises and does not return
    when it does not.  The recomputation returns when the frequency and
    the period are at least 1 and every check-in lies at least two
    periods after the first datetime. *)
Theorem analytics_longest_streak_for_habit_found_or_none
    (user : User.t) (habit_id : Z) :
  ((forall h, In h (User.habits user) -> Habit.habit_id h <> habit_id) ->
   forall fuel,
     analytics_longest_streak_for_habit fuel user habit_id
     = Some (Ok (user, PyNone)))
  /\ (forall before habit after,
        User.habits user = before ++ habit :: after ->
        (forall h, In h before -> Habit.habit_id h <> habit_id) ->
        Habit.habit_id habit = habit_id ->
        (forall fuel,
            analytics_longest_streak_for_habit fuel user habit_id
            = match Habit.update_streak fuel None habit with
              | None => None
              | Some (Raise e) => Some (Raise e)
              | Some (Ok habit') =>
                  Some (Ok (User.set_habits (before ++ habit' :: after) user,
                            PyInt (Habit.longest_streak habit')))
              end)
        /\ (1 <= Habit.frequency habit -> 1 <= Habit.period habit ->
            room_for_walk (Habit.period habit) None (Habit.history habit) ->
            exists n : nat, forall fuel, (n < fuel)%nat ->
              exists habit',
                Habit.update_streak fuel None habit = Some (Ok habit')
                /\ analytics_longest_streak_for_habit fuel user habit_id
                   = Some (Ok (User.set_habits (before ++ habit' :: after) user,
                               PyInt (Habit.longest_streak habit')))))
  /\ (forall z, PyNone <> PyInt z).
Proof.
  split; [|split].
  - intros Hno fuel. unfold analytics_longest_streak_for_habit.
    rewrite longest_streak_for_habit_loop_not_found by exact Hno.
    rewrite set_habits_same. reflexivity.
  - intros before habit after Hhabits Hno Hid. split.
    + intros fuel.
      apply analytics_longest_streak_for_habit_found; assumption.
    + intros Hf Hp Hroom.
      destruct (update_streak_returns habit None Hf Hp Hroom) as [n Hn].
      exists n. intros fuel Hfuel. destruct (Hn fuel Hfuel) as [habit' Hup].
      exists habit'. split; [exact Hup|].
      rewrite (analytics_longest_streak_for_habit_found fuel user habit_id
                 before habit after Hhabits Hno Hid).
      rewrite Hup. reflexivity.
  - intros z. discriminate.
Qed.

(* ================================================================= *)
(** ** Moving a history along the time line *)

Lemma insert_sorted_shift c x l :
  insert_sorted (c + x) (map (Z.add c) l) = map (Z.add c) (insert_sorted x l).
Proof.
  induction l as [|y l IH]; simpl; [reflexivity|].
  destruct (Z.leb_spec x y), (Z.leb_spec (c + x) (c + y)); try lia.
  - reflexivity.
  - simpl. rewrite IH. reflexivity.
Qed.

Lemma sort_shift c l : sort (map (Z.add c) l) = map (Z.add c) (sort l).
Proof.
  induction l as [|x l IH]; simpl; [reflexivity|].
  rewrite IH. apply insert_sorted_shift.
Qed.

Lemma check_in_shift c today today' d h :
  Habit.check_in today (Some (c + d)) (shift c h)
  = shift c (Habit.check_in today' (Some d) h).
Proof.
  destruct h. unfold Habit.check_in, shift, Habit.set_history. cbn.
  f_equal. rewrite <- sort_shift, map_app. reflexivity.
Qed.

Lemma check_in_days_shift c today today' start days :
  forall h,
    check_in_days today (c + start) days (shift c h)
    = shift c (check_in_days today' start days h).
Proof.
  unfold check_in_days.
  induction days as [|i days IH]; intros h; simpl; [reflexivity|].
  replace (c + start + timedelta_days i) with (c + (start + timedelta_days i))
    by lia.
  rewrite (check_in_shift c today today'). apply IH.
Qed.

Lemma shift_empty c h : Habit.history h = [] -> shift c h = h.
Proof. destruct h. cbn. intros ->. reflexivity. Qed.

Lemma check_in_days_from_empty c today today' start days h :
  Habit.history h = [] ->
  check_in_days today (c + start) days h
  = shift c (check_in_days today' start days h).
Proof.
  intros Hh. rewrite <- (check_in_days_shift c today today').
  rewrite shift_empty by exact Hh. reflexivity.
Qed.

Lemma checkins_within_shift c lo hi l :
  checkins_within (c + lo) (c + hi) (map (Z.add c) l) = checkins_within lo hi l.
Proof.
  induction l as [|t l IH]; simpl; [reflexivity|]. rewrite IH.
  destruct (Z_le_dec lo t), (Z_le_dec (c + lo) (c + t)); try lia;
    destruct (Z_le_dec t hi), (Z_le_dec (c + t) (c + hi)); try lia.
Qed.

Lemma py_max_shift c l :
  forall x, py_max (c + x) (map (Z.add c) l) = c + py_max x l.
Proof.
  unfold py_max. induction l as [|y l IH]; intros x; simpl; [reflexivity|].
  destruct (Z.ltb_spec x y), (Z.ltb_spec (c + x) (c + y)); try lia; apply IH.
Qed.

Lemma reference_of_shift c update_time x l :
  Habit.reference_of (option_map (Z.add c) update_time) (c + x)
    (map (Z.add c) l)
  = c + Habit.reference_of update_time x l.
Proof.
  unfold Habit.reference_of. rewrite py_max_shift.
  destruct update_time as [u|]; simpl; [|reflexivity].
  destruct (Z.ltb_spec u (py_max x l)), (Z.ltb_spec (c + u) (c + py_max x l));
    try lia; reflexivity.
Qed.

Lemma window_start_moved c anchor P k :
  window_start (c + anchor) P k = c + window_start anchor P k.
Proof. unfold window_start, window_end. lia. Qed.

Lemma shift_history c h :
  Habit.history (shift c h) = map (Z.add c) (Habit.history h).
Proof. destruct h; reflexivity. Qed.

Lemma satisfied_moved c history frequency P anchor k :
  satisfied (map (Z.add c) history) frequency P (c + anchor) k
  <-> satisfied history frequency P anchor k.
Proof.
  unfold satisfied, window_start, window_end.
  replace (c + anchor - Z.of_nat k * P - P)
    with (c + (anchor - Z.of_nat k * P - P)) by lia.
  replace (c + anchor - Z.of_nat k * P)
    with (c + (anchor - Z.of_nat k * P)) by lia.
  rewrite checkins_within_shift. reflexivity.
Qed.

Lemma consecutive_windows_moved c history frequency P anchor n :
  consecutive_windows (map (Z.add c) history) frequency P (c + anchor) n
  <-> consecutive_windows history frequency P anchor n.
Proof.
  unfold consecutive_windows. split; intros [Hsat Hnot]; split.
  - intros k Hk. apply (satisfied_moved c). apply Hsat. exact Hk.
  - intros H. apply Hnot. apply satisfied_moved. exact H.
  - intros k Hk. apply satisfied_moved. apply Hsat. exact Hk.
  - intros H. apply Hnot. apply satisfied_moved in H. exact H.
Qed.

(** A reference time at or after the latest check-in is the same as no
    reference time. *)
Lemma update_streak_late_reference fuel u self x l :
  Habit.history self = x :: l ->
  py_max x l <= u ->
  Habit.update_streak fuel (Some u) self = Habit.update_streak fuel None self.
Proof.
  intros Hh Hu. rewrite !(update_streak_nonempty _ _ _ x l Hh).
  destruct (reference_of_cases (Some u) x l) as (_ & H2 & _).
  destruct (reference_of_cases None x l) as (_ & _ & H3 & _).
  rewrite (H2 u eq_refl Hu), (H3 eq_refl). reflexivity.
Qed.

Lemma update_streak_reference_after_history fuel u self :
  (forall t, In t (Habit.history self) -> t <= u) ->
  Habit.update_streak fuel (Some u) self = Habit.update_streak fuel None self.
Proof.
  intros Hu. destruct (Habit.history self) as [|x l] eqn:Hh.
  - unfold Habit.update_streak. rewrite Hh. reflexivity.
  - apply (update_streak_late_reference fuel u self x l Hh).
    apply Hu. apply py_max_in.
Qed.

(** The streak of a moved habit whose last check-in is [last] before the
    move, for a reference time that is absent or not before the last
    check-in, from the number of consecutive satisfied windows before the
    move. *)
Lemma shifted_update_streak today fuel update_time habit (n : nat) last :
  In last (Habit.history habit) ->
  (forall t, In t (Habit.history habit) -> t <= last) ->
  consecutive_windows (Habit.history habit) (Habit.frequency habit)
    (timedelta_days (Habit.period habit)) last n ->
  walk_in_range (Habit.period habit) (today + last) n ->
  (forall u, update_time = Some u -> today + last <= u) ->
  (n < fuel)%nat ->
  Habit.update_streak fuel update_time (shift today habit)
  = Some (Ok (Habit.set_longest_streak
                (Z.max (Habit.longest_streak habit) (Z.of_nat n))
                (Habit.set_streak (Z.of_nat n) (shift today habit)))).
Proof.
  intros Hin Hlast Hc Hr Hu Hfuel.
  assert (Habit.update_streak fuel update_time (shift today habit)
          = Habit.update_streak fuel None (shift today habit)) as ->.
  { destruct update_time as [u|]; [|reflexivity].
    apply update_streak_reference_after_history.
    rewrite shift_history. intros t Ht. apply in_map_iff in Ht.
    destruct Ht as (d & <- & Hd). specialize (Hlast d Hd).
    specialize (Hu u eq_refl). lia. }
  destruct (Habit.history habit) as [|x l] eqn:Hh; [destruct Hin|].
  assert (Habit.history (shift today habit) = (today + x) :: map (Z.add today) l)
    as Hs by (rewrite shift_history, Hh; reflexivity).
  assert (Habit.reference_of None (today + x) (map (Z.add today) l)
          = today + last) as Href.
  { change (@None datetime) with (option_map (Z.add today) None).
    rewrite reference_of_shift. f_equal.
    unfold Habit.reference_of. apply py_max_unique; assumption. }
  replace (Habit.longest_streak habit)
    with (Habit.longest_streak (shift today habit)) by (destruct habit; reflexivity).
  apply (update_streak_ok fuel None (shift today habit) _ _ n Hs);
    [| |exact Hfuel].
  - rewrite Href, shift_history, Hh.
    replace (Habit.frequency (shift today habit)) with (Habit.frequency habit)
      by (destruct habit; reflexivity).
    replace (Habit.period (shift today habit)) with (Habit.period habit)
      by (destruct habit; reflexivity).
    apply (consecutive_windows_moved today (x :: l)). exact Hc.
  - rewrite Href.
    replace (Habit.period (shift today habit)) with (Habit.period habit)
      by (destruct habit; reflexivity).
    exact Hr.
Qed.

(* ================================================================= *)
(** ** The fixture *)

(** The fixture at any date is the fixture at date 0, moved. *)
Lemma test_habits_shift today tick w :
  test_habits today tick w
  = match test_habits 0 tick w with
    | (Ok habits, w') => (Ok (map (shift today) habits), w')
    | (Raise e, w') => (Raise e, w')
    end.
Proof.
  unfold test_habits, bind, ret, Habit.__init__, Habit.next_id, bind, ret.
  cbv beta iota zeta.
  replace (today - timedelta_days 28) with (today + (0 - timedelta_days 28))
    by lia.
  rewrite !(check_in_days_from_empty today today 0) by reflexivity.
  reflexivity.
Qed.

Lemma forallb_le_bound (l : list Z) (b : Z) :
  forallb (fun t => t <=? b) l = true -> forall t, In t l -> t <= b.
Proof.
  intros H t Ht. rewrite forallb_forall in H. specialize (H t Ht). lia.
Qed.

(** The consecutive satisfied windows of a history, read off a run of
    the loop on the history moved to where the walk is in range. *)
Lemma consecutive_windows_by_loop c history frequency P fuel anchor r :
  Habit.update_streak_loop fuel (map (Z.add c) history) frequency P 0
    (c + anchor) (c + anchor - P)
  = Some (Ok r) ->
  consecutive_windows history frequency P anchor (Z.to_nat r).
Proof.
  intros H. apply update_streak_loop_result in H.
  destruct H as (n & -> & _ & Hc & _).
  replace (Z.to_nat (0 + Z.of_nat n)) with n by lia.
  apply (consecutive_windows_moved c). exact Hc.
Qed.

(** The habit "Exercise" of the fixture built at date 0, with any
    identifier and creation time: its check-ins, the last one, and the
    loop run on them moved to 2025-01-29. *)
Lemma exercise_at_origin i c :
  let habit2 :=
    check_in_days 0 (0 - timedelta_days 28) exercise_days
      (Habit.mk i "Exercise" (1, 1) 1 1 [] 0 0 c) in
  Habit.history habit2
  = map (fun d => 0 - timedelta_days 28 + timedelta_days d) exercise_days
  /\ Habit.update_streak_loop 28 (map (Z.add jan_29_2025) (Habit.history habit2))
       1 (timedelta_days 1) 0
       (jan_29_2025 + (0 - timedelta_days 1))
       (jan_29_2025 + (0 - timedelta_days 1) - timedelta_days 1)
     = Some (Ok 27)
  /\ forallb (fun t => t <=? 0 - timedelta_days 1) (Habit.history habit2) = true
  /\ existsb (Z.eqb (0 - timedelta_days 1)) (Habit.history habit2) = true.
Proof. split; [|split; [|split]]; vm_compute; reflexivity. Qed.

(** The habit "Read Book". *)
Lemma read_book_at_origin i c :
  let habit4 :=
    check_in_days 0 (0 - timedelta_days 28) read_book_days
      (Habit.mk i "Read Book" (3, 7) 3 7 [] 0 0 c) in
  Habit.history habit4
  = map (fun d => 0 - timedelta_days 28 + timedelta_days d) read_book_days
  /\ Habit.update_streak_loop 5 (map (Z.add jan_29_2025) (Habit.history habit4))
       3 (timedelta_days 7) 0
       (jan_29_2025 + (0 - timedelta_days 5))
       (jan_29_2025 + (0 - timedelta_days 5) - timedelta_days 7)
     = Some (Ok 4)
  /\ forallb (fun t => t <=? 0 - timedelta_days 5) (Habit.history habit4) = true
  /\ existsb (Z.eqb (0 - timedelta_days 5)) (Habit.history habit4) = true.
Proof. split; [|split; [|split]]; vm_compute; reflexivity. Qed.

Lemma existsb_eqb_in (l : list Z) (b : Z) :
  existsb (Z.eqb b) l = true -> In b l.
Proof.
  intros H. apply existsb_exists in H. destruct H as (t & Ht & He).
  apply Z.eqb_eq in He. subst. exact Ht.
Qed.

(** C8, as the code has it: for the habit "Exercise" of the fixture (once
    every day, check-ins on the days 1..27 of the 28 days except the days
    7, 14 and 21), generated at a datetime at least 29 days after the
    first one, [update_streak] anchored at the last check-in (no
    reference time, or one from the last check-in on) gives streak 27 and
    longest streak 27.  A skipped day does not cut the streak: the
    windows are closed at both ends, so each of the 27 one-day windows
    walked back from day 27 holds a check-in on one of its bounds, and the
    walk stops at the window that ends on day 0. *)
Theorem exercise_streak_runs_past_missed_days today tick w fuel update_time :
  timedelta_days 29 <= today < MAX_US ->
  (28 <= fuel)%nat ->
  (forall u, update_time = Some u -> today - timedelta_days 1 <= u) ->
  exists habits w' habit2 habit2',
    test_habits today tick w = (Ok habits, w')
    /\ nth_error habits 1 = Some habit2
    /\ Habit.name habit2 = "Exercise"%string
    /\ Habit.frequency habit2 = 1 /\ Habit.period habit2 = 1
    /\ Habit.history habit2
       = map (fun d => today - timedelta_days 28 + timedelta_days d)
             exercise_days
    /\ Habit.update_streak fuel update_time habit2 = Some (Ok habit2')
    /\ Habit.streak habit2' = 27
    /\ Habit.longest_streak habit2' = 27
    /\ consecutive_windows (Habit.history habit2) 1 (timedelta_days 1)
         (today - timedelta_days 1) 27.
Proof.
  intros Htoday Hfuel Hu.
  rewrite test_habits_shift.
  unfold test_habits, bind, ret, Habit.__init__, Habit.next_id, bind, ret.
  cbv beta iota zeta.
  set (i := _id_counter {| _id_counter := _id_counter w + 1 |}).
  generalize (tick 2) i. clear i. intros c i.
  destruct (exercise_at_origin i c) as (Hhist & Hloop & Hlast & Hin).
  cbv zeta in Hhist, Hloop, Hlast, Hin.
  set (habit2 := check_in_days 0 (0 - timedelta_days 28) exercise_days _) in *.
  apply consecutive_windows_by_loop in Hloop.
  change (Z.to_nat 27) with 27%nat in Hloop.
  eexists _, _, (shift today habit2), _.
  split; [reflexivity|]. split; [reflexivity|].
  split; [reflexivity|]. split; [reflexivity|]. split; [reflexivity|].
  split.
  { rewrite shift_history, Hhist, map_map. apply map_ext. intros d. lia. }
  split.
  { apply (shifted_update_streak today fuel update_time habit2 27
             (0 - timedelta_days 1) (existsb_eqb_in _ _ Hin)
             (forallb_le_bound _ _ Hlast) Hloop).
    - split; [unfold MAX_DELTA_DAYS; cbn; lia|].
      intros k Hk. unfold valid_datetime, window_start, window_end.
      change (Habit.period habit2) with 1.
      unfold timedelta_days, US_PER_DAY, US_PER_HOUR, US_PER_MINUTE,
        US_PER_SECOND in Htoday |- *. lia.
    - intros u Huu. specialize (Hu u Huu). lia.
    - lia. }
  split; [reflexivity|]. split; [reflexivity|].
  rewrite shift_history.
  replace (today - timedelta_days 1) with (today + (0 - timedelta_days 1)) by lia.
  apply consecutive_windows_moved. exact Hloop.
Qed.

Lemma read_book_streak_general today tick w fuel update_time :
  timedelta_days 40 <= today < MAX_US ->
  (5 <= fuel)%nat ->
  (forall u, update_time = Some u -> today - timedelta_days 5 <= u) ->
  exists habits w' habit4 habit4',
    test_habits today tick w = (Ok habits, w')
    /\ nth_error habits 3 = Some habit4
    /\ Habit.name habit4 = "Read Book"%string
    /\ Habit.frequency habit4 = 3 /\ Habit.period habit4 = 7
    /\ Habit.history habit4
       = map (fun d => today - timedelta_days 28 + timedelta_days d)
             read_book_days
    /\ Habit.update_streak fuel update_time habit4 = Some (Ok habit4')
    /\ Habit.streak habit4' = 4
    /\ Habit.longest_streak habit4' = 4
    /\ consecutive_windows (Habit.history habit4) 3 (timedelta_days 7)
         (today - timedelta_days 5) 4.
Proof.
  intros Htoday Hfuel Hu.
  rewrite test_habits_shift.
  unfold test_habits, bind, ret, Habit.__init__, Habit.next_id, bind, ret.
  cbv beta iota zeta.
  set (i := _id_counter {| _id_counter := _ |}) at 4.
  generalize (tick 4) i. clear i. intros c i.
  destruct (read_book_at_origin i c) as (Hhist & Hloop & Hlast & Hin).
  cbv zeta in Hhist, Hloop, Hlast, Hin.
  set (habit4 := check_in_days 0 (0 - timedelta_days 28) read_book_days _) in *.
  apply consecutive_windows_by_loop in Hloop.
  change (Z.to_nat 4) with 4%nat in Hloop.
  eexists _, _, (shift today habit4), _.
  split; [reflexivity|]. split; [reflexivity|].
  split; [reflexivity|]. split; [reflexivity|]. split; [reflexivity|].
  split.
  { rewrite shift_history, Hhist, map_map. apply map_ext. intros d. lia. }
  split.
  { apply (shifted_update_streak today fuel update_time habit4 4
             (0 - timedelta_days 5) (existsb_eqb_in _ _ Hin)
             (forallb_le_bound _ _ Hlast) Hloop).
    - split; [unfold MAX_DELTA_DAYS; cbn; lia|].
      intros k Hk. unfold valid_datetime, window_start, window_end.
      change (Habit.period habit4) with 7.
      unfold timedelta_days, US_PER_DAY, US_PER_HOUR, US_PER_MINUTE,
        US_PER_SECOND in Htoday |- *. lia.
    - intros u Huu. specialize (Hu u Huu). lia.
    - lia. }
  split; [reflexivity|]. split; [reflexivity|].
  rewrite shift_history.
  replace (today - timedelta_days 5) with (today + (0 - timedelta_days 5)) by lia.
  apply consecutive_windows_moved. exact Hloop.
Qed.

(* ================================================================= *)
(** ** The identifier counter *)

Lemma next_id_spec habit_id w :
  exists i w',
    Habit.next_id habit_id w = (Ok i, w')
    /\ i < _id_counter w'
    /\ _id_counter w <= _id_counter w'
    /\ (habit_id = None -> i = _id_counter w /\ _id_counter w' = i + 1)
    /\ (forall j, habit_id = Some j -> i = j).
Proof.
  unfold Habit.next_id. destruct habit_id as [j|].
  - eexists _, _. split; [reflexivity|].
    destruct (Z.geb_spec j (_id_counter w)); cbn;
      repeat split; try lia; try discriminate; intros j' [= <-]; reflexivity.
  - eexists _, _. split; [reflexivity|]. cbn.
    repeat split; try lia; discriminate.
Qed.

Lemma init_spec today name periodicity creation habit_id w :
  exists h w',
    Habit.__init__ today name periodicity creation habit_id w = (Ok h, w')
    /\ Habit.habit_id h < _id_counter w'
    /\ _id_counter w <= _id_counter w'
    /\ (habit_id = None ->
        Habit.habit_id h = _id_counter w
        /\ _id_counter w' = Habit.habit_id h + 1)
    /\ (forall j, habit_id = Some j -> Habit.habit_id h = j)
    /\ Habit.name h = name
    /\ Habit.periodicity h = periodicity
    /\ Habit.frequency h = fst periodicity
    /\ Habit.period h = snd periodicity
    /\ Habit.history h = []
    /\ Habit.streak h = 0
    /\ Habit.longest_streak h = 0.
Proof.
  unfold Habit.__init__, bind.
  destruct (next_id_spec habit_id w) as (i & w' & -> & H1 & H2 & H3 & H4).
  eexists _, _. split; [reflexivity|]. cbn. repeat split; try assumption.
  - apply H3; assumption.
  - apply H3; assumption.
Qed.

Lemma lift_run {A} (r : result A) w : lift r w = (r, w).
Proof. reflexivity. Qed.

Ltac raise_case H :=
  cbn in H; injection H as <- <-; split; [lia|discriminate].

(** [Habit.from_dict] never lowers the counter, and leaves it above the
    identifier of the habit it returns. *)
Lemma Habit_from_dict_counter today data w r w' :
  Habit.from_dict today data w = (r, w') ->
  _id_counter w <= _id_counter w'
  /\ forall h, r = Ok h -> Habit.habit_id h < _id_counter w'.
Proof.
  unfold Habit.from_dict, bind. rewrite ?lift_run. intros H.
  destruct (rbind (getitem data "name") as_str) as [name|e];
    [|raise_case H].
  destruct (rbind (rbind (getitem data "periodicity") as_list) (rmap as_int))
    as [periodicity|e]; [|raise_case H].
  destruct (rbind (rbind (getitem data "creation") as_str) datetime_from_str)
    as [creation|e]; [|raise_case H].
  destruct (rbind (getitem data "habit_id") Habit.as_optional_int)
    as [habit_id|e]; [|raise_case H].
  destruct periodicity as [|f [|p [|q rest]]].
  - destruct (next_id_spec habit_id w) as (i & w1 & E & _ & Hle & _).
    rewrite E in H. cbn in H. injection H as <- <-.
    split; [exact Hle|discriminate].
  - destruct (next_id_spec habit_id w) as (i & w1 & E & _ & Hle & _).
    rewrite E in H. cbn in H. injection H as <- <-.
    split; [exact Hle|discriminate].
  - destruct (init_spec today name (f, p) (Some creation) habit_id w)
      as (h0 & w1 & E & Hlt & Hle & _).
    rewrite E in H. rewrite ?lift_run in H.
    destruct (rbind (rbind (dict_get data "history" (PyList [])) as_list) _)
      as [history|e];
      [|cbn in H; injection H as <- <-; split; [exact Hle|discriminate]].
    rewrite ?lift_run in H.
    destruct (rbind (dict_get data "streak" (PyInt 0)) as_int) as [streak|e];
      [|cbn in H; injection H as <- <-; split; [exact Hle|discriminate]].
    rewrite ?lift_run in H.
    destruct (rbind (dict_get data "longest_streak" (PyInt 0)) as_int)
      as [longest|e];
      [|cbn in H; injection H as <- <-; split; [exact Hle|discriminate]].
    cbn in H. injection H as <- <-.
    split; [exact Hle|]. intros h [= <-]. destruct h0; exact Hlt.
  - raise_case H.
Qed.

Lemma mapM_from_dict_counter today :
  forall hs w r w',
    mapM (Habit.from_dict today) hs w = (r, w') ->
    _id_counter w <= _id_counter w'
    /\ forall habits, r = Ok habits ->
         forall h, In h habits -> Habit.habit_id h < _id_counter w'.
Proof.
  induction hs as [|d hs IH]; intros w r w' H; cbn [mapM] in H.
  - cbn in H. injection H as <- <-. split; [lia|]. intros habits [= <-] h [].
  - unfold bind in H.
    destruct (Habit.from_dict today d w) as [r0 w1] eqn:E0.
    destruct (Habit_from_dict_counter today d w r0 w1 E0) as [Hle Hid].
    destruct r0 as [h0|e];
      [|injection H as <- <-; split; [exact Hle|discriminate]].
    destruct (mapM (Habit.from_dict today) hs w1) as [r1 w2] eqn:E1.
    destruct (IH w1 r1 w2 E1) as [Hle' Hids].
    destruct r1 as [rest|e];
      [|injection H as <- <-; split; [lia|discriminate]].
    cbn in H. injection H as <- <-. split; [lia|].
    intros habits [= <-] h [<-|Hin].
    + specialize (Hid h0 eq_refl). lia.
    + apply (Hids rest eq_refl). exact Hin.
Qed.

Lemma User_from_dict_counter today data w r w' :
  User.from_dict today data w = (r, w') ->
  _id_counter w <= _id_counter w'
  /\ forall u, r = Ok u ->
       forall h, In h (User.habits u) -> Habit.habit_id h < _id_counter w'.
Proof.
  unfold User.from_dict, bind. rewrite ?lift_run. intros H.
  destruct (rbind (dict_get data "habits" (PyList [])) as_list) as [hs|e];
    [|raise_case H].
  destruct (mapM (Habit.from_dict today) hs w) as [r1 w1] eqn:E1.
  destruct (mapM_from_dict_counter today hs w r1 w1 E1) as [Hle Hids].
  destruct r1 as [habits|e];
    [|injection H as <- <-; split; [exact Hle|discriminate]].
  rewrite ?lift_run in H.
  destruct (rbind (getitem data "name") as_str) as [name|e];
    [|injection H as <- <-; split; [exact Hle|discriminate]].
  rewrite ?lift_run in H.
  destruct (rbind (dict_get data "user_id" (PyInt 0)) as_int) as [uid|e];
    [|injection H as <- <-; split; [exact Hle|discriminate]].
  cbn in H. injection H as <- <-. split; [exact Hle|].
  intros u [= <-] h Hin. cbn in Hin. apply (Hids habits eq_refl). exact Hin.
Qed.

Lemma create_all_cons today a args w :
  create_all today (a :: args) w
  = match (let '(name, periodicity, creation, habit_id) := a in
           Habit.__init__ today name periodicity creation habit_id) w with
    | (Ok h, w1) =>
        match create_all today args w1 with
        | (Ok hs, w2) => (Ok (h :: hs), w2)
        | (Raise e, w2) => (Raise e, w2)
        end
    | (Raise e, w1) => (Raise e, w1)
    end.
Proof.
  unfold create_all. cbn [mapM]. unfold bind.
  destruct a as [[[name periodicity] creation] habit_id].
  destruct (Habit.__init__ today name periodicity creation habit_id w)
    as [[h|e] w1]; [|reflexivity].
  destruct (mapM _ args w1) as [[hs|e] w2]; reflexivity.
Qed.

(** A run of constructions never raises; it leaves the counter above
    every identifier it gave. *)
Lemma create_all_spec today :
  forall args w,
    exists hs w',
      create_all today args w = (Ok hs, w')
      /\ List.length hs = List.length args
      /\ _id_counter w <= _id_counter w'
      /\ forall h, In h hs -> Habit.habit_id h < _id_counter w'.
Proof.
  induction args as [|a args IH]; intros w.
  - exists [], w. cbn. repeat split; try lia; try (intros h []).
  - rewrite create_all_cons.
    destruct a as [[[name periodicity] creation] habit_id].
    destruct (init_spec today name periodicity creation habit_id w)
      as (h & w1 & -> & Hlt & Hle & _).
    destruct (IH w1) as (hs & w2 & -> & Hlen & Hle' & Hids).
    exists (h :: hs), w2. cbn. repeat split; try lia.
    intros h' [<-|Hin]; [lia|apply Hids; exact Hin].
Qed.

Lemma create_all_app today :
  forall args1 args2 w hs1 w1 hs2 w2,
    create_all today args1 w = (Ok hs1, w1) ->
    create_all today args2 w1 = (Ok hs2, w2) ->
    create_all today (args1 ++ args2) w = (Ok (hs1 ++ hs2), w2).
Proof.
  induction args1 as [|a args1 IH]; intros args2 w hs1 w1 hs2 w2 H1 H2.
  - cbn in H1. injection H1 as <- <-. exact H2.
  - cbn [app]. rewrite create_all_cons in *.
    destruct (_ w) as [[h|e] w0]; [|discriminate].
    destruct (create_all today args1 w0) as [[hs|e] w0'] eqn:E; [|discriminate].
    injection H1 as <- <-.
    rewrite (IH args2 w0 hs w0' hs2 w2 E H2). reflexivity.
Qed.

(** C6: deserialization restores the high-water mark of the identifier
    counter.  No constructor call and no deserialization lowers the
    counter; after a document has been deserialized, a habit created
    without an identifier, then or in any later state, gets an identifier
    above the identifier of every restored habit (at least 8 when a
    restored habit has identifier 7); and in any run of constructor
    calls, a habit created without an identifier gets one above all the
    identifiers given before it in the run. *)
Theorem fresh_ids_exceed_restored_ids :
  (forall today data w,
      _id_counter w <= _id_counter (snd (User.from_dict today data w)))
  /\ (forall today name periodicity creation habit_id w,
        _id_counter w
        <= _id_counter
             (snd (Habit.__init__ today name periodicity creation habit_id w)))
  /\ (forall today data w u w',
        User.from_dict today data w = (Ok u, w') ->
        forall w'', _id_counter w' <= _id_counter w'' ->
        forall today' name periodicity creation,
          exists h w3,
            Habit.__init__ today' name periodicity creation None w''
            = (Ok h, w3)
            /\ (forall h0, In h0 (User.habits u) ->
                Habit.habit_id h0 < Habit.habit_id h)
            /\ (forall h0, In h0 (User.habits u) ->
                Habit.habit_id h0 = 7 -> 8 <= Habit.habit_id h))
  /\ (forall today args1 name periodicity creation args2 w,
        exists hs1 h hs2 w',
          create_all today
            (args1 ++ (name, periodicity, creation, None) :: args2) w
          = (Ok (hs1 ++ h :: hs2), w')
          /\ List.length hs1 = List.length args1
          /\ forall h0, In h0 hs1 -> Habit.habit_id h0 < Habit.habit_id h).
Proof.
  split; [|split; [|split]].
  - intros today data w.
    destruct (User.from_dict today data w) as [r w'] eqn:E.
    apply (User_from_dict_counter today data w r w' E).
  - intros today name periodicity creation habit_id w.
    destruct (init_spec today name periodicity creation habit_id w)
      as (h & w' & -> & _ & Hle & _). exact Hle.
  - intros today data w u w' E w'' Hle today' name periodicity creation.
    destruct (User_from_dict_counter today data w (Ok u) w' E) as [_ Hids].
    destruct (init_spec today' name periodicity creation None w'')
      as (h & w3 & -> & _ & _ & Hfresh & _).
    destruct (Hfresh eq_refl) as [Hid _].
    exists h, w3. split; [reflexivity|]. split.
    + intros h0 Hin. specialize (Hids u eq_refl h0 Hin). lia.
    + intros h0 Hin H7. specialize (Hids u eq_refl h0 Hin). lia.
  - intros today args1 name periodicity creation args2 w.
    destruct (create_all_spec today args1 w) as (hs1 & w1 & E1 & Hlen & _ & Hids).
    destruct (init_spec today name periodicity creation None w1)
      as (h & w2 & Eh & _ & _ & Hfresh & _).
    destruct (Hfresh eq_refl) as [Hid _].
    destruct (create_all_spec today args2 w2) as (hs2 & w3 & E2 & _).
    exists hs1, h, hs2, w3. split; [|split; [exact Hlen|]].
    + apply (create_all_app today args1 _ w hs1 w1 (h :: hs2) w3 E1).
      rewrite create_all_cons. rewrite Eh, E2. reflexivity.
    + intros h0 Hin. specialize (Hids h0 Hin). lia.
Qed.

(** C7, as the code has it: creating a habit never fails.  Whatever the
    frequency and the period are, positive or not, the constructor
    returns a habit that holds them unchanged, with an empty history and
    both streaks 0. *)
Theorem habit_creation_never_fails (today : datetime) (name : string)
    (frequency period : Z) (creation : option datetime) (habit_id : option Z)
    (w : world) :
  exists h w',
    Habit.__init__ today name (frequency, period) creation habit_id w
    = (Ok h, w')
    /\ Habit.periodicity h = (frequency, period)
    /\ Habit.frequency h = frequency
    /\ Habit.period h = period
    /\ Habit.history h = []
    /\ Habit.streak h = 0
    /\ Habit.longest_streak h = 0.
Proof.
  destruct (init_spec today name (frequency, period) creation habit_id w)
    as (h & w' & E & _ & _ & _ & _ & _ & Hp & Hf & Hpd & Hh & Hs & Hl).
  exists h, w'. repeat split; assumption.
Qed.

(** C7 fails on the code: a habit with frequency 0 and period -1 is
    created, and no exception is raised. *)
Lemma habit_creation_accepts_nonpositive_periodicity :
  Habit.__init__ 0 "Sleep" (0, -1) None None (World 0)
  = (Ok (Habit.mk 0 "Sleep" (0, -1) 0 (-1) [] 0 0 0), World 1)
  /\ forall e,
       fst (Habit.__init__ 0 "Sleep" (0, -1) None None (World 0)) <> Raise e.
Proof. split; [reflexivity|]. intros e. cbn. discriminate. Qed.

(** C1, as the code has it: on a non-empty history, with a frequency and
    a period of at least 1, there is one number [n] of consecutive
    windows walked back from the anchor: window [k] is
    [[anchor - (k+1) * period, anchor - k * period]], a check-in [t]
    counts in it when [start <= t <= end], the windows [0 .. n-1] hold at
    least [frequency] check-ins and window [n] holds fewer.
    [update_streak] stores [n] as the streak, and the larger of the old
    longest streak and [n] as the longest streak, when the walk stays in
    range: the period is at most 999999999 days and the windows
    [0 .. n] start at a datetime of the years 1..9999.  Otherwise it
    raises [OverflowError] and stores nothing.  Whenever it returns, the
    streak is [n].  Scenario E: the habit "Read Book" of the fixture (3
    times every 7 days, 3 check-ins in each of 4 weeks), generated at a
    datetime at least 40 days after the first one and anchored at its
    last check-in or at any reference time from there on, gets streak 4
    and longest streak 4. *)
Theorem update_streak_counts_consecutive_windows :
  (forall (self : Habit.t) (update_time : option datetime)
          (x : datetime) (l : list datetime),
      Habit.history self = x :: l ->
      1 <= Habit.frequency self ->
      1 <= Habit.period self ->
      exists n : nat,
        consecutive_windows (Habit.history self) (Habit.frequency self)
          (timedelta_days (Habit.period self))
          (Habit.reference_of update_time x l) n
        /\ (walk_in_range (Habit.period self)
              (Habit.reference_of update_time x l) n ->
            forall fuel, (n < fuel)%nat ->
              Habit.update_streak fuel update_time self
              = Some (Ok (Habit.set_longest_streak
                            (Z.max (Habit.longest_streak self) (Z.of_nat n))
                            (Habit.set_streak (Z.of_nat n) self))))
        /\ (~ walk_in_range (Habit.period self)
                (Habit.reference_of update_time x l) n ->
            forall fuel, (n < fuel)%nat ->
              Habit.update_streak fuel update_time self
              = Some (Raise OverflowError))
        /\ (forall fuel self',
              Habit.update_streak fuel update_time self = Some (Ok self') ->
              Habit.streak self' = Z.of_nat n
              /\ Habit.longest_streak self'
                 = Z.max (Habit.longest_streak self) (Z.of_nat n)))
  /\ (forall (today : datetime) (tick : Z -> datetime) (w : world)
             (fuel : nat) (update_time : option datetime),
        timedelta_days 40 <= today < MAX_US ->
        (5 <= fuel)%nat ->
        (forall u, update_time = Some u -> today - timedelta_days 5 <= u) ->
        exists habits w' habit4 habit4',
          test_habits today tick w = (Ok habits, w')
          /\ nth_error habits 3 = Some habit4
          /\ Habit.name habit4 = "Read Book"%string
          /\ Habit.frequency habit4 = 3 /\ Habit.period habit4 = 7
          /\ Habit.history habit4
             = map (fun d => today - timedelta_days 28 + timedelta_days d)
                   read_book_days
          /\ Habit.update_streak fuel update_time habit4 = Some (Ok habit4')
          /\ Habit.streak habit4' = 4
          /\ Habit.longest_streak habit4' = 4
          /\ consecutive_windows (Habit.history habit4) 3 (timedelta_days 7)
               (today - timedelta_days 5) 4).
Proof.
  split.
  - exact update_streak_consecutive.
  - exact read_book_streak_general.
Qed.

(** C1 fails on the code: a habit to be done once every 1000000 days,
    with three check-ins in 2025 in ascending order, has one satisfied
    window ([n = 1]), but its first window would start before the year 1:
    [update_streak] raises [OverflowError] and stores no streak. *)
Lemma update_streak_raises_out_of_range :
  Habit.history (Habit.set_periodicity (1, 1000000) demo_habit)
  = jan_29_2025
    :: [jan_29_2025 + timedelta_days 1; jan_29_2025 + timedelta_days 2]
  /\ StronglySorted Z.le
       (Habit.history (Habit.set_periodicity (1, 1000000) demo_habit))
  /\ Habit.frequency (Habit.set_periodicity (1, 1000000) demo_habit) = 1
  /\ Habit.period (Habit.set_periodicity (1, 1000000) demo_habit) = 1000000
  /\ consecutive_windows
       (Habit.history (Habit.set_periodicity (1, 1000000) demo_habit))
       1 (timedelta_days 1000000) (jan_29_2025 + timedelta_days 2) 1
  /\ forall fuel,
       Habit.update_streak fuel None
         (Habit.set_periodicity (1, 1000000) demo_habit)
       = Some (Raise OverflowError)
       /\ forall self',
            Habit.update_streak fuel None
              (Habit.set_periodicity (1, 1000000) demo_habit)
            <> Some (Ok self').
Proof.
  split; [reflexivity|]. split.
  { cbn [Habit.history Habit.set_periodicity demo_habit].
    repeat constructor; apply Z.leb_le; vm_compute; reflexivity. }
  split; [reflexivity|]. split; [reflexivity|]. split.
  { split.
    - intros k Hk. replace k with 0%nat by lia.
      unfold satisfied. vm_compute. discriminate.
    - unfold satisfied. vm_compute. intros H. apply H. reflexivity. }
  intros fuel.
  assert (Habit.update_streak fuel None
            (Habit.set_periodicity (1, 1000000) demo_habit)
          = Some (Raise OverflowError)) as E by (vm_compute; reflexivity).
  split; [exact E|]. intros self'. rewrite E. discriminate.
Qed.

(** C8 fails on the code: the fixture generated on 2025-01-29 gives the
    habit "Exercise" the streak 27, and not 6, the number of check-in
    days after day 21, the most recent day without a check-in. *)
Lemma exercise_streak_is_not_truncated :
  exists u w',
    generate_test_data 100 jan_29_2025 (fun _ => jan_29_2025) (World 0)
    = Some (Ok u, w')
    /\ exists habit2,
         nth_error (User.habits u) 1 = Some habit2
         /\ Habit.name habit2 = "Exercise"%string
         /\ most_recent_missed 28 exercise_days = 21
         /\ days_after_most_recent_miss 28 exercise_days = 6
         /\ Habit.streak habit2 = 27
         /\ Habit.streak habit2 <> days_after_most_recent_miss 28 exercise_days.
Proof.
  eexists _, _. split; [vm_compute; reflexivity|].
  eexists. split; [reflexivity|].
  split; [reflexivity|]. split; [vm_compute; reflexivity|].
  split; [vm_compute; reflexivity|]. split; [reflexivity|].
  vm_compute. discriminate.
Qed.

(** C9 fails on the code: a user whose habit 7 has a period of 0 days and
    a check-in.  The habit exists, but its recomputation never leaves the
    loop, so no longest streak is returned, whatever the bound on the
    turns of the loop. *)
Lemma analytics_longest_streak_for_habit_never_returns :
  In (Habit.set_periodicity (1, 0) demo_habit)
     (User.habits (User.mk 0 "Ann" [Habit.set_periodicity (1, 0) demo_habit]))
  /\ Habit.habit_id (Habit.set_periodicity (1, 0) demo_habit) = 7
  /\ forall fuel,
       analytics_longest_streak_for_habit fuel
         (User.mk 0 "Ann" [Habit.set_periodicity (1, 0) demo_habit]) 7
       = None.
Proof.
  split; [left; reflexivity|]. split; [reflexivity|]. intros fuel.
  rewrite (analytics_longest_streak_for_habit_found fuel
             (User.mk 0 "Ann" [Habit.set_periodicity (1, 0) demo_habit]) 7 []
             (Habit.set_periodicity (1, 0) demo_habit) [] eq_refl
             (fun h (Hin : In h []) => match Hin with end) eq_refl).
  rewrite (update_streak_period_zero
             (Habit.set_periodicity (1, 0) demo_habit) None _ _ eq_refl eq_refl);
    [reflexivity| |].
  - split; vm_compute; [discriminate|reflexivity].
  - vm_compute. discriminate.
Qed.

(* ================================================================= *)
(** ** The calendar *)


Lemma month_day_all leapyear :
  forallb (month_day_ok leapyear) (seq 0 365) = true.
Proof. destruct leapyear; vm_compute; reflexivity. Qed.

Lemma month_day_spec r leapyear :
  0 <= r < 365 ->
  let '(m, d) := _month_day r leapyear in
  1 <= m <= 12
  /\ 1 <= d <= (if (m =? 2) && leapyear then 29 else index _DAYS_IN_MONTH m)
  /\ index _DAYS_BEFORE_MONTH m + (if (m >? 2) && leapyear then 1 else 0) + d
     = r + 1.
Proof.
  intros Hr.
  pose proof (month_day_all leapyear) as H.
  rewrite forallb_forall in H.
  specialize (H (Z.to_nat r)).
  unfold month_day_ok in H. rewrite Z2Nat.id in H by lia.
  destruct (_month_day r leapyear) as [m d].
  assert (In (Z.to_nat r) (seq 0 365)) as Hin by (apply in_seq; lia).
  specialize (H Hin).
  repeat (apply andb_prop in H; destruct H as [H ?]).
  lia.
Qed.

Lemma is_leap_spec q400 q100 q4 q1 :
  0 <= q100 <= 3 -> 0 <= q4 <= 24 -> 0 <= q1 <= 3 ->
  _is_leap (q400 * 400 + 1 + q100 * 100 + q4 * 4 + q1)
  = (q1 =? 3) && (negb (q4 =? 24) || (q100 =? 3)).
Proof.
  intros H100 H4 H1. unfold _is_leap.
  set (y := q400 * 400 + 1 + q100 * 100 + q4 * 4 + q1).
  assert (y mod 4 = (q1 + 1) mod 4) as E4.
  { unfold y. replace (q400 * 400 + 1 + q100 * 100 + q4 * 4 + q1)
      with (q1 + 1 + (q400 * 100 + q100 * 25 + q4) * 4) by lia.
    apply Z.mod_add. lia. }
  assert (y mod 100 = (q4 * 4 + q1 + 1) mod 100) as E100.
  { unfold y. replace (q400 * 400 + 1 + q100 * 100 + q4 * 4 + q1)
      with (q4 * 4 + q1 + 1 + (q400 * 4 + q100) * 100) by lia.
    apply Z.mod_add. lia. }
  assert (y mod 400 = (q100 * 100 + q4 * 4 + q1 + 1) mod 400) as E400.
  { unfold y. replace (q400 * 400 + 1 + q100 * 100 + q4 * 4 + q1)
      with (q100 * 100 + q4 * 4 + q1 + 1 + q400 * 400) by lia.
    apply Z.mod_add. lia. }
  rewrite E4, E100, E400.
  destruct (Z.eqb_spec q1 3) as [->|H13].
  - destruct (Z.eqb_spec q4 24) as [->|H424].
    + destruct (Z.eqb_spec q100 3) as [->|H1003].
      * reflexivity.
      * assert (q100 = 0 \/ q100 = 1 \/ q100 = 2) as [->|[->| ->]] by lia;
          reflexivity.
    + cbn [negb orb andb].
      replace ((3 + 1) mod 4 =? 0) with true by reflexivity.
      assert ((q4 * 4 + 3 + 1) mod 100 <> 0) as Hne.
      { rewrite Z.mod_small by lia. lia. }
      apply Z.eqb_neq in Hne. rewrite Hne. reflexivity.
  - assert ((q1 + 1) mod 4 <> 0) as Hne.
    { rewrite Z.mod_small by lia. lia. }
    apply Z.eqb_neq in Hne. rewrite Hne. reflexivity.
Qed.

Lemma days_before_year_spec q400 q100 q4 q1 :
  0 <= q100 <= 3 -> 0 <= q4 <= 24 -> 0 <= q1 <= 3 ->
  _days_before_year (q400 * 400 + 1 + q100 * 100 + q4 * 4 + q1)
  = q400 * 146097 + q100 * 36524 + q4 * 1461 + q1 * 365.
Proof.
  intros H100 H4 H1. unfold _days_before_year. cbv zeta.
  replace (q400 * 400 + 1 + q100 * 100 + q4 * 4 + q1 - 1)
    with (q400 * 400 + q100 * 100 + q4 * 4 + q1) by lia.
  set (y := q400 * 400 + q100 * 100 + q4 * 4 + q1).
  assert (y / 4 = q400 * 100 + q100 * 25 + q4) as ->.
  { symmetry. apply (Z.div_unique y 4 _ q1); [lia|unfold y; lia]. }
  assert (y / 100 = q400 * 4 + q100) as ->.
  { symmetry. apply (Z.div_unique y 100 _ (q4 * 4 + q1)); [lia|unfold y; lia]. }
  assert (y / 400 = q400) as ->.
  { symmetry.
    apply (Z.div_unique y 400 _ (q100 * 100 + q4 * 4 + q1)); [lia|unfold y; lia]. }
  unfold y. lia.
Qed.

Lemma ord2ymd_spec n :
  1 <= n <= _MAXORDINAL ->
  let '(y, m, d) := _ord2ymd n in
  1 <= y <= 9999 /\ 1 <= m <= 12 /\ 1 <= d <= _days_in_month y m
  /\ _ymd2ord y m d = n.
Proof.
  unfold _MAXORDINAL. intros Hn. unfold _ord2ymd, _DI400Y, _DI100Y, _DI4Y.
  cbv zeta.
  pose proof (Z.div_mod (n - 1) 146097 ltac:(lia)) as E400.
  pose proof (Z.mod_pos_bound (n - 1) 146097 ltac:(lia)) as B400.
  set (q400 := (n - 1) / 146097) in *.
  set (r400 := (n - 1) mod 146097) in *.
  pose proof (Z.div_mod r400 36524 ltac:(lia)) as E100.
  pose proof (Z.mod_pos_bound r400 36524 ltac:(lia)) as B100.
  set (q100 := r400 / 36524) in *.
  set (r100 := r400 mod 36524) in *.
  pose proof (Z.div_mod r100 1461 ltac:(lia)) as E4.
  pose proof (Z.mod_pos_bound r100 1461 ltac:(lia)) as B4.
  set (q4 := r100 / 1461) in *.
  set (r4 := r100 mod 1461) in *.
  pose proof (Z.div_mod r4 365 ltac:(lia)) as E1.
  pose proof (Z.mod_pos_bound r4 365 ltac:(lia)) as B1.
  set (q1 := r4 / 365) in *.
  set (r1 := r4 mod 365) in *.
  clearbody q400 r400 q100 r100 q4 r4 q1 r1.
  assert (0 <= q400 <= 24) as Hq400 by lia.
  assert (0 <= q100 <= 4) as Hq100 by lia.
  assert (0 <= q4 <= 24) as Hq4 by lia.
  assert (0 <= q1 <= 4) as Hq1 by lia.
  destruct (Z.eqb_spec q1 4) as [H14|H14]; cbn [orb].
  - (* the last day of a leap year *)
    assert (r1 = 0) by lia. assert (q100 <= 3) by lia. assert (q4 <= 23) by lia.
    replace (q400 * 400 + 1 + q100 * 100 + q4 * 4 + q1 - 1)
      with (q400 * 400 + 1 + q100 * 100 + q4 * 4 + 3) by lia.
    assert (_is_leap (q400 * 400 + 1 + q100 * 100 + q4 * 4 + 3) = true) as Hleap.
    { rewrite is_leap_spec by lia.
      destruct (Z.eqb_spec q4 24); [lia|reflexivity]. }
    unfold _days_in_month, _ymd2ord, _days_before_month.
    rewrite Hleap, days_before_year_spec by lia.
    change (index _DAYS_IN_MONTH 12) with 31.
    change (index _DAYS_BEFORE_MONTH 12) with 334.
    cbn. lia.
  - destruct (Z.eqb_spec q100 4) as [H1004|H1004].
    + (* the last day of a 400-year cycle *)
      assert (r100 = 0) by lia. assert (q4 = 0) by lia. assert (q1 = 0) by lia.
      assert (r1 = 0) by lia. subst q100 q4 q1.
      replace (q400 * 400 + 1 + 4 * 100 + 0 * 4 + 0 - 1)
        with (q400 * 400 + 1 + 3 * 100 + 24 * 4 + 3) by lia.
      assert (_is_leap (q400 * 400 + 1 + 3 * 100 + 24 * 4 + 3) = true) as Hleap.
      { rewrite is_leap_spec by lia. reflexivity. }
      unfold _days_in_month, _ymd2ord, _days_before_month.
      rewrite Hleap, days_before_year_spec by lia.
      change (index _DAYS_IN_MONTH 12) with 31.
      change (index _DAYS_BEFORE_MONTH 12) with 334.
      cbn. lia.
    + (* any other day *)
      assert (q1 <= 3) by lia. assert (q100 <= 3) by lia.
      set (leapyear := (q1 =? 3) && (negb (q4 =? 24) || (q100 =? 3))).
      pose proof (month_day_spec r1 leapyear ltac:(lia)) as Hmd.
      destruct (_month_day r1 leapyear) as [m d].
      destruct Hmd as (Hm & Hd & Hsum).
      unfold _days_in_month, _ymd2ord, _days_before_month.
      rewrite is_leap_spec, days_before_year_spec by lia.
      fold leapyear.
      split; [lia|]. split; [exact Hm|]. split; [exact Hd|]. lia.
Qed.

(** ** The text form of a datetime *)

Lemma digit_val_digit_char d :
  0 <= d < 10 -> digit_val (digit_char d) = Some d.
Proof.
  intros H.
  assert (d = 0 \/ d = 1 \/ d = 2 \/ d = 3 \/ d = 4 \/ d = 5 \/ d = 6
          \/ d = 7 \/ d = 8 \/ d = 9) as Hd by lia.
  repeat (destruct Hd as [->|Hd]; [reflexivity|]). subst d. reflexivity.
Qed.

Lemma parse_digits_from_app l c :
  forall acc,
    parse_digits_from acc (l ++ [c])
    = match parse_digits_from acc l, digit_val c with
      | Some v, Some d => Some (v * 10 + d)
      | _, _ => None
      end.
Proof.
  induction l as [|x l IH]; intros acc; simpl.
  - destruct (digit_val c); reflexivity.
  - destruct (digit_val x); [apply IH|reflexivity].
Qed.

Lemma parse_digits_from_zfill w :
  forall n, 0 <= n < 10 ^ Z.of_nat w ->
            parse_digits_from 0 (zfill w n) = Some n.
Proof.
  induction w as [|w IH]; intros n Hn.
  - simpl in *. f_equal. lia.
  - cbn [zfill]. rewrite parse_digits_from_app.
    rewrite Nat2Z.inj_succ, Z.pow_succ_r in Hn by lia.
    rewrite IH by (split; [apply Z.div_pos; lia|apply Z.div_lt_upper_bound; lia]).
    rewrite digit_val_digit_char by (apply Z.mod_pos_bound; lia).
    f_equal. pose proof (Z.div_mod n 10 ltac:(lia)). lia.
Qed.

Lemma parse_digits_zfill w n :
  0 <= n < 10 ^ Z.of_nat (S w) -> parse_digits (zfill (S w) n) = Some n.
Proof.
  intros Hn. unfold parse_digits.
  destruct (zfill (S w) n) as [|c l] eqn:E.
  - cbn [zfill] in E. destruct (zfill w (n / 10)); discriminate.
  - rewrite <- E. apply parse_digits_from_zfill. exact Hn.
Qed.


Lemma fromisoformat_iso_chars year month day hour minute second microsecond :
  1 <= year <= 9999 -> 1 <= month <= 12 ->
  1 <= day <= _days_in_month year month ->
  0 <= hour < 24 -> 0 <= minute < 60 -> 0 <= second < 60 ->
  0 <= microsecond < 1000000 ->
  fromisoformat
    (string_of_list_ascii
       (iso_chars year month day hour minute second microsecond))
  = Some ((_ymd2ord year month day - 1) * US_PER_DAY
          + hour * US_PER_HOUR + minute * US_PER_MINUTE
          + second * US_PER_SECOND + microsecond).
Proof.
  intros Hy Hm Hd Hh Hmi Hs Hus.
  assert (day <= 31) as Hd31.
  { assert (index _DAYS_IN_MONTH month <= 31) as Hi.
    { assert (month = 1 \/ month = 2 \/ month = 3 \/ month = 4 \/ month = 5
              \/ month = 6 \/ month = 7 \/ month = 8 \/ month = 9
              \/ month = 10 \/ month = 11 \/ month = 12) as Hmm by lia.
      repeat (destruct Hmm as [Hmm|Hmm];
              [rewrite Hmm; vm_compute; discriminate|]).
      rewrite Hmm; vm_compute; discriminate. }
    unfold _days_in_month in Hd.
    destruct ((month =? 2) && _is_leap year); lia. }
  unfold fromisoformat. rewrite list_ascii_of_string_of_list_ascii.
  unfold iso_chars.
  destruct (Z.eqb_spec microsecond 0) as [Hz|Hnz].
  - cbn [zfill app List.length Nat.eqb orb negb andb char_at nth_error
         slice firstn skipn Nat.sub Ascii.eqb Bool.eqb].
    change [digit_char (year / 10 / 10 / 10 mod 10);
            digit_char (year / 10 / 10 mod 10);
            digit_char (year / 10 mod 10); digit_char (year mod 10)]
      with (zfill 4 year).
    change [digit_char (month / 10 mod 10); digit_char (month mod 10)]
      with (zfill 2 month).
    change [digit_char (day / 10 mod 10); digit_char (day mod 10)]
      with (zfill 2 day).
    change [digit_char (hour / 10 mod 10); digit_char (hour mod 10)]
      with (zfill 2 hour).
    change [digit_char (minute / 10 mod 10); digit_char (minute mod 10)]
      with (zfill 2 minute).
    change [digit_char (second / 10 mod 10); digit_char (second mod 10)]
      with (zfill 2 second).
    rewrite !parse_digits_zfill by (cbn; lia).
    cbn [option_bind].
    replace ((1 <=? year) && (year <=? 9999) && (1 <=? month) && (month <=? 12)
             && (1 <=? day) && (day <=? _days_in_month year month)
             && (hour <? 24) && (minute <? 60) && (second <? 60)) with true.
    + f_equal. lia.
    + symmetry. repeat (apply andb_true_intro; split); lia.
  - cbn [zfill app List.length Nat.eqb orb negb andb char_at nth_error
         slice firstn skipn Nat.sub Ascii.eqb Bool.eqb].
    change [digit_char (year / 10 / 10 / 10 mod 10);
            digit_char (year / 10 / 10 mod 10);
            digit_char (year / 10 mod 10); digit_char (year mod 10)]
      with (zfill 4 year).
    change [digit_char (month / 10 mod 10); digit_char (month mod 10)]
      with (zfill 2 month).
    change [digit_char (day / 10 mod 10); digit_char (day mod 10)]
      with (zfill 2 day).
    change [digit_char (hour / 10 mod 10); digit_char (hour mod 10)]
      with (zfill 2 hour).
    change [digit_char (minute / 10 mod 10); digit_char (minute mod 10)]
      with (zfill 2 minute).
    change [digit_char (second / 10 mod 10); digit_char (second mod 10)]
      with (zfill 2 second).
    change [digit_char (microsecond / 10 / 10 / 10 / 10 / 10 mod 10);
            digit_char (microsecond / 10 / 10 / 10 / 10 mod 10);
            digit_char (microsecond / 10 / 10 / 10 mod 10);
            digit_char (microsecond / 10 / 10 mod 10);
            digit_char (microsecond / 10 mod 10);
            digit_char (microsecond mod 10)]
      with (zfill 6 microsecond).
    rewrite !parse_digits_zfill by (cbn; lia).
    cbn [option_bind].
    replace ((1 <=? year) && (year <=? 9999) && (1 <=? month) && (month <=? 12)
             && (1 <=? day) && (day <=? _days_in_month year month)
             && (hour <? 24) && (minute <? 60) && (second <? 60)) with true.
    + reflexivity.
    + symmetry. repeat (apply andb_true_intro; split); lia.
Qed.

Lemma us_constants :
  US_PER_SECOND = 1000000 /\ US_PER_MINUTE = 60000000
  /\ US_PER_HOUR = 3600000000 /\ US_PER_DAY = 86400000000
  /\ MAX_US = 315537897600000000.
Proof. repeat split. Qed.

Lemma time_fields rest :
  0 <= rest < 86400000000 ->
  rest / 3600000000 * 3600000000 + rest mod 3600000000 / 60000000 * 60000000
  + rest mod 60000000 / 1000000 * 1000000 + rest mod 1000000 = rest
  /\ 0 <= rest / 3600000000 < 24
  /\ 0 <= rest mod 3600000000 / 60000000 < 60
  /\ 0 <= rest mod 60000000 / 1000000 < 60.
Proof.
  intros H.
  assert (rest mod 60000000 = (rest mod 3600000000) mod 60000000) as E1.
  { symmetry. apply Z.mod_mod_divide. exists 60. reflexivity. }
  assert (rest mod 1000000 = (rest mod 60000000) mod 1000000) as E2.
  { symmetry. apply Z.mod_mod_divide. exists 60. reflexivity. }
  pose proof (Z.div_mod rest 3600000000 ltac:(lia)).
  pose proof (Z.mod_pos_bound rest 3600000000 ltac:(lia)).
  pose proof (Z.div_mod (rest mod 3600000000) 60000000 ltac:(lia)).
  pose proof (Z.mod_pos_bound (rest mod 3600000000) 60000000 ltac:(lia)).
  pose proof (Z.div_mod (rest mod 60000000) 1000000 ltac:(lia)).
  pose proof (Z.mod_pos_bound (rest mod 60000000) 1000000 ltac:(lia)).
  rewrite <- E1 in *. rewrite <- E2 in *.
  set (a := rest / 3600000000) in *.
  set (b := rest mod 3600000000 / 60000000) in *.
  set (c := rest mod 60000000 / 1000000) in *.
  clearbody a b c.
  repeat split; lia.
Qed.

(** Reading back what [isoformat] writes gives the datetime again. *)
Lemma fromisoformat_isoformat dt :
  valid_datetime dt -> fromisoformat (isoformat dt) = Some dt.
Proof.
  unfold valid_datetime. intros Hdt.
  destruct us_constants as (ES & EM & EH & ED & EMAX).
  unfold isoformat. rewrite ES, EM, EH, ED in *. rewrite EMAX in Hdt.
  cbv zeta.
  pose proof (ord2ymd_spec (dt / 86400000000 + 1)) as Hord.
  unfold _MAXORDINAL in Hord.
  assert (1 <= dt / 86400000000 + 1 <= 3652059) as Hrange.
  { split.
    - pose proof (Z.div_pos dt 86400000000 ltac:(lia) ltac:(lia)). lia.
    - assert (dt / 86400000000 < 3652059); [|lia].
      apply Z.div_lt_upper_bound; lia. }
  specialize (Hord Hrange).
  destruct (_ord2ymd (dt / 86400000000 + 1)) as [[year month] day].
  destruct Hord as (Hy & Hm & Hd & Hymd).
  set (rest := dt mod 86400000000).
  assert (0 <= rest < 86400000000) as Hrest
    by (apply Z.mod_pos_bound; lia).
  destruct (time_fields rest Hrest) as (Esum & Hh & Hmi & Hs).
  pose proof (fromisoformat_iso_chars year month day
                (rest / 3600000000) (rest mod 3600000000 / 60000000)
                (rest mod 60000000 / 1000000) (rest mod 1000000)
                Hy Hm Hd Hh Hmi Hs
                (Z.mod_pos_bound rest 1000000 ltac:(lia))) as Hparse.
  unfold iso_chars in Hparse. rewrite ES, EM, EH, ED in Hparse.
  rewrite Hparse. apply f_equal. rewrite Hymd.
  pose proof (Z.div_mod dt 86400000000 ltac:(lia)) as E. fold rest in E.
  lia.
Qed.

Lemma datetime_from_str_to_str dt :
  valid_datetime dt -> datetime_from_str (datetime_to_str dt) = Ok dt.
Proof.
  intros H. unfold datetime_from_str, datetime_to_str.
  rewrite (fromisoformat_isoformat dt H). reflexivity.
Qed.

Lemma history_from_str_to_str history :
  Forall valid_datetime history ->
  rmap (fun s => rbind (as_str s) datetime_from_str)
       (map (fun dt => PyStr (datetime_to_str dt)) history)
  = Ok history.
Proof.
  induction 1 as [|dt l Hdt Hl IH]; [reflexivity|].
  cbn [map rmap as_str rbind]. rewrite (datetime_from_str_to_str dt Hdt).
  cbn [rbind]. rewrite IH. reflexivity.
Qed.



Lemma Habit_from_dict_to_dict today h w :
  valid_habit h ->
  Habit.from_dict today (Habit.to_dict h) w
  = (Ok (restored h),
     if Habit.habit_id h >=? _id_counter w
     then World (Habit.habit_id h + 1) else w).
Proof.
  intros [Hc Hh]. destruct h as [i n [f p] fr pe hist s ls c].
  cbn [Habit.creation Habit.history] in Hc, Hh.
  unfold Habit.from_dict, Habit.to_dict, bind.
  cbn [Habit.habit_id Habit.name Habit.periodicity Habit.history Habit.streak
       Habit.longest_streak Habit.creation fst snd].
  rewrite ?lift_run.
  cbn [getitem dict_get dict_lookup String.eqb Ascii.eqb Bool.eqb
       rbind as_str as_list as_int rmap Habit.as_optional_int].
  rewrite (datetime_from_str_to_str c Hc). cbn [rbind].
  rewrite ?lift_run.
  unfold Habit.__init__, Habit.next_id, bind, ret.
  rewrite ?lift_run.
  cbn [getitem dict_get dict_lookup String.eqb Ascii.eqb Bool.eqb
       rbind as_str as_list as_int].
  rewrite (history_from_str_to_str hist Hh).
  rewrite ?lift_run.
  cbn [getitem dict_get dict_lookup String.eqb Ascii.eqb Bool.eqb
       rbind as_str as_list as_int].
  reflexivity.
Qed.

Lemma habits_from_dict_to_dict today :
  forall habits w,
    Forall valid_habit habits ->
    exists w',
      mapM (Habit.from_dict today) (map Habit.to_dict habits) w
      = (Ok (map restored habits), w').
Proof.
  induction habits as [|h habits IH]; intros w Hv.
  - exists w. reflexivity.
  - inversion Hv as [|h0 l0 Hh Hrest]; subst.
    cbn [map mapM]. unfold bind.
    rewrite (Habit_from_dict_to_dict today h w Hh).
    destruct (IH (if Habit.habit_id h >=? _id_counter w
                  then World (Habit.habit_id h + 1) else w) Hrest)
      as [w' ->].
    exists w'. reflexivity.
Qed.

Lemma restored_fields h :
  Habit.habit_id (restored h) = Habit.habit_id h
  /\ Habit.name (restored h) = Habit.name h
  /\ Habit.periodicity (restored h) = Habit.periodicity h
  /\ Habit.history (restored h) = Habit.history h
  /\ Habit.streak (restored h) = Habit.streak h
  /\ Habit.longest_streak (restored h) = Habit.longest_streak h
  /\ Habit.creation (restored h) = Habit.creation h.
Proof. repeat split. Qed.

(** C5: deserializing the serialized document of an owner whose
    datetimes are in the range of [datetime] (the years 1..9999)
    succeeds and gives an owner with the same name and identifier and as
    many habits, the habits having, position by position, the same
    identifier, name, periodicity, history, streak, longest streak and
    creation time; the same holds of one habit. *)
Theorem from_dict_to_dict_round_trip (today : datetime) (w : world) :
  (forall u : User.t,
      Forall valid_habit (User.habits u) ->
      exists u' w',
        User.from_dict today (User.to_dict u) w = (Ok u', w')
        /\ User.name u' = User.name u
        /\ User.user_id u' = User.user_id u
        /\ List.length (User.habits u') = List.length (User.habits u)
        /\ Forall2
             (fun h h' =>
                Habit.habit_id h' = Habit.habit_id h
                /\ Habit.name h' = Habit.name h
                /\ Habit.periodicity h' = Habit.periodicity h
                /\ Habit.history h' = Habit.history h
                /\ Habit.streak h' = Habit.streak h
                /\ Habit.longest_streak h' = Habit.longest_streak h
                /\ Habit.creation h' = Habit.creation h)
             (User.habits u) (User.habits u'))
  /\ (forall h : Habit.t,
        valid_habit h ->
        exists h' w',
          Habit.from_dict today (Habit.to_dict h) w = (Ok h', w')
          /\ Habit.habit_id h' = Habit.habit_id h
          /\ Habit.name h' = Habit.name h
          /\ Habit.periodicity h' = Habit.periodicity h
          /\ Habit.history h' = Habit.history h
          /\ Habit.streak h' = Habit.streak h
          /\ Habit.longest_streak h' = Habit.longest_streak h
          /\ Habit.creation h' = Habit.creation h).
Proof.
  split.
  - intros u Hv. destruct u as [uid n habits]. cbn [User.habits] in Hv.
    unfold User.from_dict, User.to_dict, bind.
    cbn [User.user_id User.name User.habits].
    rewrite ?lift_run.
    cbn [getitem dict_get dict_lookup String.eqb Ascii.eqb Bool.eqb
         rbind as_str as_list as_int].
    destruct (habits_from_dict_to_dict today habits w Hv) as [w' ->].
    rewrite ?lift_run.
    cbn [getitem dict_get dict_lookup String.eqb Ascii.eqb Bool.eqb
         rbind as_str as_list as_int].
    rewrite ?lift_run.
    cbn [getitem dict_get dict_lookup String.eqb Ascii.eqb Bool.eqb
         rbind as_str as_list as_int].
    eexists _, _. split; [reflexivity|].
    cbn [User.__init__ User.name User.user_id User.habits].
    split; [reflexivity|]. split; [reflexivity|].
    split; [apply length_map|].
    clear Hv. induction habits as [|h habits IH]; cbn [map]; constructor.
    + apply restored_fields.
    + exact IH.
  - intros h Hv. rewrite (Habit_from_dict_to_dict today h w Hv).
    eexists _, _. split; [reflexivity|]. apply restored_fields.
Qed.

(* ================================================================= *)
(** ** The statements above at concrete inputs *)

Lemma demo_user_valid : Forall valid_habit (User.habits demo_user).
Proof.
  assert (forall d, (0 <=? d) && (d <? MAX_US) = true -> valid_datetime d)
    as Hv by (unfold valid_datetime; intros d Hd; lia).
  constructor; [|constructor].
  split; [apply Hv; vm_compute; reflexivity|].
  cbn [Habit.history demo_habit].
  repeat (constructor; [apply Hv; vm_compute; reflexivity|]).
  constructor.
Defined.

Lemma demo_habit_room :
  room_for_walk (Habit.period demo_habit) None (Habit.history demo_habit).
Proof.
  split; [vm_compute; discriminate|]. split.
  - intros t Ht. cbn [Habit.history demo_habit] in Ht.
    destruct Ht as [<-|[<-|[<-|[]]]];
      (split; [apply Z.leb_le|apply Z.ltb_lt]; vm_compute; reflexivity).
  - intros u Hu. discriminate Hu.
Qed.

Lemma update_streak_counts_consecutive_windows_witness :
  Habit.history demo_habit
  = jan_29_2025
    :: [jan_29_2025 + timedelta_days 1; jan_29_2025 + timedelta_days 2]
  /\ 1 <= Habit.frequency demo_habit
  /\ 1 <= Habit.period demo_habit
  /\ exists n : nat,
       consecutive_windows (Habit.history demo_habit)
         (Habit.frequency demo_habit)
         (timedelta_days (Habit.period demo_habit))
         (Habit.reference_of None jan_29_2025
            [jan_29_2025 + timedelta_days 1; jan_29_2025 + timedelta_days 2])
         n
       /\ forall fuel, (n < fuel)%nat ->
            Habit.update_streak fuel None demo_habit
            = Some (Ok (Habit.set_longest_streak
                          (Z.max (Habit.longest_streak demo_habit) (Z.of_nat n))
                          (Habit.set_streak (Z.of_nat n) demo_habit))).
Proof.
  assert (1 <= Habit.frequency demo_habit) as Hf by (cbn; lia).
  assert (1 <= Habit.period demo_habit) as Hp by (cbn; lia).
  split; [reflexivity|]. split; [exact Hf|]. split; [exact Hp|].
  destruct (proj1 update_streak_counts_consecutive_windows demo_habit None
                  _ _ eq_refl Hf Hp) as (n & Hn & Hok & _).
  exists n. split; [exact Hn|]. apply Hok.
  apply (room_for_walk_in_range demo_habit None _ _ n eq_refl Hf Hp
           demo_habit_room Hn).
Defined.

Lemma update_streak_anchor_witness :
  Habit.history demo_habit
  = jan_29_2025
    :: [jan_29_2025 + timedelta_days 1; jan_29_2025 + timedelta_days 2]
  /\ Habit.reference_of (Some (jan_29_2025 + timedelta_days 1)) jan_29_2025
       [jan_29_2025 + timedelta_days 1; jan_29_2025 + timedelta_days 2]
     = jan_29_2025 + timedelta_days 1
  /\ Habit.reference_of (Some (jan_29_2025 + timedelta_days 3)) jan_29_2025
       [jan_29_2025 + timedelta_days 1; jan_29_2025 + timedelta_days 2]
     = jan_29_2025 + timedelta_days 2.
Proof.
  split; [reflexivity|]. split.
  - apply (proj1 (proj2 (update_streak_anchor demo_habit
                           (Some (jan_29_2025 + timedelta_days 1))
                           _ _ 10%nat eq_refl))
                 _ eq_refl).
    vm_compute. reflexivity.
  - transitivity
      (py_max jan_29_2025
         [jan_29_2025 + timedelta_days 1; jan_29_2025 + timedelta_days 2]);
      [|vm_compute; reflexivity].
    apply (proj1 (proj2 (proj2 (update_streak_anchor demo_habit
                                  (Some (jan_29_2025 + timedelta_days 3))
                                  _ _ 10%nat eq_refl)))
                 _ eq_refl).
    vm_compute. discriminate.
Defined.

Lemma longest_streak_never_decreases_witness :
  exists h',
    run [CheckIn 0 (Some (jan_29_2025 + timedelta_days 3));
         UpdateStreak 10 None; SetHistory []; UpdateStreak 10 None]
        demo_habit
    = Some h'
    /\ Habit.longest_streak demo_habit <= Habit.longest_streak h'.
Proof.
  eexists. split; [vm_compute; reflexivity|].
  apply (proj1 longest_streak_never_decreases
               [CheckIn 0 (Some (jan_29_2025 + timedelta_days 3));
                UpdateStreak 10 None; SetHistory []; UpdateStreak 10 None]
               demo_habit).
  vm_compute. reflexivity.
Defined.

Lemma from_dict_to_dict_round_trip_witness :
  Forall valid_habit (User.habits demo_user)
  /\ exists u' w',
       User.from_dict 0 (User.to_dict demo_user) (World 0) = (Ok u', w')
       /\ User.name u' = User.name demo_user
       /\ List.length (User.habits u') = 1%nat.
Proof.
  split; [exact demo_user_valid|].
  destruct (proj1 (from_dict_to_dict_round_trip 0 (World 0)) demo_user
                  demo_user_valid)
    as (u' & w' & E & Hn & _ & Hl & _).
  exists u', w'. split; [exact E|]. split; [exact Hn|exact Hl].
Defined.

Lemma fresh_ids_exceed_restored_ids_witness :
  exists u w' h w3,
    User.from_dict 0 (User.to_dict demo_user) (World 0) = (Ok u, w')
    /\ In (restored demo_habit) (User.habits u)
    /\ Habit.habit_id (restored demo_habit) = 7
    /\ Habit.__init__ 0 "Walk" (1, 1) None None w' = (Ok h, w3)
    /\ 8 <= Habit.habit_id h.
Proof.
  assert (User.from_dict 0 (User.to_dict demo_user) (World 0)
          = (Ok (User.mk 0 "Ann" [restored demo_habit]), World 8)) as E
    by (vm_compute; reflexivity).
  destruct (proj1 (proj2 (proj2 fresh_ids_exceed_restored_ids))
                  0 _ (World 0) _ _ E (World 8) (Z.le_refl _)
                  0 "Walk"%string (1, 1) None)
    as (h & w3 & Eh & _ & H7).
  exists (User.mk 0 "Ann" [restored demo_habit]), (World 8), h, w3.
  split; [exact E|]. split; [left; reflexivity|]. split; [reflexivity|].
  split; [exact Eh|].
  apply (H7 (restored demo_habit)); [left; reflexivity|reflexivity].
Defined.

Lemma exercise_streak_runs_past_missed_days_witness :
  timedelta_days 29 <= jan_29_2025 < MAX_US
  /\ (28 <= 28)%nat
  /\ exists habits w' habit2 habit2',
       test_habits jan_29_2025 (fun _ => jan_29_2025) (World 0)
       = (Ok habits, w')
       /\ nth_error habits 1 = Some habit2
       /\ Habit.update_streak 28 None habit2 = Some (Ok habit2')
       /\ Habit.streak habit2' = 27.
Proof.
  assert (timedelta_days 29 <= jan_29_2025 < MAX_US) as Ht
    by (split; [apply Z.leb_le|apply Z.ltb_lt]; vm_compute; reflexivity).
  split; [exact Ht|]. split; [apply le_n|].
  destruct (exercise_streak_runs_past_missed_days jan_29_2025
              (fun _ => jan_29_2025) (World 0) 28%nat None Ht (le_n 28))
    as (habits & w' & habit2 & habit2' & E & Hn & _ & _ & _ & _ & Hu & Hs & _).
  - intros u Hu. discriminate Hu.
  - exists habits, w', habit2, habit2'. repeat split; assumption.
Defined.

Lemma analytics_longest_streak_for_habit_witness :
  analytics_longest_streak_for_habit 10 demo_user 8
  = Some (Ok (demo_user, PyNone))
  /\ exists n : nat, forall fuel, (n < fuel)%nat ->
       exists habit',
         Habit.update_streak fuel None demo_habit = Some (Ok habit')
         /\ analytics_longest_streak_for_habit fuel demo_user 7
            = Some (Ok (User.set_habits ([] ++ habit' :: []) demo_user,
                        PyInt (Habit.longest_streak habit'))).
Proof.
  split.
  - apply (proj1 (analytics_longest_streak_for_habit_found_or_none
                    demo_user 8)).
    intros h [<-|[]]. cbn. lia.
  - apply (proj2 (proj1 (proj2
             (analytics_longest_streak_for_habit_found_or_none demo_user 7))
             [] demo_habit [] eq_refl
             (fun h (Hin : In h []) => match Hin with end) eq_refl));
      [cbn; lia|cbn; lia|exact demo_habit_room].
Defined.

Lemma update_streak_loop_terminates_witness :
  1 <= Habit.frequency demo_habit
  /\ 1 <= Habit.period demo_habit
  /\ exists n : nat, forall fuel, (n < fuel)%nat ->
       exists r, Habit.update_streak fuel None demo_habit = Some r.
Proof.
  assert (1 <= Habit.frequency demo_habit) as Hf by (cbn; lia).
  assert (1 <= Habit.period demo_habit) as Hp by (cbn; lia).
  split; [exact Hf|]. split; [exact Hp|].
  exact (proj2 (proj2 (update_streak_loop_terminates demo_habit None Hf Hp))).
Defined.

(* ================================================================= *)
(** * Further properties of the code *)

(** ** Check-ins *)

Lemma insert_sorted_permutation x l : Permutation (insert_sorted x l) (x :: l).
Proof.
  induction l as [|y l IH]; simpl; [reflexivity|].
  destruct (x <=? y); [reflexivity|].
  rewrite IH. apply perm_swap.
Qed.

Lemma sort_permutation l : Permutation (sort l) l.
Proof.
  induction l as [|x l IH]; simpl; [reflexivity|].
  rewrite insert_sorted_permutation. constructor. exact IH.
Qed.

Lemma insert_sorted_hdrel a x l :
  a <= x -> HdRel Z.le a l -> HdRel Z.le a (insert_sorted x l).
Proof.
  intros Hax Hl. destruct l as [|y l]; simpl; [constructor; exact Hax|].
  destruct (x <=? y); constructor; [exact Hax|].
  inversion Hl; assumption.
Qed.

Lemma insert_sorted_sorted x l :
  Sorted Z.le l -> Sorted Z.le (insert_sorted x l).
Proof.
  induction 1 as [|y l Hl IH Hhd]; simpl; [repeat constructor|].
  destruct (Z.leb_spec x y).
  - constructor; [constructor; assumption|constructor; assumption].
  - constructor; [exact IH|]. apply insert_sorted_hdrel; [lia|exact Hhd].
Qed.

Lemma sort_sorted l : Sorted Z.le (sort l).
Proof.
  induction l as [|x l IH]; simpl; [constructor|].
  apply insert_sorted_sorted. exact IH.
Qed.

(** X1: [check_in] adds the check-in (the given datetime, or the reading
    of the clock when none is given) to the history and leaves the
    history sorted in ascending order, whatever order it was in: the new
    history holds the new check-in and the old ones, duplicates included,
    and one item more.  Nothing else changes; the streak and the longest
    streak keep their old values until [update_streak] is called. *)
Theorem check_in_sorts_and_keeps (today : datetime)
    (checkin_datetime : option datetime) (self : Habit.t) :
  let self' := Habit.check_in today checkin_datetime self in
  let dt := match checkin_datetime with Some d => d | None => today end in
  StronglySorted Z.le (Habit.history self')
  /\ Permutation (Habit.history self') (dt :: Habit.history self)
  /\ List.length (Habit.history self') = S (List.length (Habit.history self))
  /\ Habit.streak self' = Habit.streak self
  /\ Habit.longest_streak self' = Habit.longest_streak self
  /\ Habit.habit_id self' = Habit.habit_id self
  /\ Habit.name self' = Habit.name self
  /\ Habit.periodicity self' = Habit.periodicity self
  /\ Habit.frequency self' = Habit.frequency self
  /\ Habit.period self' = Habit.period self
  /\ Habit.creation self' = Habit.creation self.
Proof.
  cbv zeta. unfold Habit.check_in. destruct self; cbn.
  set (dt := match checkin_datetime with Some d => d | None => today end).
  assert (Permutation (sort (history ++ [dt])) (dt :: history)) as Hperm.
  { rewrite sort_permutation. rewrite Permutation_app_comm. reflexivity. }
  split.
  { apply Sorted_StronglySorted; [intros a b c; apply Z.le_trans|].
    apply sort_sorted. }
  split; [exact Hperm|].
  split; [apply Permutation_length in Hperm; exact Hperm|].
  repeat split.
Qed.

(** ** Adding and deleting habits *)

(** X2: [delete_habit] removes from the user every habit with the given
    identifier and no other: a habit is among the habits left exactly
    when it was there and has another identifier, the habits left stand
    in the order they had, the user's name and identifier stay; deleting
    an identifier no habit has changes nothing, deleting twice is
    deleting once, and two deletions commute. *)
Theorem delete_habit_removes_exactly (habit_id : Z) (self : User.t) :
  let self' := User.delete_habit habit_id self in
  (forall h, In h (User.habits self')
             <-> In h (User.habits self) /\ Habit.habit_id h <> habit_id)
  /\ (forall l1 h l2,
         User.habits self = l1 ++ h :: l2 ->
         Habit.habit_id h <> habit_id ->
         User.habits self'
         = User.habits (User.delete_habit habit_id (User.set_habits l1 self))
           ++ h
           :: User.habits (User.delete_habit habit_id (User.set_habits l2 self)))
  /\ User.name self' = User.name self
  /\ User.user_id self' = User.user_id self
  /\ ((forall h, In h (User.habits self) -> Habit.habit_id h <> habit_id) ->
      self' = self)
  /\ User.delete_habit habit_id self' = self'
  /\ (forall other,
         User.delete_habit other self'
         = User.delete_habit habit_id (User.delete_habit other self)).
Proof.
  cbv zeta. destruct self as [uid n habits].
  unfold User.delete_habit, User.set_habits. cbn.
  split.
  { intros h. rewrite filter_In. rewrite negb_true_iff, Z.eqb_neq. tauto. }
  split.
  { intros l1 h l2 -> Hne. rewrite filter_app. cbn.
    apply Z.eqb_neq in Hne. rewrite Hne. reflexivity. }
  split; [reflexivity|]. split; [reflexivity|].
  split.
  { intros Hno. f_equal.
    induction habits as [|h habits IH]; cbn; [reflexivity|].
    assert (Habit.habit_id h <> habit_id) as Hne by (apply Hno; left; reflexivity).
    apply Z.eqb_neq in Hne. rewrite Hne. cbn. f_equal.
    apply IH. intros h' Hin. apply Hno. right. exact Hin. }
  split.
  { f_equal. induction habits as [|h habits IH]; cbn; [reflexivity|].
    destruct (Z.eqb_spec (Habit.habit_id h) habit_id) as [He|Hne]; cbn;
      [exact IH|].
    apply Z.eqb_neq in Hne. rewrite Hne. cbn. f_equal. exact IH. }
  intros other. f_equal.
  induction habits as [|h habits IH]; cbn; [reflexivity|].
  destruct (Habit.habit_id h =? habit_id) eqn:E1;
    destruct (Habit.habit_id h =? other) eqn:E2;
    cbn; rewrite ?E1, ?E2; cbn; rewrite ?IH; reflexivity.
Qed.

Lemma filter_other_ids habit_id (habits : list Habit.t) :
  (forall h, In h habits -> Habit.habit_id h <> habit_id) ->
  filter (fun habit => negb (Habit.habit_id habit =? habit_id)) habits = habits.
Proof.
  induction habits as [|h habits IH]; intros Hno; cbn; [reflexivity|].
  assert (Habit.habit_id h <> habit_id) as Hne by (apply Hno; left; reflexivity).
  apply Z.eqb_neq in Hne. rewrite Hne. cbn. f_equal.
  apply IH. intros h' Hin. apply Hno. right. exact Hin.
Qed.

(** X3: [add_habit] puts the habit after the habits the user has.
    Deleting it again by its identifier gives the user back when no other
    habit of the user has that identifier; this is so for a habit created
    without an identifier when every habit of the user has an identifier
    below the counter, as after the user was deserialized. *)
Theorem add_habit_then_delete_habit (habit : Habit.t) (self : User.t) :
  User.habits (User.add_habit habit self) = User.habits self ++ [habit]
  /\ ((forall h, In h (User.habits self) ->
                 Habit.habit_id h <> Habit.habit_id habit) ->
      User.delete_habit (Habit.habit_id habit) (User.add_habit habit self)
      = self)
  /\ (forall today name periodicity creation w habit' w',
         (forall h, In h (User.habits self) ->
                    Habit.habit_id h < _id_counter w) ->
         Habit.__init__ today name periodicity creation None w
         = (Ok habit', w') ->
         User.delete_habit (Habit.habit_id habit') (User.add_habit habit' self)
         = self).
Proof.
  assert (forall hb : Habit.t,
             (forall h, In h (User.habits self) ->
                        Habit.habit_id h <> Habit.habit_id hb) ->
             User.delete_habit (Habit.habit_id hb) (User.add_habit hb self)
             = self) as Hdel.
  { intros hb Hno. destruct self as [uid n habits].
    unfold User.delete_habit, User.add_habit, User.set_habits. cbn in *.
    f_equal. rewrite filter_app. cbn. rewrite Z.eqb_refl. cbn.
    rewrite app_nil_r. apply filter_other_ids. exact Hno. }
  split; [destruct self; reflexivity|]. split; [apply Hdel|].
  intros today name periodicity creation w habit' w' Hlt Hinit.
  apply Hdel. intros h Hin.
  destruct (init_spec today name periodicity creation None w)
    as (h0 & w0 & E & _ & _ & Hfresh & _).
  rewrite E in Hinit. injection Hinit as <- <-.
  destruct (Hfresh eq_refl) as [Hid _].
  specialize (Hlt h Hin). lia.
Qed.

(** X4: [update_streak] writes the streak and the longest streak and
    nothing else, and calling it again with the same reference time
    changes nothing more. *)
Theorem update_streak_twice (fuel : nat) (update_time : option datetime)
    (self self' : Habit.t) :
  Habit.update_streak fuel update_time self = Some (Ok self') ->
  Habit.habit_id self' = Habit.habit_id self
  /\ Habit.name self' = Habit.name self
  /\ Habit.periodicity self' = Habit.periodicity self
  /\ Habit.frequency self' = Habit.frequency self
  /\ Habit.period self' = Habit.period self
  /\ Habit.history self' = Habit.history self
  /\ Habit.creation self' = Habit.creation self
  /\ 0 <= Habit.streak self'
  /\ Habit.update_streak fuel update_time self' = Some (Ok self').
Proof.
  intros H. destruct (Habit.history self) as [|x l] eqn:Hh.
  - unfold Habit.update_streak in H. rewrite Hh in H. injection H as <-.
    destruct self; cbn in *. subst history. repeat split. lia.
  - destruct (update_streak_result _ _ _ _ x l Hh H) as (n & Hn & Hc & Hr & ->).
    assert (Habit.history
              (Habit.set_longest_streak
                 (Z.max (Habit.longest_streak self) (Z.of_nat n))
                 (Habit.set_streak (Z.of_nat n) self)) = x :: l) as Hh'
      by (destruct self; exact Hh).
    rewrite (update_streak_ok fuel update_time _ x l n Hh');
      [|destruct self; exact Hc|destruct self; exact Hr|exact Hn].
    destruct self; cbn in *. repeat split; try lia; try assumption.
    unfold Habit.set_longest_streak, Habit.set_streak. cbn.
    do 3 f_equal. lia.
Qed.

(** X5: the streak does not depend on where on the time line the
    check-ins lie, as long as the walk stays in the range of datetime:
    moving every check-in and the reference time by the same duration
    gives the same streak and the same longest streak when the first
    window and the last window looked at (the unsatisfied one) still
    start at a datetime after the move, and [OverflowError] when one of
    the two does not. *)
Theorem update_streak_of_moved_history (c : Z) (fuel : nat)
    (update_time : option datetime) (self self' : Habit.t) :
  Habit.update_streak fuel update_time self = Some (Ok self') ->
  let moved := Habit.set_history (map (Z.add c) (Habit.history self)) self in
  let in_range x l :=
    valid_datetime
      (c + window_start (Habit.reference_of update_time x l)
             (timedelta_days (Habit.period self)) 0)
    /\ valid_datetime
         (c + window_start (Habit.reference_of update_time x l)
                (timedelta_days (Habit.period self))
                (Z.to_nat (Habit.streak self'))) in
  ((forall x l, Habit.history self = x :: l -> in_range x l) ->
   exists moved',
     Habit.update_streak fuel (option_map (Z.add c) update_time) moved
     = Some (Ok moved')
     /\ Habit.streak moved' = Habit.streak self'
     /\ Habit.longest_streak moved' = Habit.longest_streak self'
     /\ Habit.history moved' = map (Z.add c) (Habit.history self'))
  /\ (forall x l, Habit.history self = x :: l -> ~ in_range x l ->
      Habit.update_streak fuel (option_map (Z.add c) update_time) moved
      = Some (Raise OverflowError)).
Proof.
  intros H moved in_range.
  destruct (Habit.history self) as [|x l] eqn:Hh.
  - split; [|intros x l Hxl; discriminate Hxl].
    intros _. unfold Habit.update_streak in H. rewrite Hh in H.
    injection H as <-. subst moved. cbn [map].
    exists (Habit.set_streak 0 self). unfold Habit.update_streak.
    destruct self; cbn in *. subst history. repeat split.
  - destruct (update_streak_result _ _ _ _ x l Hh H) as (n & Hn & Hc & Hr & ->).
    assert (Habit.history moved = (c + x) :: map (Z.add c) l) as Hm
      by (subst moved; destruct self; reflexivity).
    assert (Habit.frequency moved = Habit.frequency self) as Hf
      by (subst moved; destruct self; reflexivity).
    assert (Habit.period moved = Habit.period self) as Hp
      by (subst moved; destruct self; reflexivity).
    assert (consecutive_windows (Habit.history moved) (Habit.frequency moved)
              (timedelta_days (Habit.period moved))
              (Habit.reference_of (option_map (Z.add c) update_time) (c + x)
                 (map (Z.add c) l)) n) as Hc'.
    { rewrite Hm, Hf, Hp, reference_of_shift.
      apply (consecutive_windows_moved c (x :: l)). rewrite <- Hh. exact Hc. }
    assert (Z.to_nat
              (Habit.streak
                 (Habit.set_longest_streak
                    (Z.max (Habit.longest_streak self) (Z.of_nat n))
                    (Habit.set_streak (Z.of_nat n) self))) = n) as Hn'
      by (destruct self; cbn; lia).
    split.
    + intros Hin. destruct (Hin x l eq_refl) as [H0 Hlast].
      rewrite Hn' in Hlast.
      rewrite (update_streak_ok fuel _ moved _ _ n Hm Hc'); [| |exact Hn].
      * eexists. split; [reflexivity|].
        subst moved. destruct self; cbn in *. subst history. repeat split.
      * rewrite Hp, reference_of_shift. split; [apply Hr|].
        intros k Hk. rewrite window_start_moved.
        rewrite <- window_start_moved in H0, Hlast |- *.
        apply (window_start_between _ _ n k Hk H0 Hlast).
    + intros x0 l0 Hxl Hout. injection Hxl as <- <-.
      apply (update_streak_overflow fuel _ moved _ _ n Hm Hc'); [|lia].
      rewrite Hp, reference_of_shift. intros [_ Hv]. apply Hout.
      unfold in_range. rewrite Hn', <- !window_start_moved.
      split; apply Hv; lia.
Qed.

(** X6: a habit with a period of 0 days can hang [update_streak].  The
    window then never moves: when the check-ins at the very instant of
    the anchor are at least [frequency], the loop never leaves.  With no
    reference time and a frequency of 1 or less this is so for every
    non-empty history, the anchor being a check-in.  (The check-ins and
    the reference time are datetimes.) *)
Theorem update_streak_period_zero_never_returns (self : Habit.t)
    (update_time : option datetime) (x : datetime) (l : list datetime) :
  Habit.history self = x :: l ->
  Habit.period self = 0 ->
  Forall valid_datetime (Habit.history self) ->
  (forall u, update_time = Some u -> valid_datetime u) ->
  (Habit.frequency self
   <= checkins_within (Habit.reference_of update_time x l)
        (Habit.reference_of update_time x l) (Habit.history self)
   -> forall fuel, Habit.update_streak fuel update_time self = None)
  /\ (Habit.frequency self <= 1 ->
      forall fuel, Habit.update_streak fuel None self = None).
Proof.
  intros Hh Hp Hvalid Hu.
  assert (valid_datetime (py_max x l)) as Hvmax.
  { rewrite Forall_forall in Hvalid. apply Hvalid. rewrite Hh.
    apply py_max_in. }
  assert (forall ut, (forall u, ut = Some u -> valid_datetime u) ->
                     valid_datetime (Habit.reference_of ut x l)) as Hvref.
  { intros ut Hut. unfold Habit.reference_of. destruct ut as [u|]; [|exact Hvmax].
    destruct (u <? py_max x l); [apply Hut; reflexivity|exact Hvmax]. }
  split.
  - intros Hsat. apply (update_streak_period_zero self update_time x l Hh Hp);
      [apply Hvref; exact Hu|exact Hsat].
  - intros Hf.
    apply (update_streak_period_zero self None x l Hh Hp);
      [apply Hvref; intros u Hnone; discriminate Hnone|].
    assert (1 <= checkins_within (Habit.reference_of None x l)
                   (Habit.reference_of None x l) (Habit.history self));
      [|lia].
    apply (checkins_within_in _ _ (py_max x l)).
    + rewrite Hh. apply py_max_in.
    + unfold Habit.reference_of. lia.
Qed.

(** X7: with a negative period every window is empty (it ends before it
    starts), so with a frequency of at least 1 [update_streak] returns
    after one look with the streak 0, whatever the check-ins are, and a
    longest streak that is not negative is kept; this when the period is
    a timedelta (not below -999999999 days) and the window, which starts
    after the anchor, starts at a datetime (within the year 9999).  When
    not, [update_streak] on a non-empty history raises
    [OverflowError]. *)
Theorem update_streak_negative_period (self : Habit.t)
    (update_time : option datetime) (fuel : nat) :
  Habit.period self < 0 ->
  1 <= Habit.frequency self ->
  ((forall x l, Habit.history self = x :: l ->
      walk_in_range (Habit.period self) (Habit.reference_of update_time x l) 0)
   -> exists self',
        Habit.update_streak (S fuel) update_time self = Some (Ok self')
        /\ Habit.streak self' = 0
        /\ (0 <= Habit.longest_streak self ->
            Habit.longest_streak self' = Habit.longest_streak self))
  /\ (forall x l, Habit.history self = x :: l ->
      ~ walk_in_range (Habit.period self)
          (Habit.reference_of update_time x l) 0 ->
      Habit.update_streak fuel update_time self = Some (Raise OverflowError)).
Proof.
  intros Hp Hf. destruct (Habit.history self) as [|x l] eqn:Hh.
  - split; [|intros x l Hxl; discriminate Hxl].
    intros _. unfold Habit.update_streak. rewrite Hh.
    eexists. split; [reflexivity|].
    destruct self; cbn. split; [reflexivity|]. intros _. reflexivity.
  - assert (timedelta_days (Habit.period self) < 0) as HP.
    { unfold timedelta_days, US_PER_DAY, US_PER_HOUR, US_PER_MINUTE,
        US_PER_SECOND. lia. }
    assert (consecutive_windows (Habit.history self) (Habit.frequency self)
              (timedelta_days (Habit.period self))
              (Habit.reference_of update_time x l) 0) as Hc.
    { split; [intros k Hk; lia|]. rewrite satisfied_zero.
      set (r := Habit.reference_of update_time x l).
      assert (checkins_within (r - timedelta_days (Habit.period self)) r
                (Habit.history self) = 0) as ->; [|lia].
      generalize (Habit.history self) as h.
      induction h as [|t h IH]; cbn [checkins_within]; [reflexivity|].
      rewrite IH.
      destruct (Z_le_dec (r - timedelta_days (Habit.period self)) t),
        (Z_le_dec t r); lia. }
    split.
    + intros Hr. specialize (Hr x l eq_refl).
      rewrite (update_streak_ok (S fuel) update_time self x l 0 Hh);
        [|exact Hc|exact Hr|lia].
      eexists. split; [reflexivity|]. destruct self; cbn.
      split; [reflexivity|]. intros Hl. lia.
    + intros x0 l0 Hxl Hout. injection Hxl as <- <-.
      apply (update_streak_overflow fuel update_time self x l 0 Hh);
        [exact Hc|exact Hout|lia].
Qed.

(** X8: with a frequency of 0 or less every window is satisfied, also the
    empty ones, so on a non-empty history the window walk never reaches
    its [break] and [update_streak] returns no streak, whatever the
    period is: it does not leave the loop, or leaves it by
    [OverflowError]. *)
Theorem update_streak_nonpositive_frequency (self : Habit.t)
    (update_time : option datetime) (x : datetime) (l : list datetime) :
  Habit.history self = x :: l ->
  Habit.frequency self <= 0 ->
  (forall anchor k,
      satisfied (Habit.history self) (Habit.frequency self)
        (timedelta_days (Habit.period self)) anchor k)
  /\ forall fuel,
       Habit.update_streak fuel update_time self = None
       \/ Habit.update_streak fuel update_time self = Some (Raise OverflowError).
Proof.
  intros Hh Hf.
  assert (forall anchor k,
             satisfied (Habit.history self) (Habit.frequency self)
               (timedelta_days (Habit.period self)) anchor k) as Hall.
  { intros anchor k. unfold satisfied.
    pose proof (checkins_within_nonneg
                  (window_start anchor (timedelta_days (Habit.period self)) k)
                  (window_end anchor (timedelta_days (Habit.period self)) k)
                  (Habit.history self)).
    lia. }
  split; [exact Hall|].
  intros fuel.
  destruct (Habit.update_streak fuel update_time self) as [[self'|e]|] eqn:E.
  - exfalso.
    destruct (update_streak_result _ _ _ _ x l Hh E) as (n & _ & [_ Hnot] & _).
    apply Hnot. apply Hall.
  - right. apply update_streak_raise in E. destruct E as [-> _]. reflexivity.
  - left. reflexivity.
Qed.

(** ** Streaks of particular histories *)

Lemma in_regular_checkins first step n t :
  In t (regular_checkins first step n)
  <-> exists i, (i < n)%nat /\ t = first + Z.of_nat i * step.
Proof.
  unfold regular_checkins. rewrite in_map_iff. split.
  - intros (i & <- & Hi). apply in_seq in Hi. exists i. split; [lia|reflexivity].
  - intros (i & Hi & ->). exists i. split; [reflexivity|apply in_seq; lia].
Qed.

(** The anchor of regular check-ins, for a reference time that is absent
    or not before the last of them. *)
Lemma regular_checkins_reference first step n update_time x l :
  0 <= step ->
  regular_checkins first step (S n) = x :: l ->
  (forall u, update_time = Some u -> first + Z.of_nat n * step <= u) ->
  Habit.reference_of update_time x l = first + Z.of_nat n * step.
Proof.
  intros Hstep Hxl Hu.
  assert (py_max x l = first + Z.of_nat n * step) as Hmax.
  { assert (In (first + Z.of_nat n * step) (x :: l)) as Hin.
    { rewrite <- Hxl. apply in_regular_checkins.
      exists n. split; [lia|reflexivity]. }
    assert (forall t, In t (x :: l) -> t <= first + Z.of_nat n * step) as Hub.
    { intros t Ht. rewrite <- Hxl in Ht. apply in_regular_checkins in Ht.
      destruct Ht as (i & Hi & ->). nia. }
    apply py_max_unique; assumption. }
  destruct (reference_of_cases update_time x l) as (_ & H2 & H3 & _).
  destruct update_time as [u|].
  - rewrite (H2 u eq_refl); [exact Hmax|]. rewrite Hmax. apply Hu. reflexivity.
  - rewrite (H3 eq_refl). exact Hmax.
Qed.

(** X9: a habit to be done once per period, checked in [n] times exactly
    one period apart, and anchored at its last check-in (no reference
    time, or one from the last check-in on), has the streak [n]: every
    check-in counts for one window.  This when the walk has room: the
    period is a timedelta, the first check-in lies at least two periods
    after the first datetime and the last one is a datetime. *)
Theorem update_streak_regular_checkins (self : Habit.t) (first : datetime)
    (n : nat) (update_time : option datetime) (fuel : nat) :
  1 <= Habit.period self <= MAX_DELTA_DAYS ->
  Habit.frequency self = 1 ->
  Habit.history self
  = regular_checkins first (timedelta_days (Habit.period self)) (S n) ->
  2 * timedelta_days (Habit.period self) <= first ->
  first + Z.of_nat n * timedelta_days (Habit.period self) < MAX_US ->
  (forall u, update_time = Some u ->
             first + Z.of_nat n * timedelta_days (Habit.period self) <= u) ->
  (S n < fuel)%nat ->
  exists self',
    Habit.update_streak fuel update_time self = Some (Ok self')
    /\ Habit.streak self' = Z.of_nat (S n)
    /\ Habit.longest_streak self'
       = Z.max (Habit.longest_streak self) (Z.of_nat (S n)).
Proof.
  intros [Hp Hpmax] Hf Hh Hfirst Hlast Hu Hfuel.
  pose proof (timedelta_days_positive _ Hp) as HP.
  set (P := timedelta_days (Habit.period self)) in *.
  set (last := first + Z.of_nat n * P) in *.
  assert (exists x l, Habit.history self = x :: l) as (x & l & Hxl).
  { rewrite Hh. unfold regular_checkins. cbn [seq map]. eauto. }
  assert (Habit.reference_of update_time x l = last) as Href.
  { apply (regular_checkins_reference first P n); [lia| |exact Hu].
    rewrite <- Hh. exact Hxl. }
  assert (consecutive_windows (Habit.history self) 1 P last (S n)) as Hcw.
  { split.
    - intros k Hk. unfold satisfied, window_start, window_end.
      apply (checkins_within_in _ _ (last - Z.of_nat k * P)); [|lia].
      rewrite Hh. apply in_regular_checkins. exists (n - k)%nat.
      split; [lia|]. unfold last. rewrite Nat2Z.inj_sub by lia. lia.
    - unfold satisfied, window_start, window_end.
      rewrite checkins_within_below; [lia|].
      intros t Ht. rewrite Hh in Ht. apply in_regular_checkins in Ht.
      destruct Ht as (i & Hi & ->). unfold last.
      rewrite Nat2Z.inj_succ. nia. }
  rewrite (update_streak_ok fuel update_time self x l (S n) Hxl);
    [| | |exact Hfuel].
  - eexists. split; [reflexivity|]. destruct self; cbn. split; reflexivity.
  - rewrite Href, Hf. exact Hcw.
  - rewrite Href. split; [unfold MAX_DELTA_DAYS in *; lia|].
    intros k Hk. unfold valid_datetime, window_start, window_end. fold P.
    unfold last in *. split; nia.
Qed.

Lemma checkins_within_permutation lo hi l l' :
  Permutation l l' -> checkins_within lo hi l = checkins_within lo hi l'.
Proof.
  induction 1; cbn [checkins_within]; lia.
Qed.

Lemma consecutive_windows_permutation l l' frequency P anchor n :
  Permutation l l' ->
  consecutive_windows l frequency P anchor n ->
  consecutive_windows l' frequency P anchor n.
Proof.
  intros Hperm [Hsat Hnot]. unfold consecutive_windows, satisfied in *. split.
  - intros k Hk. rewrite <- (checkins_within_permutation _ _ _ _ Hperm).
    apply Hsat. exact Hk.
  - rewrite <- (checkins_within_permutation _ _ _ _ Hperm). exact Hnot.
Qed.

(** X10: [update_streak] does not need the history sorted: the streak
    and the longest streak it computes are the same for every order of
    the same check-ins. *)
Theorem update_streak_any_order (fuel : nat) (update_time : option datetime)
    (self self' : Habit.t) (history' : list datetime) :
  Permutation (Habit.history self) history' ->
  Habit.update_streak fuel update_time self = Some (Ok self') ->
  exists other,
    Habit.update_streak fuel update_time (Habit.set_history history' self)
    = Some (Ok other)
    /\ Habit.streak other = Habit.streak self'
    /\ Habit.longest_streak other = Habit.longest_streak self'.
Proof.
  intros Hperm H. destruct (Habit.history self) as [|x l] eqn:Hh.
  - apply Permutation_nil in Hperm. subst history'.
    unfold Habit.update_streak in *. rewrite Hh in H. injection H as <-.
    destruct self; cbn in *. eexists. repeat split.
  - destruct history' as [|x' l'];
      [apply Permutation_sym, Permutation_nil in Hperm; discriminate|].
    destruct (update_streak_result _ _ _ _ x l Hh H) as (n & Hn & Hc & Hr & ->).
    assert (Habit.history (Habit.set_history (x' :: l') self) = x' :: l') as Hh'
      by (destruct self; reflexivity).
    assert (py_max x' l' = py_max x l) as Hmax.
    { apply py_max_unique.
      - apply (Permutation_in _ Hperm). apply py_max_in.
      - intros t Ht. apply py_max_upper.
        apply (Permutation_in _ (Permutation_sym Hperm)). exact Ht. }
    assert (Habit.reference_of update_time x' l'
            = Habit.reference_of update_time x l) as Href
      by (unfold Habit.reference_of; rewrite Hmax; reflexivity).
    rewrite (update_streak_ok fuel update_time _ x' l' n Hh'); [| | |exact Hn].
    + eexists. split; [reflexivity|]. destruct self; split; reflexivity.
    + rewrite Hh', Href.
      replace (Habit.frequency (Habit.set_history (x' :: l') self))
        with (Habit.frequency self) by (destruct self; reflexivity).
      replace (Habit.period (Habit.set_history (x' :: l') self))
        with (Habit.period self) by (destruct self; reflexivity).
      apply (consecutive_windows_permutation (x :: l)); [exact Hperm|].
      rewrite <- Hh. exact Hc.
    + rewrite Href.
      replace (Habit.period (Habit.set_history (x' :: l') self))
        with (Habit.period self) by (destruct self; reflexivity).
      exact Hr.
Qed.

(** ** Deserialization of documents other than the serialized ones *)

Lemma history_with_bad_string items s :
  (forall v, In v items -> exists s', v = PyStr s') ->
  In (PyStr s) items ->
  fromisoformat s = None ->
  rmap (fun s => rbind (as_str s) datetime_from_str) items = Raise ValueError.
Proof.
  intros Hstr Hin Hbad. induction items as [|v items IH]; [destruct Hin|].
  cbn [rmap].
  destruct (Hstr v (or_introl eq_refl)) as [s' ->]. cbn [as_str rbind].
  unfold datetime_from_str at 1.
  destruct (fromisoformat s') as [dt|] eqn:E; cbn [rbind]; [|reflexivity].
  rewrite IH; [reflexivity| |].
  - intros v Hv. apply Hstr. right. exact Hv.
  - destruct Hin as [Hin|Hin]; [|exact Hin].
    injection Hin as ->. congruence.
Qed.

Lemma length_list_ascii_of_string s :
  List.length (list_ascii_of_string s) = String.length s.
Proof. induction s as [|c s IH]; cbn; [reflexivity|]. rewrite IH. reflexivity. Qed.

(** A text of fewer than 7 characters is no datetime: the shortest text
    CPython reads has 7 ([YYYYWww]). *)
Lemma fromisoformat_short s :
  (String.length s < 7)%nat -> fromisoformat s = None.
Proof.
  intros Hs. unfold fromisoformat. rewrite length_list_ascii_of_string.
  cbv zeta.
  destruct (Nat.eqb_spec (String.length s) 19); [lia|].
  destruct (Nat.eqb_spec (String.length s) 26); [lia|].
  reflexivity.
Qed.

(** X11: [Habit.from_dict] on a document that has the four keys of the
    constructor's arguments.  The keys [history], [streak] and
    [longest_streak] may be missing: the habit then has an empty history
    and both streaks 0.  A history of strings that holds one of fewer
    than 7 characters (too short for the text of a datetime) makes the
    call raise [ValueError], but only after the constructor has run: the
    identifier counter has moved as if the habit had been created. *)
Theorem Habit_from_dict_optional_keys (today : datetime)
    (d : list (string * pyobj)) (w : world) (name : string) (f p : Z)
    (cs : string) (c : datetime) (hidv : pyobj) (hid : option Z) :
  dict_lookup "name" d = Some (PyStr name) ->
  dict_lookup "periodicity" d = Some (PyList [PyInt f; PyInt p]) ->
  dict_lookup "creation" d = Some (PyStr cs) ->
  fromisoformat cs = Some c ->
  dict_lookup "habit_id" d = Some hidv ->
  Habit.as_optional_int hidv = Ok hid ->
  exists i w',
    Habit.next_id hid w = (Ok i, w')
    /\ (dict_lookup "history" d = None ->
        dict_lookup "streak" d = None ->
        dict_lookup "longest_streak" d = None ->
        Habit.from_dict today (PyDict d) w
        = (Ok (Habit.mk i name (f, p) f p [] 0 0 c), w'))
    /\ (forall items s,
           dict_lookup "history" d = Some (PyList items) ->
           (forall v, In v items -> exists s', v = PyStr s') ->
           In (PyStr s) items ->
           (String.length s < 7)%nat ->
           Habit.from_dict today (PyDict d) w = (Raise ValueError, w')
           /\ (hid = None -> _id_counter w' = _id_counter w + 1)).
Proof.
  intros Hn Hp Hc Hcs Hi Hhid.
  destruct (next_id_spec hid w) as (i & w' & E & _ & _ & Hfresh & _).
  exists i, w'. split; [exact E|].
  assert (Habit.from_dict today (PyDict d) w
             = (habit <- ret (Habit.mk i name (f, p) f p [] 0 0 c) ;;
                history <- lift (rbind (rbind (dict_get (PyDict d) "history"
                                                 (PyList [])) as_list)
                                   (rmap (fun s => rbind (as_str s)
                                                     datetime_from_str))) ;;
                streak <- lift (rbind (dict_get (PyDict d) "streak" (PyInt 0))
                                  as_int) ;;
                longest_streak <-
                  lift (rbind (dict_get (PyDict d) "longest_streak" (PyInt 0))
                          as_int) ;;
                ret (Habit.set_longest_streak longest_streak
                       (Habit.set_streak streak
                          (Habit.set_history history habit)))) w') as Hrun.
  { unfold Habit.from_dict, bind. rewrite ?lift_run.
    cbn [getitem]. rewrite Hn, Hp, Hc, Hi.
    cbn [rbind as_str as_list rmap as_int]. rewrite Hhid.
    unfold datetime_from_str at 1. rewrite Hcs. cbn [rbind].
    unfold Habit.__init__, bind. rewrite E. reflexivity. }
  split.
  - intros Hh Hs Hl. rewrite Hrun. unfold bind, ret. rewrite ?lift_run.
    cbn [dict_get]. rewrite Hh, Hs, Hl. reflexivity.
  - intros items s Hh Hstr Hin Hshort.
    pose proof (fromisoformat_short s Hshort) as Hbad. split.
    + rewrite Hrun. unfold bind, ret. rewrite ?lift_run.
      cbn [dict_get]. rewrite Hh. cbn [rbind as_list].
      rewrite (history_with_bad_string items s Hstr Hin Hbad). reflexivity.
    + intros ->. destruct (Hfresh eq_refl) as [-> Hw]. lia.
Qed.

(** X12: a required key that is missing makes [Habit.from_dict] raise
    [KeyError] for the first missing one of [name], [periodicity],
    [creation] and [habit_id], in this order, before the constructor
    runs: the identifier counter is left as it was.  A document that is
    no dict raises [TypeError]. *)
Theorem Habit_from_dict_missing_key (today : datetime)
    (d : list (string * pyobj)) (w : world) :
  (dict_lookup "name" d = None ->
   Habit.from_dict today (PyDict d) w = (Raise (KeyError "name"), w))
  /\ (forall name,
         dict_lookup "name" d = Some (PyStr name) ->
         dict_lookup "periodicity" d = None ->
         Habit.from_dict today (PyDict d) w
         = (Raise (KeyError "periodicity"), w))
  /\ (forall name f p,
         dict_lookup "name" d = Some (PyStr name) ->
         dict_lookup "periodicity" d = Some (PyList [PyInt f; PyInt p]) ->
         dict_lookup "creation" d = None ->
         Habit.from_dict today (PyDict d) w
         = (Raise (KeyError "creation"), w))
  /\ (forall name f p cs c,
         dict_lookup "name" d = Some (PyStr name) ->
         dict_lookup "periodicity" d = Some (PyList [PyInt f; PyInt p]) ->
         dict_lookup "creation" d = Some (PyStr cs) ->
         fromisoformat cs = Some c ->
         dict_lookup "habit_id" d = None ->
         Habit.from_dict today (PyDict d) w
         = (Raise (KeyError "habit_id"), w))
  /\ (forall z s l,
         Habit.from_dict today (PyInt z) w = (Raise TypeError, w)
         /\ Habit.from_dict today (PyStr s) w = (Raise TypeError, w)
         /\ Habit.from_dict today (PyList l) w = (Raise TypeError, w)
         /\ Habit.from_dict today PyNone w = (Raise TypeError, w)).
Proof.
  split; [|split; [|split; [|split]]].
  - intros Hn. unfold Habit.from_dict, bind. rewrite ?lift_run.
    cbn [getitem]. rewrite Hn. reflexivity.
  - intros name Hn Hp. unfold Habit.from_dict, bind. rewrite ?lift_run.
    cbn [getitem]. rewrite Hn, Hp. reflexivity.
  - intros name f p Hn Hp Hc. unfold Habit.from_dict, bind. rewrite ?lift_run.
    cbn [getitem]. rewrite Hn, Hp, Hc. reflexivity.
  - intros name f p cs c Hn Hp Hc Hcs Hi.
    unfold Habit.from_dict, bind. rewrite ?lift_run.
    cbn [getitem]. rewrite Hn, Hp, Hc, Hi.
    cbn [rbind as_str as_list rmap as_int].
    unfold datetime_from_str. rewrite Hcs. reflexivity.
  - intros z s l. repeat split.
Qed.

(** X13: [User.from_dict] reads the habits first.  Without the key
    [habits] the user has no habits, and without [user_id] the identifier
    0; without [name] the call raises [KeyError], but the habits of the
    document have been constructed by then, so the identifier counter is
    where their deserialization left it. *)
Theorem User_from_dict_optional_keys (today : datetime)
    (d : list (string * pyobj)) (w : world) :
  (forall name,
      dict_lookup "habits" d = None ->
      dict_lookup "name" d = Some (PyStr name) ->
      dict_lookup "user_id" d = None ->
      User.from_dict today (PyDict d) w = (Ok (User.mk 0 name []), w))
  /\ (forall hs habits w',
         dict_lookup "habits" d = Some (PyList hs) ->
         mapM (Habit.from_dict today) hs w = (Ok habits, w') ->
         dict_lookup "name" d = None ->
         User.from_dict today (PyDict d) w = (Raise (KeyError "name"), w')
         /\ _id_counter w <= _id_counter w'
         /\ forall h, In h habits -> Habit.habit_id h < _id_counter w').
Proof.
  split.
  - intros name Hh Hn Hu. unfold User.from_dict, bind. rewrite ?lift_run.
    cbn [dict_get getitem]. rewrite Hh, Hn, Hu. reflexivity.
  - intros hs habits w' Hh Hm Hn. split.
    + unfold User.from_dict, bind. rewrite ?lift_run.
      cbn [dict_get getitem]. rewrite Hh. cbn [rbind as_list].
      rewrite Hm. rewrite ?lift_run. rewrite Hn. reflexivity.
    + destruct (mapM_from_dict_counter today hs w (Ok habits) w' Hm)
        as [Hle Hids].
      split; [exact Hle|]. apply Hids. reflexivity.
Qed.

(** ** Analytics over all habits *)

Lemma longest_streak_all_loop_spec fuel :
  forall habits longest habits' longest',
    longest_streak_all_loop fuel habits longest = Some (Ok (habits', longest')) ->
    Forall2 (fun h h' => Habit.update_streak fuel None h = Some (Ok h'))
            habits habits'
    /\ longest <= longest'
    /\ (forall h', In h' habits' -> Habit.longest_streak h' <= longest')
    /\ (longest' = longest
        \/ exists h', In h' habits' /\ longest' = Habit.longest_streak h').
Proof.
  induction habits as [|h habits IH]; intros longest habits' longest' H;
    cbn [longest_streak_all_loop] in H.
  - injection H as <- <-. split; [constructor|]. split; [lia|].
    split; [intros h' []|left; reflexivity].
  - destruct (Habit.update_streak fuel None h) as [[h1|e]|] eqn:Eh;
      try discriminate.
    destruct (longest_streak_all_loop fuel habits _) as [[[rest l1]|e]|] eqn:Er;
      try discriminate.
    injection H as <- <-.
    destruct (IH _ _ _ Er) as (Hall & Hle & Hub & Hatt).
    split; [constructor; assumption|].
    destruct (Z.gtb_spec (Habit.longest_streak h1) longest) as [Hgt|Hngt].
    + split; [lia|]. split.
      * intros h' [<-|Hin]; [lia|apply Hub; exact Hin].
      * right. destruct Hatt as [->|(h' & Hin & ->)].
        -- exists h1. split; [left; reflexivity|reflexivity].
        -- exists h'. split; [right; exact Hin|reflexivity].
    + split; [lia|]. split.
      * intros h' [<-|Hin]; [lia|apply Hub; exact Hin].
      * destruct Hatt as [->|(h' & Hin & ->)]; [left; reflexivity|].
        right. exists h'. split; [right; exact Hin|reflexivity].
Qed.

Lemma longest_streak_all_loop_terminates fuel :
  forall habits longest,
    Forall (fun h => exists r, Habit.update_streak fuel None h = Some r)
           habits ->
    exists r, longest_streak_all_loop fuel habits longest = Some r.
Proof.
  induction habits as [|h habits IH]; intros longest Hall;
    cbn [longest_streak_all_loop]; [eexists; reflexivity|].
  inversion Hall as [|h0 l0 [r Hh] Hrest]; subst.
  rewrite Hh. destruct r as [h'|e]; [|eexists; reflexivity].
  destruct (IH (if Habit.longest_streak h' >? longest
                then Habit.longest_streak h' else longest) Hrest)
    as [[[rest l1]|e] ->]; eexists; reflexivity.
Qed.

Lemma longest_streak_all_loop_returns fuel :
  forall habits longest,
    Forall (fun h => exists h', Habit.update_streak fuel None h = Some (Ok h'))
           habits ->
    exists r, longest_streak_all_loop fuel habits longest = Some (Ok r).
Proof.
  induction habits as [|h habits IH]; intros longest Hall;
    cbn [longest_streak_all_loop]; [eexists; reflexivity|].
  inversion Hall as [|h0 l0 [h' Hh] Hrest]; subst.
  rewrite Hh.
  destruct (IH (if Habit.longest_streak h' >? longest
                then Habit.longest_streak h' else longest) Hrest)
    as [[rest l1] ->].
  eexists. reflexivity.
Qed.

(** A bound on the turns of the loop that serves every habit of a
    list. *)
Lemma common_bound (Q : nat -> Habit.t -> Prop) (habits : list Habit.t) :
  (forall h, In h habits ->
     exists n : nat, forall fuel, (n < fuel)%nat -> Q fuel h) ->
  exists n : nat, forall fuel, (n < fuel)%nat -> Forall (Q fuel) habits.
Proof.
  induction habits as [|h habits IH]; intros Hall.
  - exists 0%nat. intros fuel _. constructor.
  - destruct IH as [n Hn]; [intros h' Hin; apply Hall; right; exact Hin|].
    destruct (Hall h (or_introl eq_refl)) as [m Hm].
    exists (Nat.max n m). intros fuel Hfuel. constructor.
    + apply Hm. lia.
    + apply Hn. lia.
Qed.

(** X14: [analytics_longest_streak_all] recomputes every habit (with no
    reference time) and, when it returns, returns the largest longest
    streak the habits then have, or 0 when that is larger: the result is
    at least 0 and at least every habit's longest streak, and it is 0 or
    the longest streak of one of the habits; for a user without habits
    it is 0.  The call ends, by returning or by an exception of a
    recomputation, when every habit has a frequency and a period of at
    least 1; it returns when moreover the check-ins of every habit lie at
    least two of its periods after the first datetime. *)
Theorem analytics_longest_streak_all_is_maximum (user : User.t) :
  (forall fuel user' longest,
      analytics_longest_streak_all fuel user = Some (Ok (user', longest)) ->
      Forall2 (fun h h' => Habit.update_streak fuel None h = Some (Ok h'))
              (User.habits user) (User.habits user')
      /\ User.name user' = User.name user
      /\ User.user_id user' = User.user_id user
      /\ 0 <= longest
      /\ (forall h', In h' (User.habits user') ->
                     Habit.longest_streak h' <= longest)
      /\ (longest = 0
          \/ exists h', In h' (User.habits user')
                        /\ longest = Habit.longest_streak h'))
  /\ (User.habits user = [] ->
      forall fuel, analytics_longest_streak_all fuel user = Some (Ok (user, 0)))
  /\ ((forall h, In h (User.habits user) ->
                 1 <= Habit.frequency h /\ 1 <= Habit.period h) ->
      exists n : nat, forall fuel, (n < fuel)%nat ->
        exists r, analytics_longest_streak_all fuel user = Some r)
  /\ ((forall h, In h (User.habits user) ->
                 1 <= Habit.frequency h /\ 1 <= Habit.period h
                 /\ room_for_walk (Habit.period h) None (Habit.history h)) ->
      exists n : nat, forall fuel, (n < fuel)%nat ->
        exists user' longest,
          analytics_longest_streak_all fuel user = Some (Ok (user', longest))).
Proof.
  split; [|split; [|split]].
  - intros fuel user' longest H. unfold analytics_longest_streak_all in H.
    destruct (longest_streak_all_loop fuel (User.habits user) 0)
      as [[[habits' l]|e]|] eqn:E; try discriminate.
    injection H as <- <-.
    destruct (longest_streak_all_loop_spec fuel _ _ _ _ E)
      as (Hall & Hle & Hub & Hatt).
    destruct user; cbn in *. repeat split; assumption.
  - intros Hnil fuel. unfold analytics_longest_streak_all. rewrite Hnil.
    cbn. destruct user; cbn in *. subst habits. reflexivity.
  - intros Hvalid.
    destruct (common_bound
                (fun fuel h => exists r,
                     Habit.update_streak fuel None h = Some r)
                (User.habits user)) as [n Hn].
    { intros h Hin. destruct (Hvalid h Hin) as [Hf Hp].
      apply update_streak_terminates; assumption. }
    exists n. intros fuel Hfuel. unfold analytics_longest_streak_all.
    destruct (longest_streak_all_loop_terminates fuel (User.habits user) 0
                (Hn fuel Hfuel)) as [[[habits' l]|e] ->]; eexists; reflexivity.
  - intros Hvalid.
    destruct (common_bound
                (fun fuel h => exists h',
                     Habit.update_streak fuel None h = Some (Ok h'))
                (User.habits user)) as [n Hn].
    { intros h Hin. destruct (Hvalid h Hin) as (Hf & Hp & Hroom).
      apply update_streak_returns; assumption. }
    exists n. intros fuel Hfuel. unfold analytics_longest_streak_all.
    destruct (longest_streak_all_loop_returns fuel (User.habits user) 0
                (Hn fuel Hfuel)) as [[habits' l] ->].
    eexists _, _. reflexivity.
Qed.

(** X15: [analytics_habits_by_periodicity] returns the habits whose
    periodicity is the given pair, both components equal, and no other,
    in the order the user has them; it recomputes no streak. *)
Theorem analytics_habits_by_periodicity_exact (user : User.t)
    (periodicity : Z * Z) :
  (forall h, In h (analytics_habits_by_periodicity user periodicity)
             <-> In h (User.habits user)
                 /\ Habit.periodicity h = periodicity)
  /\ (forall l1 l2,
         User.habits user = l1 ++ l2 ->
         analytics_habits_by_periodicity user periodicity
         = analytics_habits_by_periodicity (User.set_habits l1 user)
             periodicity
           ++ analytics_habits_by_periodicity (User.set_habits l2 user)
                periodicity)
  /\ ((forall h, In h (User.habits user) ->
                 Habit.periodicity h = periodicity) ->
      analytics_habits_by_periodicity user periodicity = User.habits user).
Proof.
  assert (forall p q : Z * Z, periodicity_eqb p q = true <-> p = q) as Heqb.
  { intros [a b] [c d]. unfold periodicity_eqb. cbn.
    rewrite andb_true_iff, !Z.eqb_eq. split.
    - intros [-> ->]. reflexivity.
    - intros [= -> ->]. split; reflexivity. }
  unfold analytics_habits_by_periodicity. split; [|split].
  - intros h. rewrite filter_In, Heqb. reflexivity.
  - intros l1 l2 E. rewrite E. destruct user; cbn. apply filter_app.
  - intros Hall. induction (User.habits user) as [|h habits IH];
      cbn; [reflexivity|].
    assert (periodicity_eqb (Habit.periodicity h) periodicity = true) as ->
      by (apply Heqb; apply Hall; left; reflexivity).
    f_equal. apply IH. intros h' Hin. apply Hall. right. exact Hin.
Qed.

(** ** The attributes read from the periodicity *)

Lemma update_streak_keeps_periodicity fuel update_time self self' :
  Habit.update_streak fuel update_time self = Some (Ok self') ->
  Habit.periodicity self' = Habit.periodicity self
  /\ Habit.frequency self' = Habit.frequency self
  /\ Habit.period self' = Habit.period self.
Proof.
  intros H. destruct (Habit.history self) as [|x l] eqn:Hh.
  - unfold Habit.update_streak in H. rewrite Hh in H. injection H as <-.
    destruct self; repeat split.
  - destruct (update_streak_result _ _ _ _ x l Hh H) as (n & _ & _ & _ & ->).
    destruct self; repeat split.
Qed.

(** X16: the attributes [frequency] and [period] that [update_streak]
    reads always agree with the periodicity: they do in a habit just
    constructed and in a deserialized one, and a check-in, a new history,
    an edit of the periodicity or a recomputation of the streak keeps
    them so. *)
Theorem frequency_and_period_in_sync :
  (forall today name periodicity creation habit_id w h w',
      Habit.__init__ today name periodicity creation habit_id w = (Ok h, w') ->
      in_sync h)
  /\ (forall today data w h w',
         Habit.from_dict today data w = (Ok h, w') -> in_sync h)
  /\ (forall es h h', in_sync h -> run es h = Some h' -> in_sync h').
Proof.
  split; [|split].
  - intros today name periodicity creation habit_id w h w' H.
    destruct (init_spec today name periodicity creation habit_id w)
      as (h0 & w0 & E & _ & _ & _ & _ & _ & Hp & Hf & Hpd & _).
    rewrite E in H. injection H as <- <-.
    unfold in_sync. rewrite Hp. split; assumption.
  - intros today data w h w' H.
    unfold Habit.from_dict, bind in H. rewrite ?lift_run in H.
    destruct (rbind (getitem data "name") as_str) as [name|e];
      [|discriminate].
    destruct (rbind (rbind (getitem data "periodicity") as_list) (rmap as_int))
      as [periodicity|e]; [|discriminate].
    destruct (rbind (rbind (getitem data "creation") as_str) datetime_from_str)
      as [creation|e]; [|discriminate].
    destruct (rbind (getitem data "habit_id") Habit.as_optional_int)
      as [habit_id|e]; [|discriminate].
    destruct periodicity as [|f [|p [|q rest]]].
    + destruct (next_id_spec habit_id w) as (i & w1 & E & _).
      rewrite E in H. discriminate.
    + destruct (next_id_spec habit_id w) as (i & w1 & E & _).
      rewrite E in H. discriminate.
    + destruct (init_spec today name (f, p) (Some creation) habit_id w)
        as (h0 & w1 & E & _ & _ & _ & _ & _ & Hp & Hf & Hpd & _).
      rewrite E in H. rewrite ?lift_run in H.
      destruct (rbind (rbind (dict_get data "history" (PyList [])) as_list) _)
        as [history|e]; [|discriminate].
      rewrite ?lift_run in H.
      destruct (rbind (dict_get data "streak" (PyInt 0)) as_int)
        as [streak|e]; [|discriminate].
      rewrite ?lift_run in H.
      destruct (rbind (dict_get data "longest_streak" (PyInt 0)) as_int)
        as [longest|e]; [|discriminate].
      cbn in H. injection H as <- <-.
      unfold in_sync. destruct h0; cbn in *. subst. split; reflexivity.
    + discriminate.
  - induction es as [|e es IH]; intros h h' Hs H; cbn [run] in H.
    + injection H as <-. exact Hs.
    + destruct (step e h) as [h1|] eqn:E; [|discriminate].
      apply (IH h1 h'); [|exact H].
      destruct e; cbn [step] in E.
      * injection E as <-. destruct h; exact Hs.
      * injection E as <-. destruct h; exact Hs.
      * injection E as <-. destruct h; split; reflexivity.
      * destruct (Habit.update_streak fuel update_time h) as [[h2|e']|] eqn:Eu;
          try discriminate.
        injection E as <-.
        destruct (update_streak_keeps_periodicity _ _ _ _ Eu)
          as (Hp & Hf & Hpd).
        unfold in_sync in *. rewrite Hp, Hf, Hpd. exact Hs.
Qed.

(** ** The text form of datetimes *)

Lemma length_string_of_list_ascii l :
  String.length (string_of_list_ascii l) = List.length l.
Proof. induction l as [|c l IH]; cbn; [reflexivity|f_equal; exact IH]. Qed.

Lemma length_zfill w : forall n, List.length (zfill w n) = w.
Proof.
  induction w as [|w IH]; intros n; cbn [zfill]; [reflexivity|].
  rewrite length_app, IH. cbn. lia.
Qed.

(** X17: the two helpers for dates are inverse to each other on every
    datetime (of the years 1..9999): [datetime_from_str] gives back the
    datetime [datetime_to_str] was given, with its microseconds, so two
    datetimes with the same text are the same; the text has 19
    characters for a whole second and 26 otherwise. *)
Theorem datetime_to_str_from_str (dt : datetime) :
  valid_datetime dt ->
  datetime_from_str (datetime_to_str dt) = Ok dt
  /\ (forall dt', valid_datetime dt' ->
                  datetime_to_str dt' = datetime_to_str dt -> dt' = dt)
  /\ String.length (datetime_to_str dt)
     = (if dt mod US_PER_SECOND =? 0 then 19%nat else 26%nat).
Proof.
  intros Hv. split; [apply datetime_from_str_to_str; exact Hv|]. split.
  - intros dt' Hv' E.
    pose proof (datetime_from_str_to_str dt Hv) as H1.
    pose proof (datetime_from_str_to_str dt' Hv') as H2.
    rewrite E, H1 in H2. injection H2 as ->. reflexivity.
  - unfold datetime_to_str, isoformat. cbv zeta.
    destruct (_ord2ymd (dt / US_PER_DAY + 1)) as [[year month] day].
    rewrite length_string_of_list_ascii.
    assert (dt mod US_PER_DAY mod US_PER_SECOND = dt mod US_PER_SECOND) as ->.
    { apply Z.mod_mod_divide. exists 86400. reflexivity. }
    destruct (dt mod US_PER_SECOND =? 0);
      rewrite !length_app, ?length_cons, !length_zfill; reflexivity.
Qed.

(** ** Bounds on the streak *)

(** X18: recomputed with no reference time, the streak of a habit to be
    done once per period never falls to 0 while the habit has a check-in,
    however long ago the last one was: the anchor is the last check-in
    and not the present time, so the first window always holds it. *)
Theorem update_streak_without_reference_is_positive (fuel : nat)
    (self self' : Habit.t) :
  Habit.history self <> [] ->
  Habit.frequency self <= 1 ->
  0 <= Habit.period self ->
  Habit.update_streak fuel None self = Some (Ok self') ->
  1 <= Habit.streak self' /\ 1 <= Habit.longest_streak self'.
Proof.
  intros Hne Hf Hp H.
  destruct (Habit.history self) as [|x l] eqn:Hh; [congruence|].
  destruct (update_streak_result _ _ _ _ x l Hh H) as (n & _ & Hc & _ & ->).
  assert (n <> 0%nat) as Hn.
  { intros ->. destruct Hc as [_ Hnot]. apply Hnot. rewrite satisfied_zero.
    set (r := Habit.reference_of None x l) in *.
    set (P := timedelta_days (Habit.period self)) in *.
    assert (0 <= P) as HP
      by (unfold P, timedelta_days, US_PER_DAY, US_PER_HOUR, US_PER_MINUTE,
            US_PER_SECOND; lia).
    assert (1 <= checkins_within (r - P) r (Habit.history self)); [|lia].
    apply (checkins_within_in _ _ r); [|lia].
    rewrite Hh. unfold r, Habit.reference_of. apply py_max_in. }
  destruct self; cbn. lia.
Qed.

(** ** Streaks against the number of check-ins *)

Lemma windows_total_cons t history P anchor n :
  windows_total (t :: history) P anchor n
  = windows_total [t] P anchor n + windows_total history P anchor n.
Proof.
  induction n as [|n IH]; cbn [windows_total checkins_within]; lia.
Qed.

Lemma windows_total_single t P anchor :
  0 < P -> forall n, windows_total [t] P anchor n <= 2.
Proof.
  intros HP.
  set (hit := fun k => window_start anchor P k <= t <= window_end anchor P k).
  assert (forall j k, hit j -> hit k -> (j < k)%nat -> k = S j) as Hadj.
  { unfold hit, window_start, window_end. intros j k Hj Hk Hlt.
    assert (Z.of_nat k * P <= (Z.of_nat j + 1) * P) as Hle by lia.
    assert (Z.of_nat k <= Z.of_nat j + 1) by nia. lia. }
  assert (forall n,
             windows_total [t] P anchor n = 0
             \/ (windows_total [t] P anchor n = 1
                 /\ exists j, (j < n)%nat /\ hit j)
             \/ (windows_total [t] P anchor n = 2
                 /\ exists j, (S j < n)%nat /\ hit j /\ hit (S j))) as Hinv.
  { induction n as [|n IH]; [left; reflexivity|].
    cbn [windows_total checkins_within].
    destruct (Z_le_dec (window_start anchor P n) t) as [H1|H1];
      [destruct (Z_le_dec t (window_end anchor P n)) as [H2|H2]|].
    - assert (hit n) as Hn by (split; assumption).
      destruct IH as [->|[[-> (j & Hj & Hhit)]|[-> (j & Hj & Hhit & Hhit')]]].
      + right. left. split; [reflexivity|]. exists n. split; [lia|exact Hn].
      + right. right. split; [reflexivity|].
        pose proof (Hadj j n Hhit Hn Hj) as ->.
        exists j. split; [lia|]. split; assumption.
      + pose proof (Hadj j n Hhit Hn ltac:(lia)). lia.
    - destruct IH as [->|[[-> (j & Hj & Hhit)]|[-> (j & Hj & Hhit & Hhit')]]].
      + left. reflexivity.
      + right. left. split; [reflexivity|]. exists j. split; [lia|exact Hhit].
      + right. right. split; [reflexivity|].
        exists j. split; [lia|]. split; assumption.
    - destruct IH as [->|[[-> (j & Hj & Hhit)]|[-> (j & Hj & Hhit & Hhit')]]].
      + left. reflexivity.
      + right. left. split; [reflexivity|]. exists j. split; [lia|exact Hhit].
      + right. right. split; [reflexivity|].
        exists j. split; [lia|]. split; assumption. }
  intros n. destruct (Hinv n) as [->|[[-> _]|[-> _]]]; lia.
Qed.

Lemma windows_total_le history P anchor n :
  0 < P ->
  windows_total history P anchor n <= 2 * Z.of_nat (List.length history).
Proof.
  intros HP. induction history as [|t history IH].
  - induction n as [|n IHn]; cbn [windows_total checkins_within] in *; lia.
  - rewrite windows_total_cons.
    pose proof (windows_total_single t P anchor HP n).
    cbn [List.length]. lia.
Qed.

Lemma windows_total_ge history frequency P anchor n :
  (forall k, (k < n)%nat -> satisfied history frequency P anchor k) ->
  Z.of_nat n * frequency <= windows_total history P anchor n.
Proof.
  induction n as [|n IH]; intros Hsat; cbn [windows_total]; [lia|].
  specialize (IH (fun k Hk => Hsat k ltac:(lia))).
  pose proof (Hsat n ltac:(lia)) as Hn. unfold satisfied in Hn. lia.
Qed.

(** X19: a streak needs check-ins.  Since a check-in lies in at most two
    windows (on the bound two windows share), a streak [n] of a habit
    with a frequency and a period of at least 1 has at least
    [n * frequency / 2] check-ins behind it. *)
Theorem streak_needs_checkins (fuel : nat) (update_time : option datetime)
    (self self' : Habit.t) :
  1 <= Habit.frequency self ->
  1 <= Habit.period self ->
  Habit.update_streak fuel update_time self = Some (Ok self') ->
  0 <= Habit.streak self'
  /\ Habit.streak self' * Habit.frequency self
     <= 2 * Z.of_nat (List.length (Habit.history self)).
Proof.
  intros Hf Hp H. destruct (Habit.history self) as [|x l] eqn:Hh.
  - unfold Habit.update_streak in H. rewrite Hh in H. injection H as <-.
    destruct self; cbn. lia.
  - destruct (update_streak_result _ _ _ _ x l Hh H)
      as (n & _ & [Hsat _] & _ & ->).
    pose proof (timedelta_days_positive _ Hp) as HP'.
    pose proof (windows_total_ge _ _ _ _ _ Hsat) as Hge.
    pose proof (windows_total_le (Habit.history self)
                  (timedelta_days (Habit.period self))
                  (Habit.reference_of update_time x l) n HP')
      as Hle.
    rewrite Hh in Hge, Hle.
    destruct self; cbn in *. split; [lia|]. lia.
Qed.

(** X20: checking in every second period is enough to keep a streak.  A
    habit to be done once per period, checked in [n] times exactly two
    periods apart and anchored at its last check-in, has the streak
    [2 * n - 1]: the window between two check-ins holds none of its own
    but counts the check-in on its bound.  This when the walk has room:
    the period is a timedelta, the first check-in lies at least two
    periods after the first datetime and the last one is a datetime. *)
Theorem update_streak_every_second_period (self : Habit.t) (first : datetime)
    (n : nat) (update_time : option datetime) (fuel : nat) :
  1 <= Habit.period self <= MAX_DELTA_DAYS ->
  Habit.frequency self = 1 ->
  Habit.history self
  = regular_checkins first (2 * timedelta_days (Habit.period self)) (S n) ->
  2 * timedelta_days (Habit.period self) <= first ->
  first + Z.of_nat n * (2 * timedelta_days (Habit.period self)) < MAX_US ->
  (forall u, update_time = Some u ->
             first + Z.of_nat n * (2 * timedelta_days (Habit.period self))
             <= u) ->
  (2 * n + 1 < fuel)%nat ->
  exists self',
    Habit.update_streak fuel update_time self = Some (Ok self')
    /\ Habit.streak self' = 2 * Z.of_nat (S n) - 1.
Proof.
  intros [Hp Hpmax] Hf Hh Hfirst Hlast Hu Hfuel.
  pose proof (timedelta_days_positive _ Hp) as HP.
  set (P := timedelta_days (Habit.period self)) in *.
  set (last := first + Z.of_nat n * (2 * P)) in *.
  assert (exists x l, Habit.history self = x :: l) as (x & l & Hxl).
  { rewrite Hh. unfold regular_checkins. cbn [seq map]. eauto. }
  assert (Habit.reference_of update_time x l = last) as Href.
  { apply (regular_checkins_reference first (2 * P) n); [lia| |exact Hu].
    rewrite <- Hh. exact Hxl. }
  assert (consecutive_windows (Habit.history self) 1 P last (2 * n + 1)) as Hcw.
  { split.
    - intros k Hk. unfold satisfied, window_start, window_end.
      destruct (Nat.Even_or_Odd k) as [[m ->]|[m ->]].
      + apply (checkins_within_in _ _ (last - Z.of_nat (2 * m) * P)); [|lia].
        rewrite Hh. apply in_regular_checkins. exists (n - m)%nat.
        split; [lia|]. unfold last. rewrite Nat2Z.inj_sub by lia. lia.
      + apply (checkins_within_in _ _ (last - Z.of_nat (2 * m + 1) * P - P));
          [|lia].
        rewrite Hh. apply in_regular_checkins. exists (n - (m + 1))%nat.
        split; [lia|]. unfold last. rewrite Nat2Z.inj_sub by lia. lia.
    - unfold satisfied, window_start, window_end.
      rewrite checkins_within_below; [lia|].
      intros t Ht. rewrite Hh in Ht. apply in_regular_checkins in Ht.
      destruct Ht as (i & Hi & ->). unfold last. nia. }
  rewrite (update_streak_ok fuel update_time self x l (2 * n + 1) Hxl);
    [| | |exact Hfuel].
  - eexists. split; [reflexivity|]. destruct self; cbn. lia.
  - rewrite Href, Hf. exact Hcw.
  - rewrite Href. split; [unfold MAX_DELTA_DAYS in *; lia|].
    intros k Hk. unfold valid_datetime, window_start, window_end. fold P.
    unfold last in *. split; nia.
Qed.

(** ** The further properties on concrete habits *)

Lemma demo_habit_returns :
  exists s, Habit.update_streak 10 None demo_habit = Some (Ok s).
Proof. eexists. vm_compute. reflexivity. Qed.

Lemma update_streak_twice_witness :
  exists self',
    Habit.update_streak 10 None demo_habit = Some (Ok self')
    /\ Habit.history self' = Habit.history demo_habit
    /\ Habit.periodicity self' = Habit.periodicity demo_habit
    /\ Habit.update_streak 10 None self' = Some (Ok self').
Proof.
  destruct demo_habit_returns as [s H].
  exists s. split; [exact H|].
  destruct (update_streak_twice 10 None demo_habit s H)
    as (_ & _ & Hp & _ & _ & Hh & _ & _ & Hagain).
  split; [exact Hh|]. split; [exact Hp|exact Hagain].
Defined.

Lemma update_streak_of_moved_history_witness :
  exists self' moved',
    Habit.update_streak 10 None demo_habit = Some (Ok self')
    /\ Habit.update_streak 10 (option_map (Z.add (timedelta_days 7)) None)
         (Habit.set_history
            (map (Z.add (timedelta_days 7)) (Habit.history demo_habit))
            demo_habit)
       = Some (Ok moved')
    /\ Habit.streak moved' = Habit.streak self'
    /\ Habit.longest_streak moved' = Habit.longest_streak self'.
Proof.
  assert (Habit.update_streak 10 None demo_habit
          = Some (Ok (Habit.set_longest_streak 3 (Habit.set_streak 3 demo_habit))))
    as H by (vm_compute; reflexivity).
  destruct (proj1 (update_streak_of_moved_history (timedelta_days 7) 10 None
                     demo_habit _ H)) as (m & Hm & Hs & Hl & _).
  - intros x l Hxl. injection Hxl as <- <-.
    split; (split; [apply Z.leb_le|apply Z.ltb_lt]; vm_compute; reflexivity).
  - eexists _, m. split; [exact H|]. split; [exact Hm|]. split; assumption.
Defined.

Lemma demo_habit_valid : Forall valid_datetime (Habit.history demo_habit).
Proof.
  cbn [Habit.history demo_habit].
  repeat constructor; try (apply Z.leb_le; vm_compute; reflexivity);
    apply Z.ltb_lt; vm_compute; reflexivity.
Qed.

Lemma update_streak_period_zero_never_returns_witness :
  Habit.history (Habit.set_periodicity (1, 0) demo_habit)
  = jan_29_2025
    :: [jan_29_2025 + timedelta_days 1; jan_29_2025 + timedelta_days 2]
  /\ Habit.period (Habit.set_periodicity (1, 0) demo_habit) = 0
  /\ Forall valid_datetime
       (Habit.history (Habit.set_periodicity (1, 0) demo_habit))
  /\ forall fuel,
       Habit.update_streak fuel None (Habit.set_periodicity (1, 0) demo_habit)
       = None.
Proof.
  split; [reflexivity|]. split; [reflexivity|]. split; [exact demo_habit_valid|].
  apply (proj2 (update_streak_period_zero_never_returns
                  (Habit.set_periodicity (1, 0) demo_habit) None
                  _ _ eq_refl eq_refl demo_habit_valid
                  (fun u (Hu : None = Some u) =>
                     match Hu in _ = o
                           return match o with
                                  | Some _ => valid_datetime u
                                  | None => True
                                  end
                     with eq_refl => I end))).
  cbn. lia.
Defined.

Lemma update_streak_negative_period_witness :
  Habit.period (Habit.set_periodicity (1, -1) demo_habit) < 0
  /\ 1 <= Habit.frequency (Habit.set_periodicity (1, -1) demo_habit)
  /\ exists self',
       Habit.update_streak 1 None (Habit.set_periodicity (1, -1) demo_habit)
       = Some (Ok self')
       /\ Habit.streak self' = 0.
Proof.
  assert (Habit.period (Habit.set_periodicity (1, -1) demo_habit) < 0) as Hp
    by (cbn; lia).
  assert (1 <= Habit.frequency (Habit.set_periodicity (1, -1) demo_habit))
    as Hf by (cbn; lia).
  split; [exact Hp|]. split; [exact Hf|].
  destruct (proj1 (update_streak_negative_period _ None 0%nat Hp Hf))
    as (s & Hs & H0 & _).
  - intros x l Hxl. injection Hxl as <- <-.
    split; [vm_compute; split; discriminate|].
    intros k Hk. replace k with 0%nat by lia.
    split; [apply Z.leb_le|apply Z.ltb_lt]; vm_compute; reflexivity.
  - exists s. split; assumption.
Defined.

Lemma update_streak_nonpositive_frequency_witness :
  Habit.frequency (Habit.set_periodicity (0, 1) demo_habit) <= 0
  /\ forall fuel self',
       Habit.update_streak fuel None (Habit.set_periodicity (0, 1) demo_habit)
       <> Some (Ok self').
Proof.
  assert (Habit.frequency (Habit.set_periodicity (0, 1) demo_habit) <= 0)
    as Hf by (cbn; lia).
  split; [exact Hf|]. intros fuel self'.
  destruct (proj2 (update_streak_nonpositive_frequency
                     (Habit.set_periodicity (0, 1) demo_habit) None
                     _ _ eq_refl Hf) fuel) as [E|E];
    rewrite E; discriminate.
Defined.

Lemma update_streak_regular_checkins_witness :
  Habit.history demo_habit
  = regular_checkins jan_29_2025 (timedelta_days (Habit.period demo_habit)) 3
  /\ exists self',
       Habit.update_streak 10 (Some (jan_29_2025 + timedelta_days 30))
         demo_habit
       = Some (Ok self')
       /\ Habit.streak self' = 3
       /\ Habit.longest_streak self' = 3.
Proof.
  assert (Habit.history demo_habit
          = regular_checkins jan_29_2025
              (timedelta_days (Habit.period demo_habit)) 3) as Hh
    by (vm_compute; reflexivity).
  split; [exact Hh|].
  apply (update_streak_regular_checkins demo_habit jan_29_2025 2
           (Some (jan_29_2025 + timedelta_days 30)) 10).
  - vm_compute. split; discriminate.
  - reflexivity.
  - exact Hh.
  - apply Z.leb_le. vm_compute. reflexivity.
  - apply Z.ltb_lt. vm_compute. reflexivity.
  - intros u Hu. injection Hu as <-. vm_compute. discriminate.
  - lia.
Defined.

Lemma update_streak_any_order_witness :
  exists self' other,
    Habit.update_streak 10 None demo_habit = Some (Ok self')
    /\ Habit.update_streak 10 None
         (Habit.set_history (rev (Habit.history demo_habit)) demo_habit)
       = Some (Ok other)
    /\ Habit.streak other = Habit.streak self'
    /\ Habit.longest_streak other = Habit.longest_streak self'.
Proof.
  destruct demo_habit_returns as [s H].
  destruct (update_streak_any_order 10 None demo_habit s
              (rev (Habit.history demo_habit))
              (Permutation_rev (Habit.history demo_habit)) H)
    as (o & Ho & Hs & Hl).
  exists s, o. split; [exact H|]. split; [exact Ho|]. split; assumption.
Defined.

Lemma Habit_from_dict_optional_keys_witness :
  fromisoformat "2025-01-29T00:00:00" = Some jan_29_2025
  /\ exists i w',
       Habit.next_id None (World 5) = (Ok i, w')
       /\ Habit.from_dict jan_29_2025
            (PyDict [("name"%string, PyStr "Read");
                     ("periodicity"%string, PyList [PyInt 1; PyInt 1]);
                     ("creation"%string, PyStr "2025-01-29T00:00:00");
                     ("habit_id"%string, PyNone)])
            (World 5)
          = (Ok (Habit.mk i "Read" (1, 1) 1 1 [] 0 0 jan_29_2025), w').
Proof.
  assert (fromisoformat "2025-01-29T00:00:00" = Some jan_29_2025) as Hc
    by (vm_compute; reflexivity).
  split; [exact Hc|].
  destruct (Habit_from_dict_optional_keys jan_29_2025
              [("name"%string, PyStr "Read");
               ("periodicity"%string, PyList [PyInt 1; PyInt 1]);
               ("creation"%string, PyStr "2025-01-29T00:00:00");
               ("habit_id"%string, PyNone)]
              (World 5) "Read" 1 1 "2025-01-29T00:00:00" jan_29_2025
              PyNone None eq_refl eq_refl eq_refl Hc eq_refl eq_refl)
    as (i & w' & Hn & Hok & _).
  exists i, w'. split; [exact Hn|].
  apply Hok; reflexivity.
Defined.

Lemma datetime_to_str_from_str_witness :
  valid_datetime (jan_29_2025 + 1)
  /\ datetime_from_str (datetime_to_str (jan_29_2025 + 1))
     = Ok (jan_29_2025 + 1)
  /\ String.length (datetime_to_str (jan_29_2025 + 1)) = 26%nat.
Proof.
  assert (valid_datetime (jan_29_2025 + 1)) as Hv
    by (split; vm_compute; [discriminate|reflexivity]).
  split; [exact Hv|].
  destruct (datetime_to_str_from_str (jan_29_2025 + 1) Hv) as (Hr & _ & Hl).
  split; [exact Hr|exact Hl].
Defined.

Lemma update_streak_without_reference_is_positive_witness :
  Habit.history demo_habit <> []
  /\ exists self',
       Habit.update_streak 10 None demo_habit = Some (Ok self')
       /\ 1 <= Habit.streak self'
       /\ 1 <= Habit.longest_streak self'.
Proof.
  assert (Habit.history demo_habit <> []) as Hne by (cbn; discriminate).
  split; [exact Hne|].
  destruct demo_habit_returns as [s H].
  exists s. split; [exact H|].
  apply (update_streak_without_reference_is_positive 10 demo_habit s Hne);
    [cbn; lia|cbn; lia|exact H].
Defined.

Lemma streak_needs_checkins_witness :
  exists self',
    Habit.update_streak 10 None demo_habit = Some (Ok self')
    /\ Habit.streak self' * Habit.frequency demo_habit
       <= 2 * Z.of_nat (List.length (Habit.history demo_habit)).
Proof.
  destruct demo_habit_returns as [s H].
  exists s. split; [exact H|].
  apply (streak_needs_checkins 10 None demo_habit s);
    [cbn; lia|cbn; lia|exact H].
Defined.

Lemma update_streak_every_second_period_witness :
  exists self',
    Habit.update_streak 10 None
      (Habit.set_history
         (regular_checkins jan_29_2025 (2 * timedelta_days 1) 3) demo_habit)
    = Some (Ok self')
    /\ Habit.streak self' = 5.
Proof.
  apply (update_streak_every_second_period
           (Habit.set_history
              (regular_checkins jan_29_2025 (2 * timedelta_days 1) 3)
              demo_habit)
           jan_29_2025 2 None 10).
  - vm_compute. split; discriminate.
  - reflexivity.
  - reflexivity.
  - apply Z.leb_le. vm_compute. reflexivity.
  - apply Z.ltb_lt. vm_compute. reflexivity.
  - intros u Hu. discriminate.
  - lia.
Defined.
